(** * OceanQuery: the ARGO ingestion pipeline

    A shallow embedding of [backend/src/data/ingestion] (config.py,
    parsers.py, mappers.py, database_ops.py, service.py) and of the table
    classes of [backend/src/db/models.py], followed by the properties of the
    pipeline that the specification states; then the quality-flag counts,
    the log maintenance and the statistics of the same files and the job
    registry of [backend/src/api/routes/ingestion.py], with further
    properties of the code.

    Conventions of the embedding.
    - A numpy/Python float is a binary64 value ([float] of the Standard
      Library): [np.isnan] is [PrimFloat.is_nan], comparisons are the IEEE
      ones.
    - A [datetime] is an integer count of nanoseconds since the ARGO reference
      date 1950-01-01 00:00:00 UTC.
    - [None] is [None]; an attribute that may be [None] has an [option] type.
    - A function that can raise returns an [Outcome]; a function that works
      on the database session is a [DB] computation, and [db_try_except] is
      the [try: ... except Exception: ...] statement.
    - The database is an explicit [Store]; a [Session] holds the tables as
      the session sees them, the point a rollback goes back to and the
      changes that wait for the next flush.  A session is closed without a
      commit, so the database after a call is the database before it.  What
      the engine does on its own (rejecting a statement, failing a flush) is
      read from oracles that are parameters of the development, and so is
      what [time.sleep] does with a delay.
    - Log lines (the [logger] calls) and wall-clock measurements
      ([processing_time], [duration]) are not part of the state. *)

From Stdlib Require Import ZArith List String Ascii Bool Lia Floats.
From Stdlib Require Import Sorted Permutation SpecFloat.
From stdpp Require Import gmap strings pretty.
Import ListNotations.

Open Scope string_scope.
Open Scope Z_scope.

(* A decimal literal stands for the nearest binary64 value, as it does in
   Python. *)
Set Warnings "-inexact-float".

(** ** Exceptions *)

(** The two classes of exception the code tells apart: [SQLAlchemyError]
    (with its subclass [IntegrityError]) and every other [Exception]. *)
Inductive Exn : Type :=
| SQLAlchemyError (msg : string)
| Exception (msg : string).

Inductive Outcome (A : Type) : Type :=
| Return (a : A)
| Raise (e : Exn).
Arguments Return {A} a.
Arguments Raise {A} e.

Definition bind {A B} (m : Outcome A) (k : A -> Outcome B) : Outcome B :=
  match m with
  | Return a => k a
  | Raise e => Raise e
  end.

(** ** Floats *)

Definition np_isnan (x : float) : bool := PrimFloat.is_nan x.

(** [lo <= x <= hi] on floats: false as soon as one side is NaN. *)
Definition between (lo x hi : float) : bool :=
  PrimFloat.leb lo x && PrimFloat.leb x hi.

(** A number as Python holds it: a [float] object, or the numpy array of no
    dimension that indexing a variable down to one element leaves
    ([ds[var][prof_idx].values]).  The two hold the same binary64 values;
    a library may take the one and refuse the other. *)
Inductive Number : Type :=
| PyFloat (x : float)
| NdArray (x : float).

Definition number_value (n : Number) : float :=
  match n with PyFloat x | NdArray x => x end.

(** ** config.py *)

Inductive DataMode : Type := REAL_TIME | DELAYED_MODE | ADJUSTED.

Definition DataMode_eqb (a b : DataMode) : bool :=
  match a, b with
  | REAL_TIME, REAL_TIME | DELAYED_MODE, DELAYED_MODE | ADJUSTED, ADJUSTED => true
  | _, _ => false
  end.

(** [DataMode(value)]: the member whose value is [value], [ValueError]
    otherwise. *)
Definition DataMode_of_value (value : string) : Outcome DataMode :=
  if String.eqb value "R" then Return REAL_TIME
  else if String.eqb value "D" then Return DELAYED_MODE
  else if String.eqb value "A" then Return ADJUSTED
  else Raise (Exception "ValueError: not a valid DataMode").

Record ValidationConfig : Type := {
  temp_min : float;
  temp_max : float;
  salinity_min : float;
  salinity_max : float;
  pressure_min : float;
  pressure_max : float;
  oxygen_min : float;
  oxygen_max : float;
  latitude_min : float;
  latitude_max : float;
  longitude_min : float;
  longitude_max : float;
  (* the two ISO dates, as [datetime.fromisoformat(..).replace(tzinfo=utc)]
     reads them *)
  min_date : Z;
  max_date : Z;
  required_variables : list string
}.

(** The optional [geographic_bounds] dictionary: each key may be absent. *)
Record GeographicBounds : Type := {
  lat_min : option float;
  lat_max : option float;
  lon_min : option float;
  lon_max : option float
}.

Record IngestionConfig : Type := {
  input_directory : string;
  file_patterns : list string;
  batch_size : Z;
  max_workers : Z;
  max_retries : Z;
  retry_delay : float;
  exponential_backoff : bool;
  progress_update_interval : Z;
  max_errors_per_file : Z;
  data_modes : list DataMode;
  geographic_bounds : option GeographicBounds;
  (* [date_range]: the parsed ["start"] and ["end"] *)
  date_range : option (Z * Z);
  validation : ValidationConfig
}.

Definition default_validation (today : Z) : ValidationConfig := {|
  temp_min := (-5)%float; temp_max := 40%float;
  salinity_min := 0%float; salinity_max := 45%float;
  pressure_min := (-10)%float; pressure_max := 12000%float;
  oxygen_min := 0%float; oxygen_max := 1000%float;
  latitude_min := (-90)%float; latitude_max := 90%float;
  longitude_min := (-180)%float; longitude_max := 180%float;
  (* 1990-01-01 is 14610 days after 1950-01-01 *)
  min_date := 14610 * 86400000000000;
  max_date := today;
  required_variables := ["JULD"; "LATITUDE"; "LONGITUDE"; "PRES"; "TEMP"; "PSAL"]
|}.

Definition default_config (today : Z) : IngestionConfig := {|
  input_directory := "data/raw/argo";
  file_patterns := ["*.nc"; "**/*.nc"; "*profiles*.nc"; "*Sprof*.nc"];
  batch_size := 1000;
  max_workers := 4;
  max_retries := 3;
  retry_delay := 1%float;
  exponential_backoff := true;
  progress_update_interval := 100;
  max_errors_per_file := 10;
  data_modes := [REAL_TIME; DELAYED_MODE; ADJUSTED];
  geographic_bounds := None;
  date_range := None;
  validation := default_validation today
|}.

(** Messages of the [errors] and [warnings] lists.  Where the source
    interpolates values into an f-string, the message keeps the values. *)
Inductive Message : Type :=
| Msg (text : string)
| FileDoesNotExist (file_path : string)
| FileIsEmpty (file_path : string)
| MissingRequiredDimensions (dims : list string)
| MissingCoreVariables (vars : list string)
| CannotOpenNetCDF (e : Exn)
| MissingRequiredVariables (vars : list string)
| ErrorParsingFile (file_path : string) (e : Exn)
| ErrorParsingProfile (prof_idx : nat) (e : Exn)
| ProfileLatitudeOutOfBounds (profile_id : string) (latitude : float)
| ProfileLongitudeOutOfBounds (profile_id : string) (longitude : float)
| ProfileDateOutOfRange (profile_id : string) (date_time : Z)
| ProfileNoValidTemperature (profile_id : string)
| ProfileNoValidSalinity (profile_id : string)
| DatabaseErrorFor (file_path : string) (e : Exn)
| ErrorText (e : Exn).

(** ** parsers.py: the parsed profile *)

Module ArgoProfile.
Record t : Type := {
  float_id : option string;
  cycle_number : Z;
  profile_id : string;
  data_mode : string;
  latitude : float;
  longitude : float;
  date_time : Z;
  platform_number : option string;
  project_name : option string;
  pi_name : option string;
  pressure : option (list float);
  pressure_qc : option (list string);
  temperature : option (list float);
  temperature_qc : option (list string);
  temperature_adjusted : option (list float);
  temperature_adjusted_qc : option (list string);
  salinity : option (list float);
  salinity_qc : option (list string);
  salinity_adjusted : option (list float);
  salinity_adjusted_qc : option (list string);
  oxygen : option (list float);
  oxygen_qc : option (list string);
  chlorophyll : option (list float);
  chlorophyll_qc : option (list string);
  position_qc : option string;
  date_qc : option string
}.
End ArgoProfile.

(** The [metadata] dictionary of a result: the entries the pipeline reads
    back.  [profiles = None] is the absent key. *)
Record Metadata : Type := {
  dimensions : list (string * Z);
  variables : list string;
  profiles : option (list ArgoProfile.t)
}.

Definition empty_metadata : Metadata :=
  {| dimensions := []; variables := []; profiles := None |}.

Module FileProcessingResult.
Record t : Type := {
  file_path : string;
  success : bool;
  records_processed : Z;
  records_inserted : Z;
  records_updated : Z;
  records_skipped : Z;
  errors : list Message;
  warnings : list Message;
  file_size : Z;
  metadata : Metadata
}.

(** [FileProcessingResult(file_path=.., success=.., errors=.., file_size=..)]
    with the dataclass defaults for the rest. *)
Definition make (file_path : string) (success : bool) (errors : list Message)
  (file_size : Z) : t :=
  {| file_path := file_path; success := success;
     records_processed := 0; records_inserted := 0; records_updated := 0;
     records_skipped := 0; errors := errors; warnings := [];
     file_size := file_size; metadata := empty_metadata |}.

Definition set_success (v : bool) (r : t) : t :=
  {| file_path := file_path r; success := v;
     records_processed := records_processed r; records_inserted := records_inserted r;
     records_updated := records_updated r; records_skipped := records_skipped r;
     errors := errors r; warnings := warnings r;
     file_size := file_size r; metadata := metadata r |}.

Definition set_records_processed (v : Z) (r : t) : t :=
  {| file_path := file_path r; success := success r;
     records_processed := v; records_inserted := records_inserted r;
     records_updated := records_updated r; records_skipped := records_skipped r;
     errors := errors r; warnings := warnings r;
     file_size := file_size r; metadata := metadata r |}.

Definition set_records_inserted (v : Z) (r : t) : t :=
  {| file_path := file_path r; success := success r;
     records_processed := records_processed r; records_inserted := v;
     records_updated := records_updated r; records_skipped := records_skipped r;
     errors := errors r; warnings := warnings r;
     file_size := file_size r; metadata := metadata r |}.

Definition set_records_skipped (v : Z) (r : t) : t :=
  {| file_path := file_path r; success := success r;
     records_processed := records_processed r; records_inserted := records_inserted r;
     records_updated := records_updated r; records_skipped := v;
     errors := errors r; warnings := warnings r;
     file_size := file_size r; metadata := metadata r |}.

Definition set_errors (v : list Message) (r : t) : t :=
  {| file_path := file_path r; success := success r;
     records_processed := records_processed r; records_inserted := records_inserted r;
     records_updated := records_updated r; records_skipped := records_skipped r;
     errors := v; warnings := warnings r;
     file_size := file_size r; metadata := metadata r |}.

Definition set_warnings (v : list Message) (r : t) : t :=
  {| file_path := file_path r; success := success r;
     records_processed := records_processed r; records_inserted := records_inserted r;
     records_updated := records_updated r; records_skipped := records_skipped r;
     errors := errors r; warnings := v;
     file_size := file_size r; metadata := metadata r |}.

Definition set_metadata (v : Metadata) (r : t) : t :=
  {| file_path := file_path r; success := success r;
     records_processed := records_processed r; records_inserted := records_inserted r;
     records_updated := records_updated r; records_skipped := records_skipped r;
     errors := errors r; warnings := warnings r;
     file_size := file_size r; metadata := v |}.
End FileProcessingResult.

(** ** The files: what [xarray] shows of a NetCDF dataset

    [ds[var][prof_idx].values] is read through one accessor per kind of
    variable; an accessor answers [None] where the read, or the conversion
    the source applies to it, raises. *)
Record Dataset : Type := {
  ds_dims : list (string * Z);
  ds_variables : list string;
  (* a character variable, decoded and stripped *)
  ds_text : string -> nat -> option string;
  (* [int(ds[var][prof_idx].values)] *)
  ds_int : string -> nat -> option Z;
  (* a scalar float variable: the number in [ds[var][prof_idx].values] *)
  ds_float : string -> nat -> option float;
  (* a per-level float variable *)
  ds_array : string -> nat -> option (list float);
  (* a per-level flag variable, after [astype(str)] *)
  ds_flags : string -> nat -> option (list string)
}.

(** A file on disk: its size and, when [xr.open_dataset] accepts it, its
    dataset. *)
Record File : Type := {
  st_size : Z;
  open_dataset : Outcome Dataset
}.

Definition has_variable (ds : Dataset) (var_name : string) : bool :=
  existsb (String.eqb var_name) (ds_variables ds).

(** [ds.dims.get(name, 0)] *)
Definition dims_get (ds : Dataset) (name : string) : Z :=
  match find (fun kv => String.eqb (fst kv) name) (ds_dims ds) with
  | Some kv => snd kv
  | None => 0
  end.

(** [ds[var][prof_idx]] for a variable that must exist: [KeyError] when it
    does not. *)
Definition getitem {A} (ds : Dataset) (read : string -> nat -> option A)
  (var_name : string) (prof_idx : nat) : Outcome A :=
  if has_variable ds var_name then
    match read var_name prof_idx with
    | Some v => Return v
    | None => Raise (Exception ("cannot read " ++ var_name))
    end
  else Raise (Exception ("KeyError: " ++ var_name)).

(** ** db/models.py: the table classes

    One record per class, used both for the objects the mapper builds and for
    the rows of the tables.  A column that may be NULL, or an attribute the
    constructor call may leave unset, is an [option].  The surrogate key [id]
    (a fresh [uuid4] per row, which no statement of the pipeline names) is
    left out; where the session writes a loaded float back, the row is found
    by [float_id], a unique column. *)

Module ArgoFloat.
Record t : Type := {
  float_id : option string;
  platform_number : option string;
  wmo_number : option string;
  project_name : option string;
  pi_name : option string;
  institution : option string;
  wmo_inst_type : option string;
  status : option string;
  deployment_date : option Z;
  last_contact_date : option Z;
  last_latitude : option float;
  last_longitude : option float;
  total_profiles : option Z;
  first_profile_date : option Z;
  last_profile_date : option Z;
  created_at : option Z;
  updated_at : option Z
}.

Definition set_last_contact_date (v : option Z) (r : t) : t :=
  {| float_id := float_id r; platform_number := platform_number r;
     wmo_number := wmo_number r; project_name := project_name r;
     pi_name := pi_name r; institution := institution r;
     wmo_inst_type := wmo_inst_type r; status := status r;
     deployment_date := deployment_date r; last_contact_date := v;
     last_latitude := last_latitude r; last_longitude := last_longitude r;
     total_profiles := total_profiles r;
     first_profile_date := first_profile_date r;
     last_profile_date := last_profile_date r; created_at := created_at r;
     updated_at := updated_at r |}.

Definition set_last_latitude (v : option float) (r : t) : t :=
  {| float_id := float_id r; platform_number := platform_number r;
     wmo_number := wmo_number r; project_name := project_name r;
     pi_name := pi_name r; institution := institution r;
     wmo_inst_type := wmo_inst_type r; status := status r;
     deployment_date := deployment_date r;
     last_contact_date := last_contact_date r; last_latitude := v;
     last_longitude := last_longitude r; total_profiles := total_profiles r;
     first_profile_date := first_profile_date r;
     last_profile_date := last_profile_date r; created_at := created_at r;
     updated_at := updated_at r |}.

Definition set_last_longitude (v : option float) (r : t) : t :=
  {| float_id := float_id r; platform_number := platform_number r;
     wmo_number := wmo_number r; project_name := project_name r;
     pi_name := pi_name r; institution := institution r;
     wmo_inst_type := wmo_inst_type r; status := status r;
     deployment_date := deployment_date r;
     last_contact_date := last_contact_date r;
     last_latitude := last_latitude r; last_longitude := v;
     total_profiles := total_profiles r;
     first_profile_date := first_profile_date r;
     last_profile_date := last_profile_date r; created_at := created_at r;
     updated_at := updated_at r |}.

Definition set_total_profiles (v : option Z) (r : t) : t :=
  {| float_id := float_id r; platform_number := platform_number r;
     wmo_number := wmo_number r; project_name := project_name r;
     pi_name := pi_name r; institution := institution r;
     wmo_inst_type := wmo_inst_type r; status := status r;
     deployment_date := deployment_date r;
     last_contact_date := last_contact_date r;
     last_latitude := last_latitude r; last_longitude := last_longitude r;
     total_profiles := v; first_profile_date := first_profile_date r;
     last_profile_date := last_profile_date r; created_at := created_at r;
     updated_at := updated_at r |}.

Definition set_first_profile_date (v : option Z) (r : t) : t :=
  {| float_id := float_id r; platform_number := platform_number r;
     wmo_number := wmo_number r; project_name := project_name r;
     pi_name := pi_name r; institution := institution r;
     wmo_inst_type := wmo_inst_type r; status := status r;
     deployment_date := deployment_date r;
     last_contact_date := last_contact_date r;
     last_latitude := last_latitude r; last_longitude := last_longitude r;
     total_profiles := total_profiles r; first_profile_date := v;
     last_profile_date := last_profile_date r; created_at := created_at r;
     updated_at := updated_at r |}.

Definition set_last_profile_date (v : option Z) (r : t) : t :=
  {| float_id := float_id r; platform_number := platform_number r;
     wmo_number := wmo_number r; project_name := project_name r;
     pi_name := pi_name r; institution := institution r;
     wmo_inst_type := wmo_inst_type r; status := status r;
     deployment_date := deployment_date r;
     last_contact_date := last_contact_date r;
     last_latitude := last_latitude r; last_longitude := last_longitude r;
     total_profiles := total_profiles r;
     first_profile_date := first_profile_date r; last_profile_date := v;
     created_at := created_at r; updated_at := updated_at r |}.

Definition set_status (v : option string) (r : t) : t :=
  {| float_id := float_id r; platform_number := platform_number r;
     wmo_number := wmo_number r; project_name := project_name r;
     pi_name := pi_name r; institution := institution r;
     wmo_inst_type := wmo_inst_type r; status := v;
     deployment_date := deployment_date r;
     last_contact_date := last_contact_date r;
     last_latitude := last_latitude r; last_longitude := last_longitude r;
     total_profiles := total_profiles r;
     first_profile_date := first_profile_date r;
     last_profile_date := last_profile_date r; created_at := created_at r;
     updated_at := updated_at r |}.

Definition set_updated_at (v : option Z) (r : t) : t :=
  {| float_id := float_id r; platform_number := platform_number r;
     wmo_number := wmo_number r; project_name := project_name r;
     pi_name := pi_name r; institution := institution r;
     wmo_inst_type := wmo_inst_type r; status := status r;
     deployment_date := deployment_date r;
     last_contact_date := last_contact_date r;
     last_latitude := last_latitude r; last_longitude := last_longitude r;
     total_profiles := total_profiles r;
     first_profile_date := first_profile_date r;
     last_profile_date := last_profile_date r; created_at := created_at r;
     updated_at := v |}.
End ArgoFloat.

Module DbArgoProfile.
Record t : Type := {
  profile_id : string;
  float_id : option string;
  cycle_number : Z;
  measurement_date : Z;
  latitude : float;
  longitude : float;
  data_points : option Z;
  max_pressure : option float;
  min_pressure : option float;
  quality_flag : option string;
  data_mode : option string;
  data_center : option string;
  processing_date : option Z;
  created_at : option Z;
  updated_at : option Z
}.
End DbArgoProfile.

Module ArgoMeasurement.
Record t : Type := {
  profile_id : string;
  pressure : float;
  depth : option float;
  temperature : option float;
  salinity : option float;
  oxygen : option float;
  ph : option float;
  nitrate : option float;
  chlorophyll_a : option float;
  backscattering : option float;
  fluorescence : option float;
  pressure_qc : option string;
  temperature_qc : option string;
  salinity_qc : option string;
  oxygen_qc : option string;
  ph_qc : option string;
  nitrate_qc : option string;
  chlorophyll_a_qc : option string;
  temperature_adjusted : option float;
  salinity_adjusted : option float;
  oxygen_adjusted : option float;
  temperature_adjusted_qc : option string
    (* set by the mapper on the object; the table has no such column *);
  salinity_adjusted_qc : option string
    (* set by the mapper on the object; the table has no such column *)
}.

Definition set_pressure_qc (v : option string) (r : t) : t :=
  {| profile_id := profile_id r; pressure := pressure r; depth := depth r;
     temperature := temperature r; salinity := salinity r;
     oxygen := oxygen r; ph := ph r; nitrate := nitrate r;
     chlorophyll_a := chlorophyll_a r; backscattering := backscattering r;
     fluorescence := fluorescence r; pressure_qc := v;
     temperature_qc := temperature_qc r; salinity_qc := salinity_qc r;
     oxygen_qc := oxygen_qc r; ph_qc := ph_qc r; nitrate_qc := nitrate_qc r;
     chlorophyll_a_qc := chlorophyll_a_qc r;
     temperature_adjusted := temperature_adjusted r;
     salinity_adjusted := salinity_adjusted r;
     oxygen_adjusted := oxygen_adjusted r;
     temperature_adjusted_qc := temperature_adjusted_qc r;
     salinity_adjusted_qc := salinity_adjusted_qc r |}.

Definition set_temperature (v : option float) (r : t) : t :=
  {| profile_id := profile_id r; pressure := pressure r; depth := depth r;
     temperature := v; salinity := salinity r; oxygen := oxygen r;
     ph := ph r; nitrate := nitrate r; chlorophyll_a := chlorophyll_a r;
     backscattering := backscattering r; fluorescence := fluorescence r;
     pressure_qc := pressure_qc r; temperature_qc := temperature_qc r;
     salinity_qc := salinity_qc r; oxygen_qc := oxygen_qc r;
     ph_qc := ph_qc r; nitrate_qc := nitrate_qc r;
     chlorophyll_a_qc := chlorophyll_a_qc r;
     temperature_adjusted := temperature_adjusted r;
     salinity_adjusted := salinity_adjusted r;
     oxygen_adjusted := oxygen_adjusted r;
     temperature_adjusted_qc := temperature_adjusted_qc r;
     salinity_adjusted_qc := salinity_adjusted_qc r |}.

Definition set_temperature_qc (v : option string) (r : t) : t :=
  {| profile_id := profile_id r; pressure := pressure r; depth := depth r;
     temperature := temperature r; salinity := salinity r;
     oxygen := oxygen r; ph := ph r; nitrate := nitrate r;
     chlorophyll_a := chlorophyll_a r; backscattering := backscattering r;
     fluorescence := fluorescence r; pressure_qc := pressure_qc r;
     temperature_qc := v; salinity_qc := salinity_qc r;
     oxygen_qc := oxygen_qc r; ph_qc := ph_qc r; nitrate_qc := nitrate_qc r;
     chlorophyll_a_qc := chlorophyll_a_qc r;
     temperature_adjusted := temperature_adjusted r;
     salinity_adjusted := salinity_adjusted r;
     oxygen_adjusted := oxygen_adjusted r;
     temperature_adjusted_qc := temperature_adjusted_qc r;
     salinity_adjusted_qc := salinity_adjusted_qc r |}.

Definition set_temperature_adjusted (v : option float) (r : t) : t :=
  {| profile_id := profile_id r; pressure := pressure r; depth := depth r;
     temperature := temperature r; salinity := salinity r;
     oxygen := oxygen r; ph := ph r; nitrate := nitrate r;
     chlorophyll_a := chlorophyll_a r; backscattering := backscattering r;
     fluorescence := fluorescence r; pressure_qc := pressure_qc r;
     temperature_qc := temperature_qc r; salinity_qc := salinity_qc r;
     oxygen_qc := oxygen_qc r; ph_qc := ph_qc r; nitrate_qc := nitrate_qc r;
     chlorophyll_a_qc := chlorophyll_a_qc r; temperature_adjusted := v;
     salinity_adjusted := salinity_adjusted r;
     oxygen_adjusted := oxygen_adjusted r;
     temperature_adjusted_qc := temperature_adjusted_qc r;
     salinity_adjusted_qc := salinity_adjusted_qc r |}.

Definition set_temperature_adjusted_qc (v : option string) (r : t) : t :=
  {| profile_id := profile_id r; pressure := pressure r; depth := depth r;
     temperature := temperature r; salinity := salinity r;
     oxygen := oxygen r; ph := ph r; nitrate := nitrate r;
     chlorophyll_a := chlorophyll_a r; backscattering := backscattering r;
     fluorescence := fluorescence r; pressure_qc := pressure_qc r;
     temperature_qc := temperature_qc r; salinity_qc := salinity_qc r;
     oxygen_qc := oxygen_qc r; ph_qc := ph_qc r; nitrate_qc := nitrate_qc r;
     chlorophyll_a_qc := chlorophyll_a_qc r;
     temperature_adjusted := temperature_adjusted r;
     salinity_adjusted := salinity_adjusted r;
     oxygen_adjusted := oxygen_adjusted r; temperature_adjusted_qc := v;
     salinity_adjusted_qc := salinity_adjusted_qc r |}.

Definition set_salinity (v : option float) (r : t) : t :=
  {| profile_id := profile_id r; pressure := pressure r; depth := depth r;
     temperature := temperature r; salinity := v; oxygen := oxygen r;
     ph := ph r; nitrate := nitrate r; chlorophyll_a := chlorophyll_a r;
     backscattering := backscattering r; fluorescence := fluorescence r;
     pressure_qc := pressure_qc r; temperature_qc := temperature_qc r;
     salinity_qc := salinity_qc r; oxygen_qc := oxygen_qc r;
     ph_qc := ph_qc r; nitrate_qc := nitrate_qc r;
     chlorophyll_a_qc := chlorophyll_a_qc r;
     temperature_adjusted := temperature_adjusted r;
     salinity_adjusted := salinity_adjusted r;
     oxygen_adjusted := oxygen_adjusted r;
     temperature_adjusted_qc := temperature_adjusted_qc r;
     salinity_adjusted_qc := salinity_adjusted_qc r |}.

Definition set_salinity_qc (v : option string) (r : t) : t :=
  {| profile_id := profile_id r; pressure := pressure r; depth := depth r;
     temperature := temperature r; salinity := salinity r;
     oxygen := oxygen r; ph := ph r; nitrate := nitrate r;
     chlorophyll_a := chlorophyll_a r; backscattering := backscattering r;
     fluorescence := fluorescence r; pressure_qc := pressure_qc r;
     temperature_qc := temperature_qc r; salinity_qc := v;
     oxygen_qc := oxygen_qc r; ph_qc := ph_qc r; nitrate_qc := nitrate_qc r;
     chlorophyll_a_qc := chlorophyll_a_qc r;
     temperature_adjusted := temperature_adjusted r;
     salinity_adjusted := salinity_adjusted r;
     oxygen_adjusted := oxygen_adjusted r;
     temperature_adjusted_qc := temperature_adjusted_qc r;
     salinity_adjusted_qc := salinity_adjusted_qc r |}.

Definition set_salinity_adjusted (v : option float) (r : t) : t :=
  {| profile_id := profile_id r; pressure := pressure r; depth := depth r;
     temperature := temperature r; salinity := salinity r;
     oxygen := oxygen r; ph := ph r; nitrate := nitrate r;
     chlorophyll_a := chlorophyll_a r; backscattering := backscattering r;
     fluorescence := fluorescence r; pressure_qc := pressure_qc r;
     temperature_qc := temperature_qc r; salinity_qc := salinity_qc r;
     oxygen_qc := oxygen_qc r; ph_qc := ph_qc r; nitrate_qc := nitrate_qc r;
     chlorophyll_a_qc := chlorophyll_a_qc r;
     temperature_adjusted := temperature_adjusted r; salinity_adjusted := v;
     oxygen_adjusted := oxygen_adjusted r;
     temperature_adjusted_qc := temperature_adjusted_qc r;
     salinity_adjusted_qc := salinity_adjusted_qc r |}.

Definition set_salinity_adjusted_qc (v : option string) (r : t) : t :=
  {| profile_id := profile_id r; pressure := pressure r; depth := depth r;
     temperature := temperature r; salinity := salinity r;
     oxygen := oxygen r; ph := ph r; nitrate := nitrate r;
     chlorophyll_a := chlorophyll_a r; backscattering := backscattering r;
     fluorescence := fluorescence r; pressure_qc := pressure_qc r;
     temperature_qc := temperature_qc r; salinity_qc := salinity_qc r;
     oxygen_qc := oxygen_qc r; ph_qc := ph_qc r; nitrate_qc := nitrate_qc r;
     chlorophyll_a_qc := chlorophyll_a_qc r;
     temperature_adjusted := temperature_adjusted r;
     salinity_adjusted := salinity_adjusted r;
     oxygen_adjusted := oxygen_adjusted r;
     temperature_adjusted_qc := temperature_adjusted_qc r;
     salinity_adjusted_qc := v |}.

Definition set_oxygen (v : option float) (r : t) : t :=
  {| profile_id := profile_id r; pressure := pressure r; depth := depth r;
     temperature := temperature r; salinity := salinity r; oxygen := v;
     ph := ph r; nitrate := nitrate r; chlorophyll_a := chlorophyll_a r;
     backscattering := backscattering r; fluorescence := fluorescence r;
     pressure_qc := pressure_qc r; temperature_qc := temperature_qc r;
     salinity_qc := salinity_qc r; oxygen_qc := oxygen_qc r;
     ph_qc := ph_qc r; nitrate_qc := nitrate_qc r;
     chlorophyll_a_qc := chlorophyll_a_qc r;
     temperature_adjusted := temperature_adjusted r;
     salinity_adjusted := salinity_adjusted r;
     oxygen_adjusted := oxygen_adjusted r;
     temperature_adjusted_qc := temperature_adjusted_qc r;
     salinity_adjusted_qc := salinity_adjusted_qc r |}.

Definition set_oxygen_qc (v : option string) (r : t) : t :=
  {| profile_id := profile_id r; pressure := pressure r; depth := depth r;
     temperature := temperature r; salinity := salinity r;
     oxygen := oxygen r; ph := ph r; nitrate := nitrate r;
     chlorophyll_a := chlorophyll_a r; backscattering := backscattering r;
     fluorescence := fluorescence r; pressure_qc := pressure_qc r;
     temperature_qc := temperature_qc r; salinity_qc := salinity_qc r;
     oxygen_qc := v; ph_qc := ph_qc r; nitrate_qc := nitrate_qc r;
     chlorophyll_a_qc := chlorophyll_a_qc r;
     temperature_adjusted := temperature_adjusted r;
     salinity_adjusted := salinity_adjusted r;
     oxygen_adjusted := oxygen_adjusted r;
     temperature_adjusted_qc := temperature_adjusted_qc r;
     salinity_adjusted_qc := salinity_adjusted_qc r |}.

Definition set_chlorophyll_a (v : option float) (r : t) : t :=
  {| profile_id := profile_id r; pressure := pressure r; depth := depth r;
     temperature := temperature r; salinity := salinity r;
     oxygen := oxygen r; ph := ph r; nitrate := nitrate r;
     chlorophyll_a := v; backscattering := backscattering r;
     fluorescence := fluorescence r; pressure_qc := pressure_qc r;
     temperature_qc := temperature_qc r; salinity_qc := salinity_qc r;
     oxygen_qc := oxygen_qc r; ph_qc := ph_qc r; nitrate_qc := nitrate_qc r;
     chlorophyll_a_qc := chlorophyll_a_qc r;
     temperature_adjusted := temperature_adjusted r;
     salinity_adjusted := salinity_adjusted r;
     oxygen_adjusted := oxygen_adjusted r;
     temperature_adjusted_qc := temperature_adjusted_qc r;
     salinity_adjusted_qc := salinity_adjusted_qc r |}.

Definition set_chlorophyll_a_qc (v : option string) (r : t) : t :=
  {| profile_id := profile_id r; pressure := pressure r; depth := depth r;
     temperature := temperature r; salinity := salinity r;
     oxygen := oxygen r; ph := ph r; nitrate := nitrate r;
     chlorophyll_a := chlorophyll_a r; backscattering := backscattering r;
     fluorescence := fluorescence r; pressure_qc := pressure_qc r;
     temperature_qc := temperature_qc r; salinity_qc := salinity_qc r;
     oxygen_qc := oxygen_qc r; ph_qc := ph_qc r; nitrate_qc := nitrate_qc r;
     chlorophyll_a_qc := v; temperature_adjusted := temperature_adjusted r;
     salinity_adjusted := salinity_adjusted r;
     oxygen_adjusted := oxygen_adjusted r;
     temperature_adjusted_qc := temperature_adjusted_qc r;
     salinity_adjusted_qc := salinity_adjusted_qc r |}.
End ArgoMeasurement.

Module DataIngestionLog.
Record t : Type := {
  filename : string;
  file_path : option string;
  file_size : option Z;
  file_hash : option string;
  status : option string;
  started_at : option Z;
  completed_at : option Z;
  error_message : option (list Message)
    (* the lines that the source joins with a newline *);
  profiles_processed : option Z;
  measurements_processed : option Z;
  floats_processed : option Z;
  processor_version : option string;
  processing_parameters : option string
}.
End DataIngestionLog.

(** ** The database

    The four tables, in insertion order.  [session.execute] and
    [session.flush] change the store unless the engine raises. *)
Record Store : Type := {
  argo_floats : list ArgoFloat.t;
  argo_profiles : list DbArgoProfile.t;
  argo_measurements : list ArgoMeasurement.t;
  data_ingestion_logs : list DataIngestionLog.t
}.

Definition set_argo_floats (v : list ArgoFloat.t) (s : Store) : Store :=
  {| argo_floats := v; argo_profiles := argo_profiles s;
     argo_measurements := argo_measurements s;
     data_ingestion_logs := data_ingestion_logs s |}.

Definition set_argo_profiles (v : list DbArgoProfile.t) (s : Store) : Store :=
  {| argo_floats := argo_floats s; argo_profiles := v;
     argo_measurements := argo_measurements s;
     data_ingestion_logs := data_ingestion_logs s |}.

Definition set_argo_measurements (v : list ArgoMeasurement.t) (s : Store) : Store :=
  {| argo_floats := argo_floats s; argo_profiles := argo_profiles s;
     argo_measurements := v;
     data_ingestion_logs := data_ingestion_logs s |}.

Definition set_data_ingestion_logs (v : list DataIngestionLog.t) (s : Store) : Store :=
  {| argo_floats := argo_floats s; argo_profiles := argo_profiles s;
     argo_measurements := argo_measurements s;
     data_ingestion_logs := v |}.

(** A computation on the tables that a session sees: its outcome and the
    tables afterwards.  A statement that raises leaves them as the earlier
    statements made them; undoing them is the work of the two context
    managers ([transaction], [get_session]). *)
Definition DB (A : Type) : Type := Store -> Outcome A * Store.

Definition db_bind {A B} (m : DB A) (k : A -> DB B) : DB B :=
  fun session =>
    match m session with
    | (Return a, session') => k a session'
    | (Raise e, session') => (Raise e, session')
    end.

(** [try: body  except Exception as e: handler] *)
Definition db_try_except {A} (body : DB A) (handler : Exn -> DB A) : DB A :=
  fun session =>
    match body session with
    | (Return a, session') => (Return a, session')
    | (Raise e, session') => handler e session'
    end.

(** What a flush sends: an UPDATE for every loaded float whose attributes
    have changed (the float as it was loaded and as it is now) and an INSERT
    for every audit-log row that was added. *)
Record Flush : Type := {
  changed_floats : list (ArgoFloat.t * ArgoFloat.t);
  added_logs : list DataIngestionLog.t
}.

(** The session ([sqlalchemy.orm.Session], made by
    [sessionmaker(autocommit=False, autoflush=False)]) as the pipeline's
    code can tell it:
    - [tables]: the tables as the session sees them, that is the database
      when the session began, changed by the statements and flushes of the
      session;
    - [begun]: the tables as they were when the innermost transaction that
      is still open began ([begin_nested], or the session's own begin); a
      rollback goes back to them;
    - [inactive]: the exception of a flush that failed.  When a flush fails
      SQLAlchemy rolls the innermost transaction back and takes it out of
      use: that transaction can no longer be committed;
    - [dirty]: the floats that the session has loaded and that were changed
      in place since, each with its state when loaded.  They wait for the
      next flush. *)
Record Session : Type := {
  tables : Store;
  begun : Store;
  inactive : option Exn;
  dirty : list (ArgoFloat.t * ArgoFloat.t)
}.

Definition set_tables (v : Store) (s : Session) : Session :=
  {| tables := v; begun := begun s; inactive := inactive s; dirty := dirty s |}.

Definition set_dirty (v : list (ArgoFloat.t * ArgoFloat.t)) (s : Session) : Session :=
  {| tables := tables s; begun := begun s; inactive := inactive s; dirty := v |}.

(** [SessionLocal()]: a session on the database as it is. *)
Definition SessionLocal (database : Store) : Session :=
  {| tables := database; begun := database; inactive := None; dirty := [] |}.

(** A block of statements that works on the session and on the Python
    objects in its scope ([heap]): what it raises, and the objects and the
    session afterwards.  A rollback undoes what was done to the session, not
    what was assigned to the objects. *)
Definition Block (H : Type) : Type := H -> Session -> Outcome unit * H * Session.

(** The statements the pipeline sends, each with the rows it proposes (the
    [excluded] rows of the ON CONFLICT clause). *)
Inductive Statement : Type :=
| UpsertFloats (excluded : list ArgoFloat.t)
| UpsertProfiles (excluded : list DbArgoProfile.t)
| UpsertMeasurements (excluded : list ArgoMeasurement.t).

(** Equality of two nullable text keys as a unique index sees it: NULL
    conflicts with nothing. *)
Definition sql_text_eqb (a b : option string) : bool :=
  match a, b with
  | Some x, Some y => String.eqb x y
  | _, _ => false
  end.

(** Equality of two [float8] keys: the IEEE one, with NaN equal to itself. *)
Definition sql_float_eqb (x y : float) : bool :=
  PrimFloat.eqb x y || (PrimFloat.is_nan x && PrimFloat.is_nan y).

(** [INSERT ... ON CONFLICT (key) DO UPDATE SET ...] for one proposed row:
    the rows with the key of [excluded] are updated by [set_], and the row is
    inserted when there is none. *)
Definition on_conflict_do_update {R : Type} (same_key : R -> R -> bool)
  (set_ : R -> R -> R) (table : list R) (excluded : R) : list R :=
  if existsb (same_key excluded) table
  then map (fun row => if same_key excluded row then set_ row excluded else row) table
  else table ++ [excluded].

(** ** Paths *)

Fixpoint split_path (s : string) (current : string) : list string :=
  match s with
  | EmptyString => [current]
  | String c rest =>
    if Ascii.eqb c "/"%char then current :: split_path rest ""
    else split_path rest (current ++ String c "")
  end.

(** [Path(p).name]: the last component. *)
Definition path_name (p : string) : string :=
  List.last (List.filter (fun part => negb (String.eqb part "")) (split_path p "")) "".

(** The order of [Path] objects: component by component. *)
Fixpoint parts_leb (a b : list string) : bool :=
  match a, b with
  | [], _ => true
  | _ :: _, [] => false
  | x :: a', y :: b' =>
    match String.compare x y with
    | Lt => true
    | Gt => false
    | Eq => parts_leb a' b'
    end
  end.

Definition path_leb (p q : string) : bool :=
  parts_leb (split_path p "") (split_path q "").

Fixpoint insert_sorted (p : string) (sorted : list string) : list string :=
  match sorted with
  | [] => [p]
  | q :: rest => if path_leb p q then p :: sorted else q :: insert_sorted p rest
  end.

(** [sorted(set(files))] *)
Definition sorted_set (files : list string) : list string :=
  fold_right insert_sorted [] (remove_dups files).

(** The dictionary [batch_map_profiles] returns. *)
Module ModelsDict.
Record t : Type := {
  floats : list ArgoFloat.t;
  profiles : list DbArgoProfile.t;
  measurements : list ArgoMeasurement.t
}.
End ModelsDict.

(** The dictionary [create_ingestion_log_entry] returns. *)
Module LogEntry.
Record t : Type := {
  file_path : string;
  status : string;
  records_processed : Z;
  records_inserted : Z;
  error_count : Z;
  error_messages : list Message;
  ingested_at : Z;
  metadata : Metadata
}.
End LogEntry.

(** A Python [dict] that keeps the position of the first assignment to a
    key: [d[k] = v]. *)
Fixpoint dict_set {K V : Type} (eqb : K -> K -> bool) (k : K) (v : V)
  (d : list (K * V)) : list (K * V) :=
  match d with
  | [] => [(k, v)]
  | (k', v') :: rest =>
    if eqb k k' then (k, v) :: rest else (k', v') :: dict_set eqb k v rest
  end.

(** [self.stats] of the service: the counters the code updates. *)
Module Stats.
Record t : Type := {
  files_discovered : Z;
  files_processed : Z;
  files_successful : Z;
  files_failed : Z;
  files_skipped : Z;
  total_records_processed : Z;
  total_records_inserted : Z
}.

Definition initial : t :=
  {| files_discovered := 0; files_processed := 0; files_successful := 0;
     files_failed := 0; files_skipped := 0;
     total_records_processed := 0; total_records_inserted := 0 |}.
End Stats.

Module IngestionSummary.
Record t : Type := {
  files_processed : Z;
  files_successful : Z;
  files_failed : Z;
  total_records_processed : Z;
  total_records_inserted : Z;
  total_records_updated : Z;
  total_records_skipped : Z
}.
End IngestionSummary.

(** [l[i:i + size]] for [i] in steps of [size]; [fuel] bounds the number of
    slices. *)
Fixpoint slices {A : Type} (fuel size : nat) (l : list A) : list (list A) :=
  match fuel with
  | O => []
  | S fuel' =>
    match l with
    | [] => []
    | _ :: _ => firstn size l :: slices fuel' size (skipn size l)
    end
  end.

(** [x is not None] *)
Definition is_not_None {A} (x : option A) : bool :=
  match x with Some _ => true | None => false end.

Section Pipeline.

(** [pd.Timedelta(days=x)] in nanoseconds, [None] when pandas raises (an
    argument of a type it does not take, a non-finite or too large day
    count).  The conversion is pandas' own. *)
Variable pd_Timedelta_days : Number -> option Z.

(** The file system: the file at a path, and [Path(directory).glob(pattern)]. *)
Variable fs : string -> option File.
Variable glob : string -> string -> list string.

(** [self.config] of the parser, the database operations, the transaction
    manager and the service: one configuration object. *)
Variable config : IngestionConfig.

(** ** parsers.py: ArgoNetCDFParser *)

Definition _validate_required_variables (ds : Dataset) : list string :=
  List.filter (fun v => negb (has_variable ds v))
    (required_variables (validation config)).

Definition _extract_file_metadata (ds : Dataset) : Metadata :=
  {| dimensions := ds_dims ds; variables := ds_variables ds; profiles := None |}.

Definition _extract_string_value (ds : Dataset) (var_name : string)
  (prof_idx : nat) (default : option string) : option string :=
  if has_variable ds var_name then
    match ds_text ds var_name prof_idx with
    | Some value => Some value
    | None => default
    end
  else default.

Definition _extract_qc_array (ds : Dataset) (var_name : string)
  (prof_idx : nat) : option (list string) :=
  if has_variable ds var_name then ds_flags ds var_name prof_idx else None.

(** ARGO reference date: 1950-01-01 00:00:00 UTC. *)
Definition reference_date : Z := 0.

Definition _julian_to_datetime (julian_day : Number) : Outcome Z :=
  match pd_Timedelta_days julian_day with
  | Some delta_days => Return (reference_date + delta_days)
  | None => Raise (Exception "Error converting Julian day")
  end.

(** One [if var in ds.variables:] block of [_extract_measurements]: the
    values and their flags, both [None] when the variable is absent. *)
Definition extract_variable (ds : Dataset) (var_name qc_name : string)
  (prof_idx : nat) : Outcome (option (list float) * option (list string)) :=
  if has_variable ds var_name then
    bind (getitem ds (ds_array ds) var_name prof_idx) (fun values =>
    Return (Some values, _extract_qc_array ds qc_name prof_idx))
  else Return (None, None).

(** f"{float_id}_{cycle_number}" *)
Definition make_profile_id (float_id : option string) (cycle_number : Z) : string :=
  default "None" float_id ++ "_" ++ pretty cycle_number.

(** The [try] block of [_parse_single_profile].  Latitude and longitude go
    through [float(...)]; the Julian day is used as [.values] gives it, an
    array of no dimension. *)
Definition parse_single_profile_body (ds : Dataset) (prof_idx : nat)
  : Outcome (option ArgoProfile.t) :=
  let float_id := _extract_string_value ds "PLATFORM_NUMBER" prof_idx None in
  bind (getitem ds (ds_int ds) "CYCLE_NUMBER" prof_idx) (fun cycle_number =>
  let profile_id := make_profile_id float_id cycle_number in
  let data_mode := _extract_string_value ds "DATA_MODE" prof_idx (Some "R") in
  bind (getitem ds (ds_float ds) "LATITUDE" prof_idx) (fun latitude =>
  bind (getitem ds (ds_float ds) "LONGITUDE" prof_idx) (fun longitude =>
  bind (getitem ds (ds_float ds) "JULD" prof_idx) (fun value =>
  let julian_day := NdArray value in
  if np_isnan (number_value julian_day) then Return None
  else
  bind (_julian_to_datetime julian_day) (fun date_time =>
  bind (extract_variable ds "PRES" "PRES_QC" prof_idx) (fun pres =>
  bind (extract_variable ds "TEMP" "TEMP_QC" prof_idx) (fun temp =>
  bind (extract_variable ds "TEMP_ADJUSTED" "TEMP_ADJUSTED_QC" prof_idx) (fun temp_adj =>
  bind (extract_variable ds "PSAL" "PSAL_QC" prof_idx) (fun psal =>
  bind (extract_variable ds "PSAL_ADJUSTED" "PSAL_ADJUSTED_QC" prof_idx) (fun psal_adj =>
  bind (extract_variable ds "DOXY" "DOXY_QC" prof_idx) (fun doxy =>
  bind (extract_variable ds "CHLA" "CHLA_QC" prof_idx) (fun chla =>
  Return (Some {|
    ArgoProfile.float_id := float_id;
    ArgoProfile.cycle_number := cycle_number;
    ArgoProfile.profile_id := profile_id;
    ArgoProfile.data_mode := default "R" data_mode;
    ArgoProfile.latitude := latitude;
    ArgoProfile.longitude := longitude;
    ArgoProfile.date_time := date_time;
    ArgoProfile.platform_number :=
      _extract_string_value ds "PLATFORM_NUMBER" prof_idx None;
    ArgoProfile.project_name :=
      _extract_string_value ds "PROJECT_NAME" prof_idx None;
    ArgoProfile.pi_name := _extract_string_value ds "PI_NAME" prof_idx None;
    ArgoProfile.pressure := fst pres;
    ArgoProfile.pressure_qc := snd pres;
    ArgoProfile.temperature := fst temp;
    ArgoProfile.temperature_qc := snd temp;
    ArgoProfile.temperature_adjusted := fst temp_adj;
    ArgoProfile.temperature_adjusted_qc := snd temp_adj;
    ArgoProfile.salinity := fst psal;
    ArgoProfile.salinity_qc := snd psal;
    ArgoProfile.salinity_adjusted := fst psal_adj;
    ArgoProfile.salinity_adjusted_qc := snd psal_adj;
    ArgoProfile.oxygen := fst doxy;
    ArgoProfile.oxygen_qc := snd doxy;
    ArgoProfile.chlorophyll := fst chla;
    ArgoProfile.chlorophyll_qc := snd chla;
    ArgoProfile.position_qc :=
      _extract_string_value ds "POSITION_QC" prof_idx None;
    ArgoProfile.date_qc := _extract_string_value ds "JULD_QC" prof_idx None
  |}))))))))))))).

(** Every exception of the body is caught: the profile is [None]. *)
Definition _parse_single_profile (ds : Dataset) (prof_idx : nat)
  : option ArgoProfile.t :=
  match parse_single_profile_body ds prof_idx with
  | Return profile => profile
  | Raise _ => None
  end.

(** [if self.config.geographic_bounds:] holds for a non-empty dictionary. *)
Definition bounds_given (b : GeographicBounds) : bool :=
  is_not_None (lat_min b) || is_not_None (lat_max b)
  || is_not_None (lon_min b) || is_not_None (lon_max b).

Definition geographic_filter_rejects (profile : ArgoProfile.t) : bool :=
  match geographic_bounds config with
  | Some bounds =>
    if bounds_given bounds then
      negb (between (default (-90)%float (lat_min bounds))
                    (ArgoProfile.latitude profile)
                    (default 90%float (lat_max bounds)))
      || negb (between (default (-180)%float (lon_min bounds))
                       (ArgoProfile.longitude profile)
                       (default 180%float (lon_max bounds)))
    else false
  | None => false
  end.

Definition date_range_rejects (profile : ArgoProfile.t) : bool :=
  match date_range config with
  | Some (start_date, end_date) =>
    negb ((start_date <=? ArgoProfile.date_time profile)
          && (ArgoProfile.date_time profile <=? end_date))
  | None => false
  end.

(** [not np.any(np.logical_and(values >= lo, values <= hi))] *)
Definition none_within (lo hi : float) (values : list float) : bool :=
  negb (existsb (fun x => between lo x hi) values).

Definition range_warnings (profile : ArgoProfile.t) : list Message :=
  let v := validation config in
  let pid := ArgoProfile.profile_id profile in
  match ArgoProfile.temperature profile with
  | Some temperature =>
    if none_within (temp_min v) (temp_max v) temperature
    then [ProfileNoValidTemperature pid] else []
  | None => []
  end ++
  match ArgoProfile.salinity profile with
  | Some salinity =>
    if none_within (salinity_min v) (salinity_max v) salinity
    then [ProfileNoValidSalinity pid] else []
  | None => []
  end.

Definition bounds_errors (profile : ArgoProfile.t) : list Message :=
  let v := validation config in
  let pid := ArgoProfile.profile_id profile in
  (if negb (between (latitude_min v) (ArgoProfile.latitude profile) (latitude_max v))
   then [ProfileLatitudeOutOfBounds pid (ArgoProfile.latitude profile)] else [])
  ++
  (if negb (between (longitude_min v) (ArgoProfile.longitude profile) (longitude_max v))
   then [ProfileLongitudeOutOfBounds pid (ArgoProfile.longitude profile)] else [])
  ++
  (if negb ((min_date v <=? ArgoProfile.date_time profile)
            && (ArgoProfile.date_time profile <=? max_date v))
   then [ProfileDateOutOfRange pid (ArgoProfile.date_time profile)] else []).

(** [_validate_profile]: the verdict and the result with the messages it
    appended.  The three filters return [False] before the collected
    [errors] reach the result; [DataMode(profile.data_mode)] raises for an
    unknown mode. *)
Definition _validate_profile (profile : ArgoProfile.t)
  (result : FileProcessingResult.t) : Outcome (bool * FileProcessingResult.t) :=
  let errors := bounds_errors profile in
  if geographic_filter_rejects profile then Return (false, result)
  else if date_range_rejects profile then Return (false, result)
  else
  bind (DataMode_of_value (ArgoProfile.data_mode profile)) (fun mode =>
  if negb (existsb (DataMode_eqb mode) (data_modes config))
  then Return (false, result)
  else
  let warnings := range_warnings profile in
  match errors with
  | _ :: _ =>
    Return (false,
      FileProcessingResult.set_errors
        (FileProcessingResult.errors result ++ errors) result)
  | [] =>
    Return (true,
      match warnings with
      | _ :: _ =>
        FileProcessingResult.set_warnings
          (FileProcessingResult.warnings result ++ warnings) result
      | [] => result
      end)
  end).

Definition skip_one (result : FileProcessingResult.t) : FileProcessingResult.t :=
  FileProcessingResult.set_records_skipped
    (FileProcessingResult.records_skipped result + 1) result.

(** The [try] block of the loop of [_parse_profiles]: the profile to yield,
    if any, and the result. *)
Definition parse_profiles_try (ds : Dataset) (prof_idx : nat)
  (result : FileProcessingResult.t)
  : Outcome (option ArgoProfile.t * FileProcessingResult.t) :=
  match _parse_single_profile ds prof_idx with
  | Some profile =>
    bind (_validate_profile profile result) (fun vr =>
    if fst vr then Return (Some profile, snd vr)
    else Return (None, skip_one (snd vr)))
  | None => Return (None, skip_one result)
  end.

(** The [except] block: the message is appended, the profile counted as
    skipped. *)
Definition parse_profiles_except (prof_idx : nat) (e : Exn)
  (result : FileProcessingResult.t) : FileProcessingResult.t :=
  skip_one
    (FileProcessingResult.set_errors
       (FileProcessingResult.errors result ++ [ErrorParsingProfile prof_idx e])
       result).

Definition too_many_errors (result : FileProcessingResult.t) : bool :=
  max_errors_per_file config
  <=? Z.of_nat (length (FileProcessingResult.errors result)).

(** The loop of [_parse_profiles] over the remaining indices; [break] ends
    it. *)
Fixpoint parse_profiles_loop (ds : Dataset) (indices : list nat)
  (result : FileProcessingResult.t)
  : list ArgoProfile.t * FileProcessingResult.t :=
  match indices with
  | [] => ([], result)
  | prof_idx :: rest =>
    match parse_profiles_try ds prof_idx result with
    | Return (Some profile, result1) =>
      let '(yielded, result2) := parse_profiles_loop ds rest result1 in
      (profile :: yielded, result2)
    | Return (None, result1) => parse_profiles_loop ds rest result1
    | Raise e =>
      let result1 := parse_profiles_except prof_idx e result in
      if too_many_errors result1 then ([], result1)
      else parse_profiles_loop ds rest result1
    end
  end.

(** [list(self._parse_profiles(ds, result))] with the result as the
    generator leaves it. *)
Definition _parse_profiles (ds : Dataset) (result : FileProcessingResult.t)
  : list ArgoProfile.t * FileProcessingResult.t :=
  let n_prof := dims_get ds "N_PROF" in
  parse_profiles_loop ds (seq 0 (Z.to_nat n_prof)) result.

Definition exists_file (file_path : string) : bool := is_not_None (fs file_path).

Definition xr_open_dataset (file_path : string) : Outcome Dataset :=
  match fs file_path with
  | Some f => open_dataset f
  | None => Raise (Exception ("No such file: " ++ file_path))
  end.

Definition parse_file (file_path : string) : FileProcessingResult.t :=
  let result :=
    FileProcessingResult.make file_path false []
      (match fs file_path with Some f => st_size f | None => 0 end) in
  match xr_open_dataset file_path with
  | Return ds =>
    let missing_vars := _validate_required_variables ds in
    match missing_vars with
    | _ :: _ =>
      FileProcessingResult.set_errors
        (FileProcessingResult.errors result ++ [MissingRequiredVariables missing_vars])
        result
    | [] =>
      let result := FileProcessingResult.set_metadata (_extract_file_metadata ds) result in
      let '(profiles, result) := _parse_profiles ds result in
      let result :=
        FileProcessingResult.set_records_processed (Z.of_nat (length profiles)) result in
      let result :=
        FileProcessingResult.set_metadata
          {| dimensions := dimensions (FileProcessingResult.metadata result);
             variables := variables (FileProcessingResult.metadata result);
             profiles := Some profiles |} result in
      FileProcessingResult.set_success true result
    end
  | Raise e =>
    FileProcessingResult.set_errors
      (FileProcessingResult.errors result ++ [ErrorParsingFile file_path e]) result
  end.

(** ** parsers.py: discovery and the structural pre-check *)

Definition validate_netcdf_file (file_path : string) : bool * list Message :=
  match fs file_path with
  | None => (false, [FileDoesNotExist file_path])
  | Some f =>
    if st_size f =? 0 then (false, [FileIsEmpty file_path])
    else
      let errors :=
        match open_dataset f with
        | Return ds =>
          let missing_dims :=
            List.filter
              (fun dim => negb (existsb (fun kv => String.eqb (fst kv) dim) (ds_dims ds)))
              ["N_PROF"] in
          let missing_vars :=
            List.filter (fun var => negb (has_variable ds var))
              ["LATITUDE"; "LONGITUDE"; "JULD"] in
          ((match missing_dims with
            | _ :: _ => [MissingRequiredDimensions missing_dims] | [] => [] end)
           ++
           (match missing_vars with
            | _ :: _ => [MissingCoreVariables missing_vars] | [] => [] end))%list
        | Raise e => [CannotOpenNetCDF e]
        end in
      (Nat.eqb (length errors) 0, errors)
  end.

Definition discover_argo_files (input_directory : string) (patterns : list string)
  : list string :=
  let files := flat_map (fun pattern => glob input_directory pattern) patterns in
  sorted_set files.

(** ** mappers.py: ArgoDataMapper *)

(** [s[:200] if s else None] *)
Definition truncated_200 (s : option string) : option string :=
  match s with
  | Some text => if String.eqb text "" then None else Some (substring 0 200 text)
  | None => None
  end.

(** [session.query(ArgoFloat).filter(ArgoFloat.float_id == float_id).first()] *)
Definition query_float (session : Store) (float_id : option string)
  : option ArgoFloat.t :=
  find (fun row => bool_decide (ArgoFloat.float_id row = float_id))
    (argo_floats session).

Definition new_float (profile : ArgoProfile.t) : ArgoFloat.t := {|
  ArgoFloat.float_id := ArgoProfile.float_id profile;
  ArgoFloat.platform_number := ArgoProfile.platform_number profile;
  ArgoFloat.wmo_number := None;
  ArgoFloat.project_name := truncated_200 (ArgoProfile.project_name profile);
  ArgoFloat.pi_name := truncated_200 (ArgoProfile.pi_name profile);
  ArgoFloat.institution := None;
  ArgoFloat.wmo_inst_type := None;
  ArgoFloat.status := Some "active";
  ArgoFloat.deployment_date := Some (ArgoProfile.date_time profile);
  ArgoFloat.last_contact_date := Some (ArgoProfile.date_time profile);
  ArgoFloat.last_latitude := None;
  ArgoFloat.last_longitude := None;
  ArgoFloat.total_profiles := Some 1;
  ArgoFloat.first_profile_date := Some (ArgoProfile.date_time profile);
  ArgoFloat.last_profile_date := Some (ArgoProfile.date_time profile);
  ArgoFloat.created_at := None;
  ArgoFloat.updated_at := None
|}.

(** [stored is None or date_time > stored], and the same with [<]. *)
Definition None_or_before (stored : option Z) (date_time : Z) : bool :=
  match stored with
  | None => true
  | Some d => d <? date_time
  end.

Definition None_or_after (stored : option Z) (date_time : Z) : bool :=
  match stored with
  | None => true
  | Some d => date_time <? d
  end.

(** The [else] branch of [_get_or_create_float]: the float found in the
    store, updated with one more profile. *)
Definition update_float (profile : ArgoProfile.t) (float_model : ArgoFloat.t)
  : ArgoFloat.t :=
  let date_time := ArgoProfile.date_time profile in
  let float_model :=
    if None_or_before (ArgoFloat.last_contact_date float_model) date_time
    then
      ArgoFloat.set_last_longitude (Some (ArgoProfile.longitude profile))
        (ArgoFloat.set_last_latitude (Some (ArgoProfile.latitude profile))
           (ArgoFloat.set_last_contact_date (Some date_time) float_model))
    else float_model in
  let float_model :=
    ArgoFloat.set_total_profiles
      (Some (default 0 (ArgoFloat.total_profiles float_model) + 1)) float_model in
  let float_model :=
    if None_or_after (ArgoFloat.first_profile_date float_model) date_time
    then ArgoFloat.set_first_profile_date (Some date_time) float_model
    else float_model in
  if None_or_before (ArgoFloat.last_profile_date float_model) date_time
  then ArgoFloat.set_last_profile_date (Some date_time) float_model
  else float_model.

(** [_get_or_create_float]: the float model and the cache afterwards.  A
    model found in [self._float_cache] is returned as it is. *)
Definition _get_or_create_float (profile : ArgoProfile.t) (session : Store)
  (_float_cache : gmap (option string) ArgoFloat.t)
  : ArgoFloat.t * gmap (option string) ArgoFloat.t :=
  match _float_cache !! ArgoProfile.float_id profile with
  | Some cached => (cached, _float_cache)
  | None =>
    let float_model :=
      match query_float session (ArgoProfile.float_id profile) with
      | None => new_float profile
      | Some found => update_float profile found
      end in
    (float_model, <[ArgoProfile.float_id profile := float_model]> _float_cache)
  end.

Definition float_max (a b : float) : float := if PrimFloat.ltb a b then b else a.
Definition float_min (a b : float) : float := if PrimFloat.ltb b a then b else a.

Definition not_nan (values : list float) : list float :=
  List.filter (fun x => negb (np_isnan x)) values.

(** [float(np.nanmax(values))] when a value is not NaN. *)
Definition np_nanmax (values : list float) : option float :=
  match not_nan values with
  | [] => None
  | x :: rest => Some (fold_left float_max rest x)
  end.

Definition np_nanmin (values : list float) : option float :=
  match not_nan values with
  | [] => None
  | x :: rest => Some (fold_left float_min rest x)
  end.

Definition _create_profile_model (profile : ArgoProfile.t)
  (float_model : ArgoFloat.t) : DbArgoProfile.t :=
  let n_levels :=
    match ArgoProfile.pressure profile with
    | Some pressure => Z.of_nat (length (not_nan pressure))
    | None => 0
    end in
  {| DbArgoProfile.profile_id := ArgoProfile.profile_id profile;
     DbArgoProfile.float_id := ArgoProfile.float_id profile;
     DbArgoProfile.cycle_number := ArgoProfile.cycle_number profile;
     DbArgoProfile.measurement_date := ArgoProfile.date_time profile;
     DbArgoProfile.latitude := ArgoProfile.latitude profile;
     DbArgoProfile.longitude := ArgoProfile.longitude profile;
     DbArgoProfile.data_points := Some n_levels;
     DbArgoProfile.max_pressure :=
       match ArgoProfile.pressure profile with
       | Some pressure => if 0 <? n_levels then np_nanmax pressure else None
       | None => None
       end;
     DbArgoProfile.min_pressure :=
       match ArgoProfile.pressure profile with
       | Some pressure => if 0 <? n_levels then np_nanmin pressure else None
       | None => None
       end;
     DbArgoProfile.quality_flag :=
       Some (if bool_decide (ArgoProfile.position_qc profile = Some "1")
             then "A" else "B");
     DbArgoProfile.data_mode := Some (ArgoProfile.data_mode profile);
     DbArgoProfile.data_center := None;
     DbArgoProfile.processing_date := None;
     DbArgoProfile.created_at := None;
     DbArgoProfile.updated_at := None |}.

(** depth = pressure / 1.025, in double precision: the quotient for a
    Python float and for an element of a float64 array.  (NumPy 2 keeps the
    quotient of an element of a float32 array in single precision; the
    per-level arrays of the embedding hold doubles.) *)
Definition _pressure_to_depth (pressure : float) : float :=
  PrimFloat.div pressure 1.025%float.

(** [ArgoMeasurement(profile_id=.., pressure=.., depth=..)] *)
Definition new_measurement (profile_id : string) (pressure : float)
  : ArgoMeasurement.t := {|
  ArgoMeasurement.profile_id := profile_id;
  ArgoMeasurement.pressure := pressure;
  ArgoMeasurement.depth := Some (_pressure_to_depth pressure);
  ArgoMeasurement.temperature := None;
  ArgoMeasurement.salinity := None;
  ArgoMeasurement.oxygen := None;
  ArgoMeasurement.ph := None;
  ArgoMeasurement.nitrate := None;
  ArgoMeasurement.chlorophyll_a := None;
  ArgoMeasurement.backscattering := None;
  ArgoMeasurement.fluorescence := None;
  ArgoMeasurement.pressure_qc := None;
  ArgoMeasurement.temperature_qc := None;
  ArgoMeasurement.salinity_qc := None;
  ArgoMeasurement.oxygen_qc := None;
  ArgoMeasurement.ph_qc := None;
  ArgoMeasurement.nitrate_qc := None;
  ArgoMeasurement.chlorophyll_a_qc := None;
  ArgoMeasurement.temperature_adjusted := None;
  ArgoMeasurement.salinity_adjusted := None;
  ArgoMeasurement.oxygen_adjusted := None;
  ArgoMeasurement.temperature_adjusted_qc := None;
  ArgoMeasurement.salinity_adjusted_qc := None
|}.

(** The block the [_add_*] methods repeat for each variable:
    [if values is not None and level_idx < len(values)
        and not np.isnan(values[level_idx]):
       measurement.<value> = float(values[level_idx])
       if flags is not None and level_idx < len(flags):
         measurement.<flag> = str(flags[level_idx])] *)
Definition add_reading (values : option (list float)) (flags : option (list string))
  (level_idx : nat)
  (set_value : option float -> ArgoMeasurement.t -> ArgoMeasurement.t)
  (set_flag : option string -> ArgoMeasurement.t -> ArgoMeasurement.t)
  (measurement : ArgoMeasurement.t) : ArgoMeasurement.t :=
  match values with
  | Some array =>
    match array !! level_idx with
    | Some x =>
      if np_isnan x then measurement
      else
        let measurement := set_value (Some x) measurement in
        match flags with
        | Some qc =>
          match qc !! level_idx with
          | Some flag => set_flag (Some flag) measurement
          | None => measurement
          end
        | None => measurement
        end
    | None => measurement
    end
  | None => measurement
  end.

Definition _add_temperature_data (measurement : ArgoMeasurement.t)
  (profile : ArgoProfile.t) (level_idx : nat) : ArgoMeasurement.t :=
  let measurement :=
    add_reading (ArgoProfile.temperature profile) (ArgoProfile.temperature_qc profile)
      level_idx ArgoMeasurement.set_temperature ArgoMeasurement.set_temperature_qc
      measurement in
  add_reading (ArgoProfile.temperature_adjusted profile)
    (ArgoProfile.temperature_adjusted_qc profile)
    level_idx ArgoMeasurement.set_temperature_adjusted
    ArgoMeasurement.set_temperature_adjusted_qc measurement.

Definition _add_salinity_data (measurement : ArgoMeasurement.t)
  (profile : ArgoProfile.t) (level_idx : nat) : ArgoMeasurement.t :=
  let measurement :=
    add_reading (ArgoProfile.salinity profile) (ArgoProfile.salinity_qc profile)
      level_idx ArgoMeasurement.set_salinity ArgoMeasurement.set_salinity_qc
      measurement in
  add_reading (ArgoProfile.salinity_adjusted profile)
    (ArgoProfile.salinity_adjusted_qc profile)
    level_idx ArgoMeasurement.set_salinity_adjusted
    ArgoMeasurement.set_salinity_adjusted_qc measurement.

Definition _add_optional_measurements (measurement : ArgoMeasurement.t)
  (profile : ArgoProfile.t) (level_idx : nat) : ArgoMeasurement.t :=
  let measurement :=
    add_reading (ArgoProfile.oxygen profile) (ArgoProfile.oxygen_qc profile)
      level_idx ArgoMeasurement.set_oxygen ArgoMeasurement.set_oxygen_qc
      measurement in
  add_reading (ArgoProfile.chlorophyll profile) (ArgoProfile.chlorophyll_qc profile)
    level_idx ArgoMeasurement.set_chlorophyll_a ArgoMeasurement.set_chlorophyll_a_qc
    measurement.

(** [measurement.pressure] is always set here, so the first test of the
    source ([pressure is None]) never fires. *)
Definition _has_valid_data (measurement : ArgoMeasurement.t) : bool :=
  let has_temp :=
    is_not_None (ArgoMeasurement.temperature measurement)
    || is_not_None (ArgoMeasurement.temperature_adjusted measurement) in
  let has_sal :=
    is_not_None (ArgoMeasurement.salinity measurement)
    || is_not_None (ArgoMeasurement.salinity_adjusted measurement) in
  let has_oxygen := is_not_None (ArgoMeasurement.oxygen measurement) in
  let has_chl := is_not_None (ArgoMeasurement.chlorophyll_a measurement) in
  has_temp || has_sal || has_oxygen || has_chl.

(** The body of the loop of [_create_measurement_models] for one level: the
    measurement appended, if any. *)
Definition level_measurement (profile : ArgoProfile.t) (pressures : list float)
  (level_idx : nat) : option ArgoMeasurement.t :=
  match pressures !! level_idx with
  | None => None
  | Some pressure =>
    if np_isnan pressure then None
    else
      let measurement := new_measurement (ArgoProfile.profile_id profile) pressure in
      let measurement :=
        match ArgoProfile.pressure_qc profile with
        | Some qc =>
          match qc !! level_idx with
          | Some flag => ArgoMeasurement.set_pressure_qc (Some flag) measurement
          | None => measurement
          end
        | None => measurement
        end in
      let measurement := _add_temperature_data measurement profile level_idx in
      let measurement := _add_salinity_data measurement profile level_idx in
      let measurement := _add_optional_measurements measurement profile level_idx in
      if _has_valid_data measurement then Some measurement else None
  end.

Fixpoint measurement_loop (profile : ArgoProfile.t) (pressures : list float)
  (levels : list nat) : list ArgoMeasurement.t :=
  match levels with
  | [] => []
  | level_idx :: rest =>
    match level_measurement profile pressures level_idx with
    | Some measurement => measurement :: measurement_loop profile pressures rest
    | None => measurement_loop profile pressures rest
    end
  end.

Definition _create_measurement_models (profile : ArgoProfile.t)
  (profile_model : DbArgoProfile.t) : list ArgoMeasurement.t :=
  match ArgoProfile.pressure profile with
  | None => []
  | Some pressures =>
    let n_levels := length pressures in
    measurement_loop profile pressures (seq 0 n_levels)
  end.

Definition map_profile_to_models (profile : ArgoProfile.t) (session : Store)
  (_float_cache : gmap (option string) ArgoFloat.t)
  : (ArgoFloat.t * DbArgoProfile.t * list ArgoMeasurement.t)
    * gmap (option string) ArgoFloat.t :=
  let '(float_model, _float_cache) :=
    _get_or_create_float profile session _float_cache in
  let profile_model := _create_profile_model profile float_model in
  let measurements := _create_measurement_models profile profile_model in
  ((float_model, profile_model, measurements), _float_cache).

(** The loop of [batch_map_profiles]: the three lists and the mapper's
    cache.  Nothing modelled here raises, so the [except] branch of the
    source is not taken. *)
Fixpoint map_profiles_loop (profiles : list ArgoProfile.t) (session : Store)
  (_float_cache : gmap (option string) ArgoFloat.t)
  : list ArgoFloat.t * list DbArgoProfile.t * list ArgoMeasurement.t :=
  match profiles with
  | [] => ([], [], [])
  | profile :: rest =>
    let '((float_model, profile_model, measurements), _float_cache) :=
      map_profile_to_models profile session _float_cache in
    let '(floats, db_profiles, all_measurements) :=
      map_profiles_loop rest session _float_cache in
    (float_model :: floats, profile_model :: db_profiles,
     (measurements ++ all_measurements)%list)
  end.

Definition batch_map_profiles (profiles : list ArgoProfile.t) (session : Store)
  : ModelsDict.t :=
  (* mapper = ArgoDataMapper(config): a new, empty cache *)
  let '(floats, db_profiles, all_measurements) :=
    map_profiles_loop profiles session ∅ in
  let unique_floats :=
    fold_left
      (fun unique float_model =>
         dict_set (fun a b => bool_decide (a = b))
           (ArgoFloat.float_id float_model) float_model unique)
      floats [] in
  {| ModelsDict.floats := map snd unique_floats;
     ModelsDict.profiles := db_profiles;
     ModelsDict.measurements := all_measurements |}.

Definition create_ingestion_log_entry (file_path : string) (success : bool)
  (records_processed records_inserted : Z) (errors : list Message)
  (metadata : Metadata) (utcnow : Z) : LogEntry.t :=
  {| LogEntry.file_path := file_path;
     LogEntry.status := if success then "success" else "failed";
     LogEntry.records_processed := records_processed;
     LogEntry.records_inserted := records_inserted;
     LogEntry.error_count := Z.of_nat (length errors);
     LogEntry.error_messages := firstn 10 errors;
     LogEntry.ingested_at := utcnow;
     LogEntry.metadata := metadata |}.

(** ** database_ops.py: DatabaseOperations *)

(** What the engine does on its own: [execute_raises tables stmt] is the
    exception with which it rejects a statement (a violated constraint, a
    lost connection), [flush_raises tables pending] the one with which a
    flush fails; [None] when it accepts. *)
Variable execute_raises : Store -> Statement -> option Exn.
Variable flush_raises : Store -> Flush -> option Exn.

(** The time of the transaction that ingests the file at a path ([now()] of
    the server); the same reading stands for [datetime.utcnow()] taken in
    that transaction. *)
Variable clock : string -> Z.

(** [with self.db_ops.get_session() as session:] ([get_db_session] of
    db/init_db.py): the block runs on a new session; an exception rolls the
    session back and is re-raised; the session is closed.  [get_db_session]
    does not commit and no block of the pipeline does ([savepoint.commit()]
    releases a savepoint inside the session's transaction), so closing the
    session ends its transaction without a COMMIT: the database is as it was
    before the block. *)
Definition get_session {H} (block : Block H) (heap : H) (database : Store)
  : Outcome unit * H * Store :=
  let '(outcome, heap, session) := block heap (SessionLocal database) in
  (outcome, heap, database).

(** The UPDATE that writes a changed float back: the attributes whose value
    differs from the loaded one ([==] of Python decides), and [updated_at]
    by its [onupdate=func.now()] when there is one.  The attributes are the
    six that [_get_or_create_float] assigns to a float it has found. *)
Definition attribute_changed {V} (eqb : V -> V -> bool) (loaded current : option V)
  : bool :=
  match loaded, current with
  | None, None => false
  | Some a, Some b => negb (eqb a b)
  | _, _ => true
  end.

Definition write_attribute {V} (eqb : V -> V -> bool)
  (get : ArgoFloat.t -> option V) (set : option V -> ArgoFloat.t -> ArgoFloat.t)
  (loaded current row : ArgoFloat.t) : ArgoFloat.t :=
  if attribute_changed eqb (get loaded) (get current)
  then set (get current) row else row.

Definition update_changed_float (now : Z) (loaded current row : ArgoFloat.t)
  : ArgoFloat.t :=
  let changed :=
    attribute_changed Z.eqb (ArgoFloat.last_contact_date loaded)
      (ArgoFloat.last_contact_date current)
    || attribute_changed PrimFloat.eqb (ArgoFloat.last_latitude loaded)
         (ArgoFloat.last_latitude current)
    || attribute_changed PrimFloat.eqb (ArgoFloat.last_longitude loaded)
         (ArgoFloat.last_longitude current)
    || attribute_changed Z.eqb (ArgoFloat.total_profiles loaded)
         (ArgoFloat.total_profiles current)
    || attribute_changed Z.eqb (ArgoFloat.first_profile_date loaded)
         (ArgoFloat.first_profile_date current)
    || attribute_changed Z.eqb (ArgoFloat.last_profile_date loaded)
         (ArgoFloat.last_profile_date current) in
  if changed then
    ArgoFloat.set_updated_at (Some now)
      (write_attribute Z.eqb ArgoFloat.last_profile_date
         ArgoFloat.set_last_profile_date loaded current
      (write_attribute Z.eqb ArgoFloat.first_profile_date
         ArgoFloat.set_first_profile_date loaded current
      (write_attribute Z.eqb ArgoFloat.total_profiles
         ArgoFloat.set_total_profiles loaded current
      (write_attribute PrimFloat.eqb ArgoFloat.last_longitude
         ArgoFloat.set_last_longitude loaded current
      (write_attribute PrimFloat.eqb ArgoFloat.last_latitude
         ArgoFloat.set_last_latitude loaded current
      (write_attribute Z.eqb ArgoFloat.last_contact_date
         ArgoFloat.set_last_contact_date loaded current row))))))
  else row.

Definition write_changed_floats (now : Z)
  (changed : list (ArgoFloat.t * ArgoFloat.t)) (table : list ArgoFloat.t)
  : list ArgoFloat.t :=
  fold_left
    (fun table '(loaded, current) =>
       map (fun row =>
              if bool_decide (ArgoFloat.float_id row = ArgoFloat.float_id loaded)
              then update_changed_float now loaded current row else row)
         table)
    changed table.

(** [session.flush()] with [added] the audit-log rows given to
    [session.add] since the last flush.  With nothing pending no statement
    is sent.  A flush that fails rolls the innermost transaction back and
    leaves it inactive; the exception is raised. *)
Definition flush (now : Z) (added : list DataIngestionLog.t) (session : Session)
  : Outcome unit * Session :=
  match dirty session, added with
  | [], [] => (Return tt, session)
  | _, _ =>
    let pending := {| changed_floats := dirty session; added_logs := added |} in
    match flush_raises (tables session) pending with
    | Some e =>
      (Raise e,
       {| tables := begun session; begun := begun session; inactive := Some e;
          dirty := [] |})
    | None =>
      (Return tt,
       {| tables :=
            set_data_ingestion_logs
              (data_ingestion_logs (tables session) ++ added)
              (set_argo_floats
                 (write_changed_floats now (dirty session)
                    (argo_floats (tables session)))
                 (tables session));
          begun := begun session; inactive := inactive session; dirty := [] |})
    end
  end.

(** The row proposed for a float: the eight keys of [float_dict], NULL for
    the other columns, the server's [now()] for the two audit columns. *)
Definition float_dict (now : Z) (float_model : ArgoFloat.t) : ArgoFloat.t := {|
  ArgoFloat.float_id := ArgoFloat.float_id float_model;
  ArgoFloat.platform_number := ArgoFloat.platform_number float_model;
  ArgoFloat.wmo_number := None;
  ArgoFloat.project_name := ArgoFloat.project_name float_model;
  ArgoFloat.pi_name := ArgoFloat.pi_name float_model;
  ArgoFloat.institution := None;
  ArgoFloat.wmo_inst_type := None;
  ArgoFloat.status := ArgoFloat.status float_model;
  ArgoFloat.deployment_date := ArgoFloat.deployment_date float_model;
  ArgoFloat.last_contact_date := ArgoFloat.last_contact_date float_model;
  ArgoFloat.last_latitude := None;
  ArgoFloat.last_longitude := None;
  ArgoFloat.total_profiles := ArgoFloat.total_profiles float_model;
  ArgoFloat.first_profile_date := None;
  ArgoFloat.last_profile_date := None;
  ArgoFloat.created_at := Some now;
  ArgoFloat.updated_at := Some now
|}.

(** [set_] of the float upsert: the four columns taken from [excluded]. *)
Definition float_set_ (row excluded : ArgoFloat.t) : ArgoFloat.t :=
  ArgoFloat.set_last_profile_date (ArgoFloat.last_profile_date excluded)
    (ArgoFloat.set_status (ArgoFloat.status excluded)
       (ArgoFloat.set_total_profiles (ArgoFloat.total_profiles excluded)
          (ArgoFloat.set_last_contact_date (ArgoFloat.last_contact_date excluded)
             row))).

(** [index_elements=['float_id']] *)
Definition float_conflict (excluded row : ArgoFloat.t) : bool :=
  sql_text_eqb (ArgoFloat.float_id excluded) (ArgoFloat.float_id row).

Definition _upsert_floats (now : Z) (floats : list ArgoFloat.t) : DB Z :=
  fun session =>
  match floats with
  | [] => (Return 0, session)
  | _ :: _ =>
    let float_data := map (float_dict now) floats in
    match execute_raises session (UpsertFloats float_data) with
    | Some e => (Raise e, session)
    | None =>
      let upserted_count := Z.of_nat (length float_data) in
      (Return upserted_count,
       set_argo_floats
         (fold_left (on_conflict_do_update float_conflict float_set_)
            float_data (argo_floats session))
         session)
    end
  end.

Definition profile_dict (now : Z) (profile_model : DbArgoProfile.t)
  : DbArgoProfile.t := {|
  DbArgoProfile.profile_id := DbArgoProfile.profile_id profile_model;
  DbArgoProfile.float_id := DbArgoProfile.float_id profile_model;
  DbArgoProfile.cycle_number := DbArgoProfile.cycle_number profile_model;
  DbArgoProfile.measurement_date := DbArgoProfile.measurement_date profile_model;
  DbArgoProfile.latitude := DbArgoProfile.latitude profile_model;
  DbArgoProfile.longitude := DbArgoProfile.longitude profile_model;
  DbArgoProfile.data_points := DbArgoProfile.data_points profile_model;
  DbArgoProfile.max_pressure := DbArgoProfile.max_pressure profile_model;
  DbArgoProfile.min_pressure := DbArgoProfile.min_pressure profile_model;
  DbArgoProfile.quality_flag := DbArgoProfile.quality_flag profile_model;
  DbArgoProfile.data_mode := DbArgoProfile.data_mode profile_model;
  DbArgoProfile.data_center := None;
  DbArgoProfile.processing_date := None;
  DbArgoProfile.created_at := Some now;
  DbArgoProfile.updated_at := Some now
|}.

Definition profile_set_ (row excluded : DbArgoProfile.t) : DbArgoProfile.t := {|
  DbArgoProfile.profile_id := DbArgoProfile.profile_id row;
  DbArgoProfile.float_id := DbArgoProfile.float_id row;
  DbArgoProfile.cycle_number := DbArgoProfile.cycle_number row;
  DbArgoProfile.measurement_date := DbArgoProfile.measurement_date row;
  DbArgoProfile.latitude := DbArgoProfile.latitude row;
  DbArgoProfile.longitude := DbArgoProfile.longitude row;
  DbArgoProfile.data_points := DbArgoProfile.data_points excluded;
  DbArgoProfile.max_pressure := DbArgoProfile.max_pressure excluded;
  DbArgoProfile.min_pressure := DbArgoProfile.min_pressure excluded;
  DbArgoProfile.quality_flag := DbArgoProfile.quality_flag excluded;
  DbArgoProfile.data_mode := DbArgoProfile.data_mode excluded;
  DbArgoProfile.data_center := DbArgoProfile.data_center row;
  DbArgoProfile.processing_date := DbArgoProfile.processing_date row;
  DbArgoProfile.created_at := DbArgoProfile.created_at row;
  DbArgoProfile.updated_at := DbArgoProfile.updated_at row
|}.

(** [index_elements=['profile_id']] *)
Definition profile_conflict (excluded row : DbArgoProfile.t) : bool :=
  String.eqb (DbArgoProfile.profile_id excluded) (DbArgoProfile.profile_id row).

Definition _upsert_profiles (now : Z) (profiles : list DbArgoProfile.t) : DB Z :=
  fun session =>
  match profiles with
  | [] => (Return 0, session)
  | _ :: _ =>
    let profile_data := map (profile_dict now) profiles in
    match execute_raises session (UpsertProfiles profile_data) with
    | Some e => (Raise e, session)
    | None =>
      let upserted_count := Z.of_nat (length profile_data) in
      (Return upserted_count,
       set_argo_profiles
         (fold_left (on_conflict_do_update profile_conflict profile_set_)
            profile_data (argo_profiles session))
         session)
    end
  end.

(** The row proposed for a measurement: the fourteen keys of
    [measurement_dict], NULL for the other columns. *)
Definition measurement_dict (measurement : ArgoMeasurement.t) : ArgoMeasurement.t := {|
  ArgoMeasurement.profile_id := ArgoMeasurement.profile_id measurement;
  ArgoMeasurement.pressure := ArgoMeasurement.pressure measurement;
  ArgoMeasurement.depth := ArgoMeasurement.depth measurement;
  ArgoMeasurement.temperature := ArgoMeasurement.temperature measurement;
  ArgoMeasurement.salinity := ArgoMeasurement.salinity measurement;
  ArgoMeasurement.oxygen := ArgoMeasurement.oxygen measurement;
  ArgoMeasurement.ph := None;
  ArgoMeasurement.nitrate := None;
  ArgoMeasurement.chlorophyll_a := ArgoMeasurement.chlorophyll_a measurement;
  ArgoMeasurement.backscattering := None;
  ArgoMeasurement.fluorescence := None;
  ArgoMeasurement.pressure_qc := ArgoMeasurement.pressure_qc measurement;
  ArgoMeasurement.temperature_qc := ArgoMeasurement.temperature_qc measurement;
  ArgoMeasurement.salinity_qc := ArgoMeasurement.salinity_qc measurement;
  ArgoMeasurement.oxygen_qc := ArgoMeasurement.oxygen_qc measurement;
  ArgoMeasurement.ph_qc := None;
  ArgoMeasurement.nitrate_qc := None;
  ArgoMeasurement.chlorophyll_a_qc := ArgoMeasurement.chlorophyll_a_qc measurement;
  ArgoMeasurement.temperature_adjusted :=
    ArgoMeasurement.temperature_adjusted measurement;
  ArgoMeasurement.salinity_adjusted := ArgoMeasurement.salinity_adjusted measurement;
  ArgoMeasurement.oxygen_adjusted := None;
  ArgoMeasurement.temperature_adjusted_qc := None;
  ArgoMeasurement.salinity_adjusted_qc := None
|}.

(** [set_] of the measurement upsert: twelve columns taken from [excluded]. *)
Definition measurement_set_ (row excluded : ArgoMeasurement.t) : ArgoMeasurement.t := {|
  ArgoMeasurement.profile_id := ArgoMeasurement.profile_id row;
  ArgoMeasurement.pressure := ArgoMeasurement.pressure row;
  ArgoMeasurement.depth := ArgoMeasurement.depth excluded;
  ArgoMeasurement.temperature := ArgoMeasurement.temperature excluded;
  ArgoMeasurement.salinity := ArgoMeasurement.salinity excluded;
  ArgoMeasurement.oxygen := ArgoMeasurement.oxygen excluded;
  ArgoMeasurement.ph := ArgoMeasurement.ph row;
  ArgoMeasurement.nitrate := ArgoMeasurement.nitrate row;
  ArgoMeasurement.chlorophyll_a := ArgoMeasurement.chlorophyll_a excluded;
  ArgoMeasurement.backscattering := ArgoMeasurement.backscattering row;
  ArgoMeasurement.fluorescence := ArgoMeasurement.fluorescence row;
  ArgoMeasurement.pressure_qc := ArgoMeasurement.pressure_qc excluded;
  ArgoMeasurement.temperature_qc := ArgoMeasurement.temperature_qc excluded;
  ArgoMeasurement.salinity_qc := ArgoMeasurement.salinity_qc excluded;
  ArgoMeasurement.oxygen_qc := ArgoMeasurement.oxygen_qc excluded;
  ArgoMeasurement.ph_qc := ArgoMeasurement.ph_qc row;
  ArgoMeasurement.nitrate_qc := ArgoMeasurement.nitrate_qc row;
  ArgoMeasurement.chlorophyll_a_qc := ArgoMeasurement.chlorophyll_a_qc excluded;
  ArgoMeasurement.temperature_adjusted :=
    ArgoMeasurement.temperature_adjusted excluded;
  ArgoMeasurement.salinity_adjusted := ArgoMeasurement.salinity_adjusted excluded;
  ArgoMeasurement.oxygen_adjusted := ArgoMeasurement.oxygen_adjusted row;
  ArgoMeasurement.temperature_adjusted_qc :=
    ArgoMeasurement.temperature_adjusted_qc row;
  ArgoMeasurement.salinity_adjusted_qc := ArgoMeasurement.salinity_adjusted_qc row
|}.

(** [index_elements=['profile_id', 'pressure']] *)
Definition measurement_conflict (excluded row : ArgoMeasurement.t) : bool :=
  String.eqb (ArgoMeasurement.profile_id excluded) (ArgoMeasurement.profile_id row)
  && sql_float_eqb (ArgoMeasurement.pressure excluded) (ArgoMeasurement.pressure row).

(** [measurements[i:i + batch_size] for i in range(0, len(measurements),
    batch_size)]: [range] raises for a zero step and is empty for a negative
    one. *)
Definition batches (measurements : list ArgoMeasurement.t)
  : Outcome (list (list ArgoMeasurement.t)) :=
  let batch_size := batch_size config in
  if batch_size =? 0 then Raise (Exception "ValueError: range() arg 3 must not be zero")
  else if batch_size <? 0 then Return []
  else Return (slices (length measurements) (Z.to_nat batch_size) measurements).

(** The loop over the batches: one statement per batch. *)
Fixpoint insert_batches (remaining : list (list ArgoMeasurement.t))
  (total_inserted : Z) (session : Store) : Outcome Z * Store :=
  match remaining with
  | [] => (Return total_inserted, session)
  | batch :: rest =>
    let measurement_data := map measurement_dict batch in
    match execute_raises session (UpsertMeasurements measurement_data) with
    | Some e => (Raise e, session)
    | None =>
      let batch_inserted := Z.of_nat (length measurement_data) in
      insert_batches rest (total_inserted + batch_inserted)
        (set_argo_measurements
           (fold_left (on_conflict_do_update measurement_conflict measurement_set_)
              measurement_data (argo_measurements session))
           session)
    end
  end.

Definition _bulk_insert_measurements (measurements : list ArgoMeasurement.t)
  : DB Z :=
  fun session =>
  match measurements with
  | [] => (Return 0, session)
  | _ :: _ =>
    match batches measurements with
    | Return remaining => insert_batches remaining 0 session
    | Raise e => (Raise e, session)
    end
  end.

(** Floats, then profiles, then measurements; an exception of one of the
    three is re-raised. *)
Definition bulk_insert_models (now : Z) (models_dict : ModelsDict.t)
  : DB (Z * Z * Z) :=
  db_bind (_upsert_floats now (ModelsDict.floats models_dict))
    (fun floats_inserted =>
  db_bind (_upsert_profiles now (ModelsDict.profiles models_dict))
    (fun profiles_inserted =>
  db_bind (_bulk_insert_measurements (ModelsDict.measurements models_dict))
    (fun measurements_inserted session =>
  (Return (floats_inserted, profiles_inserted, measurements_inserted), session)))).

(** [DataIngestionLog(filename=..., ...)]: the row for a log entry. *)
Definition log_model_of (log_entry : LogEntry.t) : DataIngestionLog.t := {|
    DataIngestionLog.filename := path_name (LogEntry.file_path log_entry);
    DataIngestionLog.file_path := Some (LogEntry.file_path log_entry);
    DataIngestionLog.file_size := None;
    DataIngestionLog.file_hash := None;
    DataIngestionLog.status := Some (LogEntry.status log_entry);
    DataIngestionLog.started_at := Some (LogEntry.ingested_at log_entry);
    DataIngestionLog.completed_at :=
      if String.eqb (LogEntry.status log_entry) "success"
      then Some (LogEntry.ingested_at log_entry) else None;
    DataIngestionLog.error_message :=
      match LogEntry.error_messages log_entry with
      | _ :: _ => Some (LogEntry.error_messages log_entry)
      | [] => None
      end;
    DataIngestionLog.profiles_processed := Some (LogEntry.records_processed log_entry);
    (* the column defaults *)
    DataIngestionLog.measurements_processed := Some 0;
    DataIngestionLog.floats_processed := Some 0;
    DataIngestionLog.processor_version := None;
    DataIngestionLog.processing_parameters := None
  |}.

(** The [try] block of [log_ingestion_result]: the row is built, added and
    flushed; the flush may raise.  [utcnow] also stands for the server's
    [now()] during the flush. *)
Definition log_ingestion_result_try (result : FileProcessingResult.t)
  (utcnow : Z) (session : Session) : Outcome unit * Session :=
  let log_entry :=
    create_ingestion_log_entry
      (FileProcessingResult.file_path result)
      (FileProcessingResult.success result)
      (FileProcessingResult.records_processed result)
      (FileProcessingResult.records_inserted result)
      (FileProcessingResult.errors result)
      (FileProcessingResult.metadata result) utcnow in
  let log_model := log_model_of log_entry in
  (* session.add(log_model); session.flush() *)
  flush utcnow [log_model] session.

(** [log_ingestion_result]: the [except Exception] branch logs the error and
    does not re-raise.  The session stays as the failed flush left it. *)
Definition log_ingestion_result (result : FileProcessingResult.t)
  (utcnow : Z) (session : Session) : Outcome unit * Session :=
  match log_ingestion_result_try result utcnow session with
  | (Return _, session) => (Return tt, session)
  | (Raise e, session) => (Return tt, session)
  end.

(** [a] comes before [b] in [ORDER BY started_at DESC] (NULL first). *)
Definition started_before_desc (a b : option Z) : bool :=
  match a, b with
  | None, Some _ => true
  | Some x, Some y => y <? x
  | _, _ => false
  end.

(** The latest audit-log row of a file: [filter(file_path == ..)
    .order_by(started_at.desc()).first()]; among rows that start at the same
    time, the first in the table.  The query is taken not to raise. *)
Definition get_ingestion_status (file_path : string) (session : Store)
  : option DataIngestionLog.t :=
  fold_left
    (fun best row =>
       match best with
       | None => Some row
       | Some b =>
         if started_before_desc (DataIngestionLog.started_at row)
              (DataIngestionLog.started_at b)
         then Some row else best
       end)
    (List.filter
       (fun row => bool_decide (DataIngestionLog.file_path row = Some file_path))
       (data_ingestion_logs session))
    None.

(** ** database_ops.py: TransactionManager.transaction

    [session.begin_nested()] flushes what is pending (whatever [autoflush]
    says) and sets a savepoint; the block runs; [savepoint.commit()] releases
    the savepoint when the block returns.  An exception of the block, or of
    the commit, is re-raised after [savepoint.rollback()].  The commit raises
    when a flush inside the block has failed, also when the block has caught
    that failure: the savepoint was rolled back by the flush and is no longer
    active.  An exception of [begin_nested] itself leaves [savepoint] at
    [None] and is re-raised as it is.  [now] is the server's [now()] while
    the block runs.  The session is taken to be active when the block is
    entered: in [ingest_file] it is a new one. *)
Definition savepoint_inactive (e : Exn) : Exn :=
  SQLAlchemyError
    ("This transaction is inactive: rolled back by an exception during flush: "
     ++ match e with SQLAlchemyError msg | Exception msg => msg end).

Definition transaction {H} (now : Z) (block : Block H) : Block H :=
  fun heap session =>
    match flush now [] session with
    | (Raise e, session) => (Raise e, heap, session)
    | (Return _, session) =>
      let outer := session in
      let nested :=
        {| tables := tables outer; begun := tables outer; inactive := None;
           dirty := dirty outer |} in
      (* what a rollback of the savepoint leaves of the session *)
      let rolled_back :=
        {| tables := tables outer; begun := begun outer;
           inactive := inactive outer; dirty := [] |} in
      match block heap nested with
      | (Return _, heap, nested) =>
        match inactive nested with
        | None =>
          (Return tt, heap,
           {| tables := tables nested; begun := begun outer;
              inactive := inactive outer; dirty := dirty nested |})
        | Some e => (Raise (savepoint_inactive e), heap, rolled_back)
        end
      | (Raise e, heap, nested) => (Raise e, heap, rolled_back)
      end
    end.

(** ** database_ops.py: TransactionManager.execute_with_retry

    [operation_func k] is what the [k]-th call of the operation does (its
    arguments are the same at every call), [time_sleep delay] the exception
    with which [time.sleep] refuses a delay ([None] when it sleeps).  The
    result comes with the delays slept, in order. *)
Section Retry.
Context {A : Type}.
Variable operation_func : nat -> Outcome A.
Variable time_sleep : float -> option Exn.

(** [retry_delay * (2 ** attempt)], or [retry_delay].  The power is an exact
    integer and the product converts it to a float: from [2 ** 1024] on the
    conversion raises [OverflowError]. *)
Definition retry_delay_for (attempt : Z) : Outcome float :=
  if exponential_backoff config
  then
    if attempt <? 1024
    then Return (PrimFloat.mul (retry_delay config) (Z.ldexp 1%float attempt))
    else Raise (Exception "OverflowError: int too large to convert to float")
  else Return (retry_delay config).

(** The [for attempt in range(max_retries + 1)] loop over the remaining
    attempts.  Falling out of the loop returns [None].  An exception of the
    delay's computation or of [time.sleep] is raised inside the handler and
    leaves the loop. *)
Fixpoint retry_loop (retries : Z) (attempts : list nat) (slept : list float)
  : Outcome (option A) * list float :=
  match attempts with
  | [] => (Return None, slept)
  | attempt :: rest =>
    match operation_func attempt with
    | Return value => (Return (Some value), slept)
    | Raise (SQLAlchemyError msg) =>
      if Z.of_nat attempt =? retries
      then (Raise (SQLAlchemyError msg), slept)
      else
        match retry_delay_for (Z.of_nat attempt) with
        | Raise e => (Raise e, slept)
        | Return delay =>
          match time_sleep delay with
          | Some e => (Raise e, slept)
          | None => retry_loop retries rest (slept ++ [delay])
          end
        end
    | Raise e => (Raise e, slept)
    end
  end.

Definition execute_with_retry (max_retries_arg : option Z)
  : Outcome (option A) * list float :=
  (* max_retries = max_retries or self.config.max_retries *)
  let retries :=
    match max_retries_arg with
    | Some n => if n =? 0 then max_retries config else n
    | None => max_retries config
    end in
  retry_loop retries (seq 0 (Z.to_nat (retries + 1))) [].
End Retry.

(** ** service.py: ArgoIngestionService *)

(** The floats of [models_dict] that the session had loaded:
    [_get_or_create_float] found them with its query and changed them in
    place, so the session holds them as changed. *)
Definition loaded_floats (models_dict : ModelsDict.t) (session : Store)
  : list (ArgoFloat.t * ArgoFloat.t) :=
  omap (fun float_model =>
          match query_float session (ArgoFloat.float_id float_model) with
          | Some found => Some (found, float_model)
          | None => None
          end)
    (ModelsDict.floats models_dict).

(** The block of [with self.db_ops.get_session() as session:] in
    [ingest_file]: map, upsert inside a transaction, write the audit-log
    row.  [result] is the object that the block assigns to: it keeps what
    was assigned when an exception leaves the block. *)
Definition ingest_file_block (file_path : string)
  (profiles : list ArgoProfile.t) : Block FileProcessingResult.t :=
  fun result session =>
    let models_dict := batch_map_profiles profiles (tables session) in
    let session := set_dirty (loaded_floats models_dict (tables session)) session in
    transaction (clock file_path)
      (fun result session =>
         match bulk_insert_models (clock file_path) models_dict (tables session) with
         | (Raise e, written) => (Raise e, result, set_tables written session)
         | (Return (floats_inserted, profiles_inserted, measurements_inserted),
            written) =>
           let session := set_tables written session in
           let result :=
             FileProcessingResult.set_records_inserted profiles_inserted result in
           let result :=
             FileProcessingResult.set_records_processed (Z.of_nat (length profiles))
               result in
           match log_ingestion_result result (clock file_path) session with
           | (Return _, session) => (Return tt, result, session)
           | (Raise e, session) => (Raise e, result, session)
           end
         end)
      result session.

(** The database part of [ingest_file]. *)
Definition ingest_file_database (file_path : string)
  (profiles : list ArgoProfile.t) : FileProcessingResult.t -> Store ->
  Outcome unit * FileProcessingResult.t * Store :=
  get_session (ingest_file_block file_path profiles).

Definition ingest_file (file_path : string) (dry_run : bool) (store : Store)
  : FileProcessingResult.t * Store :=
  let '(is_valid, validation_errors) := validate_netcdf_file file_path in
  if negb is_valid
  then (FileProcessingResult.make file_path false validation_errors 0, store)
  else
  let result := parse_file file_path in
  if negb (FileProcessingResult.success result) then (result, store)
  else
  (* profiles = result.metadata.get('profiles', []) *)
  let profiles := default [] (profiles (FileProcessingResult.metadata result)) in
  match profiles with
  | [] =>
    (FileProcessingResult.set_success false
       (FileProcessingResult.set_errors
          (FileProcessingResult.errors result ++ [Msg "No valid profiles found in file"])
          result),
     store)
  | _ :: _ =>
    if dry_run
    then (FileProcessingResult.set_records_processed (Z.of_nat (length profiles)) result,
          store)
    else
      match ingest_file_database file_path profiles result store with
      | (Return _, result, store) => (result, store)
      | (Raise e, result, store) =>
        (FileProcessingResult.set_success false
           (FileProcessingResult.set_errors
              (FileProcessingResult.errors result ++ [DatabaseErrorFor file_path e])
              result),
         store)
      end
  end.

(** One more file accounted for in [self.stats]. *)
Definition count_file (result : FileProcessingResult.t) (stats : Stats.t) : Stats.t :=
  {| Stats.files_discovered := Stats.files_discovered stats;
     Stats.files_processed := Stats.files_processed stats + 1;
     Stats.files_successful :=
       if FileProcessingResult.success result
       then Stats.files_successful stats + 1 else Stats.files_successful stats;
     Stats.files_failed :=
       if FileProcessingResult.success result
       then Stats.files_failed stats else Stats.files_failed stats + 1;
     Stats.files_skipped := Stats.files_skipped stats;
     Stats.total_records_processed := Stats.total_records_processed stats;
     Stats.total_records_inserted := Stats.total_records_inserted stats |}.

(** [n % self.config.progress_update_interval]: [ZeroDivisionError] for an
    interval of zero, which [__post_init__] does not exclude. *)
Definition progress_remainder (n : Z) : Outcome Z :=
  if progress_update_interval config =? 0
  then Raise (Exception "ZeroDivisionError")
  else Return (n mod progress_update_interval config).

(** The [except] branch of the two loops: one more result, a failed one, and
    one more failed file. *)
Definition error_result (file_path : string) (e : Exn) : FileProcessingResult.t :=
  FileProcessingResult.make file_path false [ErrorText e] 0.

Definition count_failed (stats : Stats.t) : Stats.t :=
  {| Stats.files_discovered := Stats.files_discovered stats;
     Stats.files_processed := Stats.files_processed stats;
     Stats.files_successful := Stats.files_successful stats;
     Stats.files_failed := Stats.files_failed stats + 1;
     Stats.files_skipped := Stats.files_skipped stats;
     Stats.total_records_processed := Stats.total_records_processed stats;
     Stats.total_records_inserted := Stats.total_records_inserted stats |}.

(** The body of the two loops once [ingest_file] has returned [result]
    ([ingest_file] catches what it raises itself): the result is appended
    and counted, and the progress line is due when [n] is a multiple of the
    interval.  When that test raises, the file has been counted already and
    is counted as failed once more. *)
Definition record_result (n : Stats.t -> Z) (file_path : string)
  (result : FileProcessingResult.t) (stats : Stats.t)
  : list FileProcessingResult.t * Stats.t :=
  let stats := count_file result stats in
  match progress_remainder (n stats) with
  | Return _ => ([result], stats)
  | Raise e => ([result; error_result file_path e], count_failed stats)
  end.

(** [for i, file_path in enumerate(files)], from index [i] on: the progress
    test is on [i + 1]. *)
Fixpoint process_files_from (i : Z) (files : list string) (dry_run : bool)
  (stats : Stats.t) (store : Store)
  : list FileProcessingResult.t * Stats.t * Store :=
  match files with
  | [] => ([], stats, store)
  | file_path :: rest =>
    let '(result, store) := ingest_file file_path dry_run store in
    let '(appended, stats) := record_result (fun _ => i + 1) file_path result stats in
    let '(results, stats, store) :=
      process_files_from (i + 1) rest dry_run stats store in
    ((appended ++ results)%list, stats, store)
  end.

Definition _process_files_sequential (files : list string) (dry_run : bool)
  (stats : Stats.t) (store : Store)
  : list FileProcessingResult.t * Stats.t * Store :=
  process_files_from 0 files dry_run stats store.

(** The order in which the futures of the thread pool complete: a
    rearrangement of the submitted files. *)
Variable as_completed : list string -> list string.

(** [for future in as_completed(future_to_file)]: the progress test is on
    [self.stats['files_processed']]. *)
Fixpoint process_completed (completed : list string) (dry_run : bool)
  (stats : Stats.t) (store : Store)
  : list FileProcessingResult.t * Stats.t * Store :=
  match completed with
  | [] => ([], stats, store)
  | file_path :: rest =>
    let '(result, store) := ingest_file file_path dry_run store in
    let '(appended, stats) :=
      record_result Stats.files_processed file_path result stats in
    let '(results, stats, store) := process_completed rest dry_run stats store in
    ((appended ++ results)%list, stats, store)
  end.

(** Every submitted file goes through [ingest_file] once; the results are
    collected in completion order.  The interleaving of the workers'
    transactions is not modelled: the files are taken one after another. *)
Definition _process_files_parallel (files : list string) (dry_run : bool)
  (stats : Stats.t) (store : Store)
  : list FileProcessingResult.t * Stats.t * Store :=
  process_completed (as_completed files) dry_run stats store.

Definition _aggregate_results (results : list FileProcessingResult.t)
  (stats : Stats.t) : Stats.t :=
  let total_records_processed :=
    fold_left (fun total result => total + FileProcessingResult.records_processed result)
      results 0 in
  let total_records_inserted :=
    fold_left (fun total result => total + FileProcessingResult.records_inserted result)
      results 0 in
  {| Stats.files_discovered := Stats.files_discovered stats;
     Stats.files_processed := Stats.files_processed stats;
     Stats.files_successful := Stats.files_successful stats;
     Stats.files_failed := Stats.files_failed stats;
     Stats.files_skipped := Stats.files_skipped stats;
     Stats.total_records_processed := total_records_processed;
     Stats.total_records_inserted := total_records_inserted |}.

Definition _create_summary (stats : Stats.t) : IngestionSummary.t :=
  {| IngestionSummary.files_processed := Stats.files_processed stats;
     IngestionSummary.files_successful := Stats.files_successful stats;
     IngestionSummary.files_failed := Stats.files_failed stats;
     IngestionSummary.total_records_processed := Stats.total_records_processed stats;
     IngestionSummary.total_records_inserted := Stats.total_records_inserted stats;
     IngestionSummary.total_records_updated := 0;
     IngestionSummary.total_records_skipped := 0 |}.

Definition set_files_discovered (v : Z) (stats : Stats.t) : Stats.t :=
  {| Stats.files_discovered := v;
     Stats.files_processed := Stats.files_processed stats;
     Stats.files_successful := Stats.files_successful stats;
     Stats.files_failed := Stats.files_failed stats;
     Stats.files_skipped := Stats.files_skipped stats;
     Stats.total_records_processed := Stats.total_records_processed stats;
     Stats.total_records_inserted := Stats.total_records_inserted stats |}.

Definition set_files_skipped (v : Z) (stats : Stats.t) : Stats.t :=
  {| Stats.files_discovered := Stats.files_discovered stats;
     Stats.files_processed := Stats.files_processed stats;
     Stats.files_successful := Stats.files_successful stats;
     Stats.files_failed := Stats.files_failed stats;
     Stats.files_skipped := v;
     Stats.total_records_processed := Stats.total_records_processed stats;
     Stats.total_records_inserted := Stats.total_records_inserted stats |}.

(** [ingest_directory]: the summary, [self.stats] and the store afterwards.
    [directory] and [file_patterns] default to the configured ones. *)
Definition ingest_directory (directory : option string)
  (file_patterns_arg : option (list string)) (dry_run : bool)
  (stats : Stats.t) (store : Store) : IngestionSummary.t * Stats.t * Store :=
  let directory := default (input_directory config) directory in
  (* file_patterns = file_patterns or self.config.file_patterns *)
  let patterns :=
    match file_patterns_arg with
    | Some (p :: ps) => p :: ps
    | _ => file_patterns config
    end in
  let files := discover_argo_files directory patterns in
  let stats := set_files_discovered (Z.of_nat (length files)) stats in
  match files with
  | [] => (_create_summary stats, stats, store)
  | _ :: _ =>
    let '(results, stats, store) :=
      if 1 <? max_workers config
      then _process_files_parallel files dry_run stats store
      else _process_files_sequential files dry_run stats store in
    let stats := _aggregate_results results stats in
    (_create_summary stats, stats, store)
  end.

(** The files [resume_ingestion] keeps when [skip_successful] holds: those
    whose latest audit-log row is missing or not a success; and the number
    of files it counts as skipped. *)
Definition needs_processing (session : Store) (file_path : string) : bool :=
  match get_ingestion_status file_path session with
  | None => true
  | Some status => negb (bool_decide (DataIngestionLog.status status = Some "success"))
  end.

Definition resume_ingestion (directory : option string) (skip_successful : bool)
  (stats : Stats.t) (store : Store) : IngestionSummary.t * Stats.t * Store :=
  let directory := default (input_directory config) directory in
  let all_files := discover_argo_files directory (file_patterns config) in
  let '(files_to_process, stats) :=
    if skip_successful
    then
      (List.filter (needs_processing store) all_files,
       set_files_skipped
         (Stats.files_skipped stats
          + Z.of_nat (length (List.filter (fun f => negb (needs_processing store f))
                                all_files)))
         stats)
    else (all_files, stats) in
  (* files_to_process is not passed on: the directory is ingested again *)
  ingest_directory (Some directory) (Some (file_patterns config)) false
    stats store.

End Pipeline.

(** * Vocabulary of the statements *)

(** The scientific readings of a level, as the specification counts them. *)
Inductive Reading : Type :=
| Temperature | TemperatureAdjusted | Salinity | SalinityAdjusted
| Oxygen | Chlorophyll.

Definition profile_values (field : Reading) (profile : ArgoProfile.t)
  : option (list float) :=
  match field with
  | Temperature => ArgoProfile.temperature profile
  | TemperatureAdjusted => ArgoProfile.temperature_adjusted profile
  | Salinity => ArgoProfile.salinity profile
  | SalinityAdjusted => ArgoProfile.salinity_adjusted profile
  | Oxygen => ArgoProfile.oxygen profile
  | Chlorophyll => ArgoProfile.chlorophyll profile
  end.

(** The value a profile carries for a reading at a level: present and not
    NaN. *)
Definition reading_at (field : Reading) (profile : ArgoProfile.t)
  (level_idx : nat) : option float :=
  match profile_values field profile with
  | Some values =>
    match values !! level_idx with
    | Some x => if np_isnan x then None else Some x
    | None => None
    end
  | None => None
  end.

Definition measurement_value (field : Reading) (measurement : ArgoMeasurement.t)
  : option float :=
  match field with
  | Temperature => ArgoMeasurement.temperature measurement
  | TemperatureAdjusted => ArgoMeasurement.temperature_adjusted measurement
  | Salinity => ArgoMeasurement.salinity measurement
  | SalinityAdjusted => ArgoMeasurement.salinity_adjusted measurement
  | Oxygen => ArgoMeasurement.oxygen measurement
  | Chlorophyll => ArgoMeasurement.chlorophyll_a measurement
  end.

(** The columns of a float row that the upsert does not name in [set_]. *)
Definition same_creation_metadata (row row' : ArgoFloat.t) : Prop :=
  ArgoFloat.float_id row' = ArgoFloat.float_id row
  /\ ArgoFloat.platform_number row' = ArgoFloat.platform_number row
  /\ ArgoFloat.wmo_number row' = ArgoFloat.wmo_number row
  /\ ArgoFloat.project_name row' = ArgoFloat.project_name row
  /\ ArgoFloat.pi_name row' = ArgoFloat.pi_name row
  /\ ArgoFloat.institution row' = ArgoFloat.institution row
  /\ ArgoFloat.wmo_inst_type row' = ArgoFloat.wmo_inst_type row
  /\ ArgoFloat.deployment_date row' = ArgoFloat.deployment_date row
  /\ ArgoFloat.last_latitude row' = ArgoFloat.last_latitude row
  /\ ArgoFloat.last_longitude row' = ArgoFloat.last_longitude row
  /\ ArgoFloat.first_profile_date row' = ArgoFloat.first_profile_date row
  /\ ArgoFloat.created_at row' = ArgoFloat.created_at row
  /\ ArgoFloat.updated_at row' = ArgoFloat.updated_at row.

(** An engine that accepts every statement and every flush. *)
Definition accepts_all {X : Type} (raises : Store -> X -> option Exn) : Prop :=
  forall session x, raises session x = None.

(** What [add_reading] reads: the value at the level, when it is there and
    is not NaN. *)
Definition value_read (values : option (list float)) (level_idx : nat)
  : option float :=
  match values with
  | Some array =>
    match array !! level_idx with
    | Some x => if np_isnan x then None else Some x
    | None => None
    end
  | None => None
  end.

(** The measurement of a level before the test of [_has_valid_data]. *)
Definition level_candidate (profile : ArgoProfile.t) (pressure : float)
  (level_idx : nat) : ArgoMeasurement.t :=
  _add_optional_measurements
    (_add_salinity_data
       (_add_temperature_data
          (match ArgoProfile.pressure_qc profile with
           | Some qc =>
             match qc !! level_idx with
             | Some flag =>
               ArgoMeasurement.set_pressure_qc (Some flag)
                 (new_measurement (ArgoProfile.profile_id profile) pressure)
             | None => new_measurement (ArgoProfile.profile_id profile) pressure
             end
           | None => new_measurement (ArgoProfile.profile_id profile) pressure
           end) profile level_idx) profile level_idx) profile level_idx.

(** The measurements of a batch of profiles do not depend on the store or
    on the cache. *)
Definition profile_measurements (profile : ArgoProfile.t) : list ArgoMeasurement.t :=
  _create_measurement_models profile
    (_create_profile_model profile (new_float profile)).

(** The rows that reach the measurement statements: none when the batch
    size is negative. *)
Definition written (config : IngestionConfig) (measurements : list ArgoMeasurement.t)
  : list ArgoMeasurement.t :=
  if batch_size config <? 0 then [] else measurements.

Definition upsert_measurements (rows table : list ArgoMeasurement.t)
  : list ArgoMeasurement.t :=
  fold_left (on_conflict_do_update measurement_conflict measurement_set_)
    (map measurement_dict rows) table.

(** The measurement statements go through unless the batch size is zero
    while there is something to write. *)
Definition batches_ok (config : IngestionConfig)
  (measurements : list ArgoMeasurement.t) : Prop :=
  measurements = [] \/ batch_size config <> 0.

(** The profiles a file hands to the mapper. *)
Definition accepted_profiles (pd_Timedelta_days : Number -> option Z)
  (fs : string -> option File) (config : IngestionConfig) (file_path : string)
  : list ArgoProfile.t :=
  default [] (profiles (FileProcessingResult.metadata
                          (parse_file pd_Timedelta_days fs config file_path))).

(** A file that the pipeline ingests whenever the engine accepts its
    statements. *)
Definition ingestible (pd_Timedelta_days : Number -> option Z)
  (fs : string -> option File) (config : IngestionConfig) (file_path : string)
  : Prop :=
  fst (validate_netcdf_file fs file_path) = true
  /\ FileProcessingResult.success
       (parse_file pd_Timedelta_days fs config file_path) = true
  /\ accepted_profiles pd_Timedelta_days fs config file_path <> []
  /\ batches_ok config
       (flat_map profile_measurements
          (accepted_profiles pd_Timedelta_days fs config file_path)).

(** The delay before the retry that follows the attempt [attempt]:
    [retry_delay * 2 ** attempt] under exponential backoff, [retry_delay]
    otherwise. *)
Definition backoff_delay (config : IngestionConfig) (attempt : Z) : float :=
  if exponential_backoff config
  then PrimFloat.mul (retry_delay config) (Z.ldexp 1%float attempt)
  else retry_delay config.

(** The audit-log row that [log_ingestion_result] builds for a result. *)
Definition audit_row (result : FileProcessingResult.t) (utcnow : Z)
  : DataIngestionLog.t :=
  log_model_of
    (create_ingestion_log_entry
       (FileProcessingResult.file_path result)
       (FileProcessingResult.success result)
       (FileProcessingResult.records_processed result)
       (FileProcessingResult.records_inserted result)
       (FileProcessingResult.errors result)
       (FileProcessingResult.metadata result) utcnow).

(** The tables as the session of [ingest_file]'s database work sees them
    when its block ends, before the session is closed: what a commit at
    that point would have made of the database. *)
Definition session_tables (pd_Timedelta_days : Number -> option Z)
  (fs : string -> option File) (config : IngestionConfig)
  (execute_raises : Store -> Statement -> option Exn)
  (flush_raises : Store -> Flush -> option Exn) (clock : string -> Z)
  (file_path : string) (database : Store) : Store :=
  tables
    (snd (ingest_file_block config execute_raises flush_raises clock file_path
            (accepted_profiles pd_Timedelta_days fs config file_path)
            (parse_file pd_Timedelta_days fs config file_path)
            (SessionLocal database))).

Definition log_rows_of (file_path : string) (store : Store) : list DataIngestionLog.t :=
  List.filter
    (fun row => bool_decide (DataIngestionLog.file_path row = Some file_path))
    (data_ingestion_logs store).

(** * Sample data, after tests/test_argo_ingestion.py *)

Definition nanoseconds_per_day : Z := 86400000000000.

(** A day count converted exactly and truncated to the nanosecond. *)
Definition days_to_nanoseconds (x : float) : option Z :=
  match Prim2SF x with
  | S754_zero _ => Some 0
  | S754_finite negative m e =>
    let n := Z.pos m * nanoseconds_per_day in
    let magnitude := if 0 <=? e then n * 2 ^ e else n / 2 ^ (- e) in
    Some (if negative then - magnitude else magnitude)
  | _ => None
  end.

(** The conversion used for the sample files: the day count converted
    whichever way Python holds it, as [pd.Timedelta(days=float(x))] would.
    With it a file's profiles reach the mapper and the database code. *)
Definition exact_Timedelta_days (x : Number) : option Z :=
  days_to_nanoseconds (number_value x).

(** [pd.Timedelta(days=x)] as pandas has it: the day count must be a Python
    number, and an array, also one of no dimension, is refused with a
    [TypeError]. *)
Definition pandas_Timedelta_days (x : Number) : option Z :=
  match x with
  | PyFloat days => days_to_nanoseconds days
  | NdArray _ => None
  end.

Definition empty_store : Store :=
  {| argo_floats := []; argo_profiles := []; argo_measurements := [];
     data_ingestion_logs := [] |}.

(** 2023-01-01 is 26663 days after the reference date. *)
Definition sample_today : Z := 26663 * nanoseconds_per_day.

Definition sample_config : IngestionConfig := default_config (27000 * nanoseconds_per_day).

(** A profile of float 7900522 with the given levels. *)
Definition sample_profile (cycle : Z) (date_time : Z) (latitude : float)
  (pressure : list float) (temperature salinity : option (list float))
  : ArgoProfile.t := {|
  ArgoProfile.float_id := Some "7900522";
  ArgoProfile.cycle_number := cycle;
  ArgoProfile.profile_id := make_profile_id (Some "7900522") cycle;
  ArgoProfile.data_mode := "R";
  ArgoProfile.latitude := latitude;
  ArgoProfile.longitude := (-125.25)%float;
  ArgoProfile.date_time := date_time;
  ArgoProfile.platform_number := Some "7900522";
  ArgoProfile.project_name := Some "Test Project";
  ArgoProfile.pi_name := Some "Test Scientist";
  ArgoProfile.pressure := Some pressure;
  ArgoProfile.pressure_qc := None;
  ArgoProfile.temperature := temperature;
  ArgoProfile.temperature_qc := None;
  ArgoProfile.temperature_adjusted := None;
  ArgoProfile.temperature_adjusted_qc := None;
  ArgoProfile.salinity := salinity;
  ArgoProfile.salinity_qc := None;
  ArgoProfile.salinity_adjusted := None;
  ArgoProfile.salinity_adjusted_qc := None;
  ArgoProfile.oxygen := None;
  ArgoProfile.oxygen_qc := None;
  ArgoProfile.chlorophyll := None;
  ArgoProfile.chlorophyll_qc := None;
  ArgoProfile.position_qc := Some "1";
  ArgoProfile.date_qc := None
|}.

(** A dataset with one row per entry of [rows]: latitude, day count and
    data mode of each profile; every profile has the levels
    [0, 10, 20, 30] dbar with a temperature and a salinity. *)
Definition sample_dataset (platform : string) (rows : list (float * float * string))
  : Dataset := {|
  ds_dims := [("N_PROF", Z.of_nat (length rows)); ("N_LEVELS", 4)];
  ds_variables :=
    ["JULD"; "LATITUDE"; "LONGITUDE"; "PRES"; "TEMP"; "PSAL";
     "PLATFORM_NUMBER"; "DATA_MODE"; "CYCLE_NUMBER"];
  ds_text := fun var_name prof_idx =>
    if String.eqb var_name "PLATFORM_NUMBER"
    then (fun _ => platform) <$> rows !! prof_idx
    else if String.eqb var_name "DATA_MODE"
    then snd <$> rows !! prof_idx
    else None;
  ds_int := fun var_name prof_idx =>
    if String.eqb var_name "CYCLE_NUMBER"
    then (fun _ => Z.of_nat prof_idx + 1) <$> rows !! prof_idx
    else None;
  ds_float := fun var_name prof_idx =>
    if String.eqb var_name "LATITUDE" then (fun r => fst (fst r)) <$> rows !! prof_idx
    else if String.eqb var_name "LONGITUDE"
    then (fun _ => (-125.25)%float) <$> rows !! prof_idx
    else if String.eqb var_name "JULD" then (fun r => snd (fst r)) <$> rows !! prof_idx
    else None;
  ds_array := fun var_name prof_idx =>
    if String.eqb var_name "PRES"
    then (fun _ => [0; 10; 20; 30]%float) <$> rows !! prof_idx
    else if String.eqb var_name "TEMP"
    then (fun _ => [15; 14.5; 14; 13.5]%float) <$> rows !! prof_idx
    else if String.eqb var_name "PSAL"
    then (fun _ => [35; 35.25; 35.5; 35.75]%float) <$> rows !! prof_idx
    else None;
  ds_flags := fun _ _ => None
|}.

Definition sample_file (ds : Dataset) : File :=
  {| st_size := 1000; open_dataset := Return ds |}.

Definition never_raises {X : Type} (session : Store) (x : X) : option Exn := None.

(** An engine that fails every flush that inserts an audit-log row, with the
    exception [e]. *)
Definition audit_flush_fails (e : Exn) (session : Store) (pending : Flush)
  : option Exn :=
  match added_logs pending with
  | [] => None
  | _ :: _ => Some e
  end.

(** A file whose two profiles are both rejected (latitude 95). *)
Definition rejected_dataset : Dataset :=
  sample_dataset "7900522"
    [(95%float, 25000.5%float, "R"); (95%float, 25010.75%float, "D")].

Definition rejected_fs (p : string) : option File :=
  if String.eqb p "/data/rejected.nc" then Some (sample_file rejected_dataset) else None.

Definition with_max_errors_per_file (n : Z) (c : IngestionConfig) : IngestionConfig :=
  {| input_directory := input_directory c; file_patterns := file_patterns c;
     batch_size := batch_size c; max_workers := max_workers c;
     max_retries := max_retries c; retry_delay := retry_delay c;
     exponential_backoff := exponential_backoff c;
     progress_update_interval := progress_update_interval c;
     max_errors_per_file := n;
     data_modes := data_modes c; geographic_bounds := geographic_bounds c;
     date_range := date_range c; validation := validation c |}.

(** Three profiles, each rejected for its latitude. *)
Definition three_rejected : Dataset :=
  sample_dataset "7900522"
    [(95%float, 25000.5%float, "R"); (95%float, 25010.75%float, "R");
     (95%float, 25020.25%float, "R")].

(** Three profiles whose data mode is none of R, D, A: validating each of
    them raises. *)
Definition three_unknown_modes : Dataset :=
  sample_dataset "7900522"
    [(45.5%float, 25000.5%float, "X"); (45.5%float, 25010.75%float, "X");
     (45.5%float, 25020.25%float, "X")].

(** The profile of the specification's scenario: pressure [0, 10, 20],
    temperature [15, 14, 13], no salinity. *)
Definition temperature_only_profile : ArgoProfile.t :=
  sample_profile 1 sample_today 45.5%float
    [0; 10; 20]%float (Some [15; 14; 13]%float) None.

(** A level at infinite pressure, and a level whose temperature is
    infinite. *)
Definition infinite_levels_profile : ArgoProfile.t :=
  sample_profile 1 sample_today 45.5%float
    [infinity; 10%float] (Some [15%float; infinity]) None.

(** Two profiles of one new float, a day apart. *)
Definition first_sighting : ArgoProfile.t :=
  sample_profile 1 (26663 * nanoseconds_per_day) 45.5%float
    [0; 10]%float (Some [15; 14]%float) None.
Definition second_sighting : ArgoProfile.t :=
  sample_profile 2 (26664 * nanoseconds_per_day) 45.5%float
    [0; 10]%float (Some [15; 14]%float) None.

(** A float stored by an earlier run, and the model a later run proposes for
    it, with other creation-time metadata. *)
Definition stored_float : ArgoFloat.t := {|
  ArgoFloat.float_id := Some "7900522";
  ArgoFloat.platform_number := Some "7900522";
  ArgoFloat.wmo_number := None;
  ArgoFloat.project_name := Some "Test Project";
  ArgoFloat.pi_name := Some "Test Scientist";
  ArgoFloat.institution := None;
  ArgoFloat.wmo_inst_type := None;
  ArgoFloat.status := Some "active";
  ArgoFloat.deployment_date := Some (26000 * nanoseconds_per_day);
  ArgoFloat.last_contact_date := Some (26600 * nanoseconds_per_day);
  ArgoFloat.last_latitude := None;
  ArgoFloat.last_longitude := None;
  ArgoFloat.total_profiles := Some 5;
  ArgoFloat.first_profile_date := Some (26000 * nanoseconds_per_day);
  ArgoFloat.last_profile_date := Some (26600 * nanoseconds_per_day);
  ArgoFloat.created_at := Some (26001 * nanoseconds_per_day);
  ArgoFloat.updated_at := Some (26001 * nanoseconds_per_day)
|}.

Definition proposed_float : ArgoFloat.t := {|
  ArgoFloat.float_id := Some "7900522";
  ArgoFloat.platform_number := Some "7900522-B";
  ArgoFloat.wmo_number := None;
  ArgoFloat.project_name := Some "Another Project";
  ArgoFloat.pi_name := Some "Another Scientist";
  ArgoFloat.institution := None;
  ArgoFloat.wmo_inst_type := None;
  ArgoFloat.status := Some "inactive";
  ArgoFloat.deployment_date := Some (26663 * nanoseconds_per_day);
  ArgoFloat.last_contact_date := Some (26663 * nanoseconds_per_day);
  ArgoFloat.last_latitude := None;
  ArgoFloat.last_longitude := None;
  ArgoFloat.total_profiles := Some 6;
  ArgoFloat.first_profile_date := Some (26000 * nanoseconds_per_day);
  ArgoFloat.last_profile_date := Some (26663 * nanoseconds_per_day);
  ArgoFloat.created_at := None;
  ArgoFloat.updated_at := None
|}.

Definition store_with_float : Store :=
  set_argo_floats [stored_float] empty_store.

(** [time.sleep] of CPython: the delay is converted to a count of
    nanoseconds that must fit 64 bits, and a negative delay is refused. *)
Definition python_sleep (secs : float) : option Exn :=
  if PrimFloat.is_nan secs
  then Some (Exception "ValueError: Invalid value NaN (not a number)")
  else
    let nanoseconds := PrimFloat.mul secs 1e9%float in
    if PrimFloat.leb (-9223372036854775808)%float nanoseconds
       && PrimFloat.ltb nanoseconds 9223372036854775808%float
    then
      if PrimFloat.ltb secs 0%float
      then Some (Exception "ValueError: sleep length must be non-negative")
      else None
    else Some (Exception "OverflowError: timestamp too large to convert to C _PyTime_t").

Definition with_retry_delay (delay : float) (c : IngestionConfig) : IngestionConfig :=
  {| input_directory := input_directory c; file_patterns := file_patterns c;
     batch_size := batch_size c; max_workers := max_workers c;
     max_retries := max_retries c; retry_delay := delay;
     exponential_backoff := exponential_backoff c;
     progress_update_interval := progress_update_interval c;
     max_errors_per_file := max_errors_per_file c;
     data_modes := data_modes c; geographic_bounds := geographic_bounds c;
     date_range := date_range c; validation := validation c |}.

(** An operation that loses its connection twice and then returns 42. *)
Definition flaky_operation (call : nat) : Outcome Z :=
  if (call <? 2)%nat then Raise (SQLAlchemyError "connection lost") else Return 42.

Definition failing_operation (call : nat) : Outcome Z :=
  Raise (SQLAlchemyError "connection lost").

(** A file with one accepted profile (four levels) and one rejected. *)
Definition mixed_dataset : Dataset :=
  sample_dataset "7900522"
    [(45.5%float, 25000.5%float, "R"); (95%float, 25010.75%float, "D")].

Definition mixed_fs (p : string) : option File :=
  if String.eqb p "/data/a.nc" then Some (sample_file mixed_dataset) else None.

Definition first_run : FileProcessingResult.t * Store :=
  ingest_file exact_Timedelta_days mixed_fs sample_config never_raises never_raises
    (fun _ => 26663 * nanoseconds_per_day) "/data/a.nc" false empty_store.

Definition second_run : FileProcessingResult.t * Store :=
  ingest_file exact_Timedelta_days mixed_fs sample_config never_raises never_raises
    (fun _ => 26664 * nanoseconds_per_day) "/data/a.nc" false (snd first_run).

(** A directory with two files; the audit log of an earlier run says that A
    succeeded and that B failed. *)
Definition one_profile_dataset (platform : string) : Dataset :=
  sample_dataset platform [(45.5%float, 25000.5%float, "R")].

Definition resume_fs (p : string) : option File :=
  if String.eqb p "data/raw/argo/A.nc"
  then Some (sample_file (one_profile_dataset "7900522"))
  else if String.eqb p "data/raw/argo/B.nc"
  then Some (sample_file (one_profile_dataset "7900523"))
  else None.

Definition resume_glob (directory pattern : string) : list string :=
  if String.eqb directory "data/raw/argo"
     && (String.eqb pattern "*.nc" || String.eqb pattern "**/*.nc")
  then ["data/raw/argo/B.nc"; "data/raw/argo/A.nc"]
  else [].

Definition earlier_log (file_path filename status : string) (at_ : Z)
  : DataIngestionLog.t := {|
  DataIngestionLog.filename := filename;
  DataIngestionLog.file_path := Some file_path;
  DataIngestionLog.file_size := None;
  DataIngestionLog.file_hash := None;
  DataIngestionLog.status := Some status;
  DataIngestionLog.started_at := Some at_;
  DataIngestionLog.completed_at := None;
  DataIngestionLog.error_message := None;
  DataIngestionLog.profiles_processed := Some 1;
  DataIngestionLog.measurements_processed := Some 0;
  DataIngestionLog.floats_processed := Some 0;
  DataIngestionLog.processor_version := None;
  DataIngestionLog.processing_parameters := None
|}.

Definition store_after_earlier_run : Store :=
  set_data_ingestion_logs
    [earlier_log "data/raw/argo/A.nc" "A.nc" "success" (26600 * nanoseconds_per_day);
     earlier_log "data/raw/argo/B.nc" "B.nc" "failed" (26600 * nanoseconds_per_day)]
    empty_store.

Definition resumed_run : IngestionSummary.t * Stats.t * Store :=
  resume_ingestion exact_Timedelta_days resume_fs resume_glob sample_config
    never_raises never_raises (fun _ => 26663 * nanoseconds_per_day) (fun files => files)
    None true Stats.initial store_after_earlier_run.

(** * More of the code: quality flags, log maintenance, statistics, job registry *)

(** ** config.py: the quality-control flags *)

Inductive QCFlag : Type :=
| NO_QC | GOOD_DATA | PROBABLY_GOOD | BAD_DATA_CORRECTABLE | BAD_DATA
| VALUE_CHANGED | NOT_USED | NOMINAL | INTERPOLATED | MISSING_VALUE.

(** [flag.value] *)
Definition QCFlag_value (flag : QCFlag) : string :=
  match flag with
  | NO_QC => "0"
  | GOOD_DATA => "1"
  | PROBABLY_GOOD => "2"
  | BAD_DATA_CORRECTABLE => "3"
  | BAD_DATA => "4"
  | VALUE_CHANGED => "5"
  | NOT_USED => "6"
  | NOMINAL => "7"
  | INTERPOLATED => "8"
  | MISSING_VALUE => "9"
  end.

(** ** mappers.py: ArgoDataMapper.validate_qc_flags *)

(** The dictionary [validate_qc_flags] returns. *)
Module QCStats.
Record t : Type := {
  total_measurements : Z;
  good_quality : Z;
  questionable_quality : Z;
  bad_quality : Z;
  missing_qc : Z
}.
End QCStats.

(** [x in values] for a list of strings. *)
Definition string_in (x : string) (values : list string) : bool :=
  existsb (String.eqb x) values.

(** The body of the loop over [profile.temperature_qc]. *)
Definition count_qc_flag (stats : QCStats.t) (qc_flag : string) : QCStats.t :=
  if string_in qc_flag [QCFlag_value GOOD_DATA; QCFlag_value PROBABLY_GOOD] then
    {| QCStats.total_measurements := QCStats.total_measurements stats;
       QCStats.good_quality := QCStats.good_quality stats + 1;
       QCStats.questionable_quality := QCStats.questionable_quality stats;
       QCStats.bad_quality := QCStats.bad_quality stats;
       QCStats.missing_qc := QCStats.missing_qc stats |}
  else if string_in qc_flag [QCFlag_value BAD_DATA_CORRECTABLE] then
    {| QCStats.total_measurements := QCStats.total_measurements stats;
       QCStats.good_quality := QCStats.good_quality stats;
       QCStats.questionable_quality := QCStats.questionable_quality stats + 1;
       QCStats.bad_quality := QCStats.bad_quality stats;
       QCStats.missing_qc := QCStats.missing_qc stats |}
  else if string_in qc_flag [QCFlag_value BAD_DATA] then
    {| QCStats.total_measurements := QCStats.total_measurements stats;
       QCStats.good_quality := QCStats.good_quality stats;
       QCStats.questionable_quality := QCStats.questionable_quality stats;
       QCStats.bad_quality := QCStats.bad_quality stats + 1;
       QCStats.missing_qc := QCStats.missing_qc stats |}
  else
    {| QCStats.total_measurements := QCStats.total_measurements stats;
       QCStats.good_quality := QCStats.good_quality stats;
       QCStats.questionable_quality := QCStats.questionable_quality stats;
       QCStats.bad_quality := QCStats.bad_quality stats;
       QCStats.missing_qc := QCStats.missing_qc stats + 1 |}.

Definition validate_qc_flags (profile : ArgoProfile.t) : QCStats.t :=
  let stats :=
    {| QCStats.total_measurements := 0; QCStats.good_quality := 0;
       QCStats.questionable_quality := 0; QCStats.bad_quality := 0;
       QCStats.missing_qc := 0 |} in
  match ArgoProfile.pressure profile with
  | None => stats
  | Some pressure =>
    let n_levels := Z.of_nat (length pressure) in
    let stats :=
      {| QCStats.total_measurements := n_levels;
         QCStats.good_quality := QCStats.good_quality stats;
         QCStats.questionable_quality := QCStats.questionable_quality stats;
         QCStats.bad_quality := QCStats.bad_quality stats;
         QCStats.missing_qc := QCStats.missing_qc stats |} in
    match ArgoProfile.temperature_qc profile with
    | Some temperature_qc => fold_left count_qc_flag temperature_qc stats
    | None => stats
    end
  end.

(** The number of flags of a list that are among [values]. *)
Definition count_flags (values : list string) (flags : list string) : Z :=
  Z.of_nat (length (List.filter (fun flag => string_in flag values) flags)).

(** ** database_ops.py: DatabaseOperations.cleanup_old_logs

    Here the calendar fields of a [datetime] matter, since [replace] works
    on them: a naive [datetime] is its fields, and [timestamp] gives its
    count of nanoseconds since the ARGO reference date (read as UTC). *)
Module datetime.
Record t : Type := {
  year : Z;
  month : Z;
  day : Z;
  hour : Z;
  minute : Z;
  second : Z;
  microsecond : Z
}.
End datetime.

Definition is_leap (year : Z) : bool :=
  (year mod 4 =? 0) && (negb (year mod 100 =? 0) || (year mod 400 =? 0)).

Definition days_in_month (year month : Z) : Z :=
  if month =? 2 then (if is_leap year then 29 else 28)
  else if (month =? 4) || (month =? 6) || (month =? 9) || (month =? 11) then 30
  else 31.

Definition days_before_year (year : Z) : Z :=
  let y := year - 1 in
  y * 365 + y / 4 - y / 100 + y / 400.

Definition days_before_month (year month : Z) : Z :=
  fold_left (fun days m => days + days_in_month year (Z.of_nat m))
    (seq 1 (Z.to_nat (month - 1))) 0.

(** [d.toordinal()]: day 1 is 0001-01-01. *)
Definition toordinal (d : datetime.t) : Z :=
  days_before_year (datetime.year d)
  + days_before_month (datetime.year d) (datetime.month d)
  + datetime.day d.

(** 1950-01-01 is day 711858. *)
Definition timestamp (d : datetime.t) : Z :=
  ((toordinal d - 711858) * 86400
   + datetime.hour d * 3600 + datetime.minute d * 60 + datetime.second d)
  * 1000000000
  + datetime.microsecond d * 1000.

(** [d.replace(hour=0, minute=0, second=0, microsecond=0)] *)
Definition replace_midnight (d : datetime.t) : datetime.t :=
  {| datetime.year := datetime.year d; datetime.month := datetime.month d;
     datetime.day := datetime.day d; datetime.hour := 0; datetime.minute := 0;
     datetime.second := 0; datetime.microsecond := 0 |}.

(** [d.replace(day=day)]: [ValueError] when the month has no such day. *)
Definition replace_day (d : datetime.t) (day : Z) : Outcome datetime.t :=
  if (1 <=? day) && (day <=? days_in_month (datetime.year d) (datetime.month d))
  then Return
         {| datetime.year := datetime.year d; datetime.month := datetime.month d;
            datetime.day := day; datetime.hour := datetime.hour d;
            datetime.minute := datetime.minute d; datetime.second := datetime.second d;
            datetime.microsecond := datetime.microsecond d |}
  else Raise (Exception "ValueError: day is out of range for month").

(** [DataIngestionLog.started_at < cutoff_date]: not true of a NULL. *)
Definition started_before (cutoff_date : Z) (row : DataIngestionLog.t) : bool :=
  match DataIngestionLog.started_at row with
  | Some started_at => started_at <? cutoff_date
  | None => false
  end.

Section Cleanup.

(** The exception with which the engine rejects the DELETE with a given
    cutoff, if it does. *)
Variable delete_raises : Store -> Z -> option Exn.

(** The [try] block of [cleanup_old_logs]. *)
Definition cleanup_old_logs_try (utcnow : datetime.t) (days : Z) : DB Z :=
  fun session =>
  let cutoff_date := replace_midnight utcnow in
  match replace_day cutoff_date (datetime.day cutoff_date - days) with
  | Raise e => (Raise e, session)
  | Return cutoff_date =>
    match delete_raises session (timestamp cutoff_date) with
    | Some e => (Raise e, session)
    | None =>
      let result :=
        Z.of_nat (length (List.filter (started_before (timestamp cutoff_date))
                            (data_ingestion_logs session))) in
      (Return result,
       set_data_ingestion_logs
         (List.filter (fun row => negb (started_before (timestamp cutoff_date) row))
            (data_ingestion_logs session))
         session)
    end
  end.

(** [cleanup_old_logs]: the [except Exception] branch logs the error and
    returns 0. *)
Definition cleanup_old_logs (utcnow : datetime.t) (days : Z) : DB Z :=
  db_try_except (cleanup_old_logs_try utcnow days)
    (fun e session => (Return 0, session)).

End Cleanup.

(** ** database_ops.py: DatabaseOperations.get_database_stats *)

(** The dictionary that [get_ingestion_statistics] of service.py returns. *)
Module IngestionStatistics.
Record t : Type := {
  processing_stats : Stats.t;
  (* the dictionary of [get_database_stats]: its keys with their values *)
  database_stats : list (string * Z);
  (* batch_size, max_workers, input_directory, file_patterns *)
  configuration : Z * Z * string * list string
}.
End IngestionStatistics.

Section DatabaseStatistics.

(** The engine: the exception with which one of the count queries fails, if
    any. *)
Variable query_raises : Store -> option Exn.

(** The [try] block of [get_database_stats]; the dictionary [stats] is the
    list of its keys with their values.  After the four counts the source
    builds the query for the date range from
    [ArgoProfile.measurement_date.min()].  A mapped column has no attribute
    [min] (the aggregate is [func.min]), so evaluating that expression
    raises [AttributeError] before a query is sent, and the rest of the
    block (date range, geographic bounds, recent ingestions, [return stats])
    is not reached. *)
Definition get_database_stats_try (session : Store)
  : Outcome (list (string * Z)) :=
  match query_raises session with
  | Some e => Raise e
  | None =>
    let stats :=
      [("float_count", Z.of_nat (length (argo_floats session)));
       ("profile_count", Z.of_nat (length (argo_profiles session)));
       ("measurement_count", Z.of_nat (length (argo_measurements session)));
       ("ingestion_log_count", Z.of_nat (length (data_ingestion_logs session)))] in
    Raise (Exception "AttributeError: measurement_date has no attribute 'min'")
  end.

(** [get_database_stats]: the [except Exception] branch returns the empty
    dictionary. *)
Definition get_database_stats (session : Store) : list (string * Z) :=
  match get_database_stats_try session with
  | Return stats => stats
  | Raise _ => []
  end.

(** service.py, [get_ingestion_statistics]: the counters of the service, the
    database statistics read in a session of their own, and four settings
    of the configuration. *)
Definition get_ingestion_statistics (config : IngestionConfig) (stats : Stats.t)
  (database : Store) : IngestionStatistics.t * Store :=
  let '(_, db_stats, database) :=
    get_session
      (fun _ session => (Return tt, get_database_stats (tables session), session))
      [] database in
  ({| IngestionStatistics.processing_stats := stats;
      IngestionStatistics.database_stats := db_stats;
      IngestionStatistics.configuration :=
        (batch_size config, max_workers config, input_directory config,
         file_patterns config) |},
   database).

End DatabaseStatistics.

(** ** api/routes/ingestion.py: the job registry

    [active_jobs] maps a job id to the dictionary of the job, in the order the
    jobs were registered.  The [request] entry of a job, which no handler
    reads, is left out; where the source interpolates a value into a message,
    the message keeps the value. *)

Inductive JobMessage : Type :=
| JobText (text : string)
| IngestionCompletedProcessed (total_records_inserted : Z)
| IngestionFailed (e : Exn).

Module Job.
Record t : Type := {
  status : string;
  message : JobMessage;
  (* [asyncio.get_event_loop().time()] *)
  created_at : float;
  summary : option IngestionSummary.t;
  (* [str(e)] *)
  error : option Exn
}.

Definition set_status (v : string) (r : t) : t :=
  {| status := v; message := message r; created_at := created_at r;
     summary := summary r; error := error r |}.

Definition set_message (v : JobMessage) (r : t) : t :=
  {| status := status r; message := v; created_at := created_at r;
     summary := summary r; error := error r |}.

Definition set_summary (v : IngestionSummary.t) (r : t) : t :=
  {| status := status r; message := message r; created_at := created_at r;
     summary := Some v; error := error r |}.

Definition set_error (v : Exn) (r : t) : t :=
  {| status := status r; message := message r; created_at := created_at r;
     summary := summary r; error := Some v |}.
End Job.

Definition Jobs : Type := list (string * Job.t).

(** [active_jobs.get(job_id)] *)
Definition jobs_get (job_id : string) (active_jobs : Jobs) : option Job.t :=
  option_map snd (find (fun kv => String.eqb job_id (fst kv)) active_jobs).

(** [del active_jobs[job_id]] *)
Definition jobs_del (job_id : string) (active_jobs : Jobs) : Jobs :=
  List.filter (fun kv => negb (String.eqb job_id (fst kv))) active_jobs.

(** A handler: it reads and changes the registry, and returns or raises. *)
Definition Handler (A : Type) : Type := Jobs -> Outcome A * Jobs.

Definition job_bind {A B} (m : Handler A) (k : A -> Handler B) : Handler B :=
  fun active_jobs =>
    match m active_jobs with
    | (Return a, active_jobs') => k a active_jobs'
    | (Raise e, active_jobs') => (Raise e, active_jobs')
    end.

(** The registry after a change of the dictionary of one job. *)
Definition jobs_update (job_id : string) (set_ : Job.t -> Job.t) (active_jobs : Jobs)
  : Jobs :=
  map (fun kv => if String.eqb job_id (fst kv) then (fst kv, set_ (snd kv)) else kv)
    active_jobs.

(** [active_jobs[job_id][key] = value]: the dictionary of the job is changed
    in place; [KeyError] when the job is not in the registry. *)
Definition job_setitem (job_id : string) (set_ : Job.t -> Job.t) : Handler unit :=
  fun active_jobs =>
    match jobs_get job_id active_jobs with
    | Some _ => (Return tt, jobs_update job_id set_ active_jobs)
    | None => (Raise (Exception ("KeyError: " ++ job_id)), active_jobs)
    end.

(** The writes of [run_ingestion_job] to the registry: on entry, on success
    and in the [except] block. *)
Definition mark_running (job_id : string) : Handler unit :=
  job_bind (job_setitem job_id (Job.set_status "running")) (fun _ =>
  job_setitem job_id (Job.set_message (JobText "Ingestion in progress..."))).

Definition mark_completed (job_id : string) (summary : IngestionSummary.t)
  : Handler unit :=
  job_bind (job_setitem job_id (Job.set_status "completed")) (fun _ =>
  job_bind (job_setitem job_id
              (Job.set_message
                 (IngestionCompletedProcessed
                    (IngestionSummary.total_records_inserted summary)))) (fun _ =>
  job_setitem job_id (Job.set_summary summary))).

Definition mark_failed (job_id : string) (e : Exn) : Handler unit :=
  job_bind (job_setitem job_id (Job.set_status "failed")) (fun _ =>
  job_bind (job_setitem job_id (Job.set_message (IngestionFailed e))) (fun _ =>
  job_setitem job_id (Job.set_error e))).

(** The [try] block.  [service] is the outcome of building the configuration
    and the service, [ingestion] the outcome of the awaited
    [service.ingest_directory], and [meanwhile] what the other handlers do to
    the registry while the job awaits it. *)
Definition run_ingestion_job_try (job_id : string) (service : Outcome unit)
  (ingestion : Outcome IngestionSummary.t) (meanwhile : Jobs -> Jobs) : Handler unit :=
  job_bind (mark_running job_id) (fun _ =>
  job_bind (fun active_jobs => (service, active_jobs)) (fun _ =>
  job_bind (fun active_jobs => (ingestion, meanwhile active_jobs)) (fun summary =>
  mark_completed job_id summary))).

(** [except Exception as e:] the handler writes to the registry as well, and
    what it raises leaves the function. *)
Definition run_ingestion_job (job_id : string) (service : Outcome unit)
  (ingestion : Outcome IngestionSummary.t) (meanwhile : Jobs -> Jobs) : Handler unit :=
  fun active_jobs =>
    match run_ingestion_job_try job_id service ingestion meanwhile active_jobs with
    | (Return _, active_jobs') => (Return tt, active_jobs')
    | (Raise e, active_jobs') => mark_failed job_id e active_jobs'
    end.

(** The job as [run_ingestion_job] leaves it: finished with a summary, or
    failed with the exception. *)
Definition finished_job (ingestion : Outcome IngestionSummary.t) (job : Job.t) : Job.t :=
  match ingestion with
  | Return summary =>
    {| Job.status := "completed";
       Job.message :=
         IngestionCompletedProcessed (IngestionSummary.total_records_inserted summary);
       Job.created_at := Job.created_at job;
       Job.summary := Some summary;
       Job.error := Job.error job |}
  | Raise e =>
    {| Job.status := "failed";
       Job.message := IngestionFailed e;
       Job.created_at := Job.created_at job;
       Job.summary := Job.summary job;
       Job.error := Some e |}
  end.

(** What a route answers: its value, or the [HTTPException] it raises. *)
Inductive Reply (A : Type) : Type :=
| Ok (a : A)
| HTTPException (status_code : Z) (detail : string).
Arguments Ok {A} a.
Arguments HTTPException {A} status_code detail.

(** [active_jobs[job_id] = {...}] of [start_ingestion]: the job is queued. *)
Definition queued_job (time : float) : Job.t :=
  {| Job.status := "started"; Job.message := JobText "Ingestion job queued";
     Job.created_at := time; Job.summary := None; Job.error := None |}.

Section Routes.

(** [Path(p).exists()] and [Path(p).is_dir()] *)
Variable path_exists : string -> bool.
Variable path_is_dir : string -> bool.

(** [job_id] is the fresh [uuid4] and [time] the loop's clock. *)
Definition start_ingestion (job_id : string) (input_directory : option string)
  (time : float) (active_jobs : Jobs) : Reply string * Jobs :=
  let queue :=
    (Ok job_id, dict_set String.eqb job_id (queued_job time) active_jobs) in
  match input_directory with
  | None | Some "" => queue
  | Some directory =>
    if negb (path_exists directory) then
      (HTTPException 400 ("Input directory does not exist: " ++ directory), active_jobs)
    else if negb (path_is_dir directory) then
      (HTTPException 400 ("Input path is not a directory: " ++ directory), active_jobs)
    else queue
  end.

End Routes.

(** The copy of the job with its [runtime_seconds]. *)
Definition get_job_status (job_id : string) (current_time : float)
  (active_jobs : Jobs) : Reply (Job.t * float) :=
  match jobs_get job_id active_jobs with
  | None => HTTPException 404 ("Ingestion job " ++ job_id ++ " not found")
  | Some job => Ok (job, PrimFloat.sub current_time (Job.created_at job))
  end.

Definition mark_cancelled (job_id : string) : Handler unit :=
  job_bind (job_setitem job_id (Job.set_status "cancelled")) (fun _ =>
  job_setitem job_id (Job.set_message (JobText "Job cancelled by user"))).

Inductive CancelMessage : Type :=
| MarkedForCancellation (job_id : string)
| Removed (job_id : string).

Definition cancel_job (job_id : string) (active_jobs : Jobs)
  : Reply CancelMessage * Jobs :=
  match jobs_get job_id active_jobs with
  | None =>
    (HTTPException 404 ("Ingestion job " ++ job_id ++ " not found"), active_jobs)
  | Some job =>
    if String.eqb (Job.status job) "running" then
      (Ok (MarkedForCancellation job_id),
       snd (mark_cancelled job_id active_jobs))
    else (Ok (Removed job_id), jobs_del job_id active_jobs)
  end.

(** One entry of the list [list_jobs] returns; the [summary] of a finished
    job shows its [files_processed] and [total_records_inserted] (and its
    [duration], a wall-clock measurement). *)
Module JobInfo.
Record t : Type := {
  job_id : string;
  status : string;
  message : JobMessage;
  created_at : float;
  runtime_seconds : float;
  summary : option (Z * Z)
}.
End JobInfo.

Definition job_info (current_time : float) (item : string * Job.t) : JobInfo.t :=
  {| JobInfo.job_id := fst item;
     JobInfo.status := Job.status (snd item);
     JobInfo.message := Job.message (snd item);
     JobInfo.created_at := Job.created_at (snd item);
     JobInfo.runtime_seconds := PrimFloat.sub current_time (Job.created_at (snd item));
     JobInfo.summary :=
       option_map (fun summary =>
                     (IngestionSummary.files_processed summary,
                      IngestionSummary.total_records_inserted summary))
         (Job.summary (snd item)) |}.

(** [if status and job_data.get("status") != status: continue] *)
Definition status_filter (status : option string) (item : string * Job.t) : bool :=
  match status with
  | None | Some "" => true
  | Some wanted => String.eqb (Job.status (snd item)) wanted
  end.

(** [jobs.sort(key=..., reverse=True)]: newest first, jobs of the same
    instant in the order of the list. *)
Fixpoint insert_newest_first (job : JobInfo.t) (sorted : list JobInfo.t)
  : list JobInfo.t :=
  match sorted with
  | [] => [job]
  | j :: rest =>
    if PrimFloat.ltb (JobInfo.created_at job) (JobInfo.created_at j)
    then j :: insert_newest_first job rest
    else job :: sorted
  end.

Definition sort_newest_first (jobs : list JobInfo.t) : list JobInfo.t :=
  fold_right insert_newest_first [] jobs.

(** [jobs[:limit]], also for a negative [limit]. *)
Definition slice_to {A} (limit : Z) (l : list A) : list A :=
  if limit <? 0 then firstn (length l - Z.to_nat (- limit)) l
  else firstn (Z.to_nat limit) l.

Definition list_jobs (status : option string) (limit : Z) (current_time : float)
  (active_jobs : Jobs) : list JobInfo.t :=
  slice_to limit
    (sort_newest_first (map (job_info current_time) (List.filter (status_filter status) active_jobs))).

(** * Vocabulary of the further statements *)

(** The order of the floats that are not NaN: a float is ranked by its
    sign class, then by exponent and mantissa. *)
Definition float_rank (f : spec_float) : option (Z * Z * Z) :=
  match f with
  | S754_nan => None
  | S754_infinity true => Some (-2, 0, 0)
  | S754_infinity false => Some (2, 0, 0)
  | S754_zero _ => Some (0, 0, 0)
  | S754_finite true m e => Some (-1, - e, - Z.pos m)
  | S754_finite false m e => Some (1, e, Z.pos m)
  end.

Definition rank_compare (a b : Z * Z * Z) : comparison :=
  match fst (fst a) ?= fst (fst b) with
  | Eq =>
    match snd (fst a) ?= snd (fst b) with
    | Eq => snd a ?= snd b
    | c => c
    end
  | c => c
  end.

(** Every cached model is cached under its own float id. *)
Definition cache_keyed (cache : gmap (option string) ArgoFloat.t) : Prop :=
  forall key float_model,
    cache !! key = Some float_model -> ArgoFloat.float_id float_model = key.

(** The columns of a profile row that the upsert does not name in [set_]. *)
Definition same_profile_identity (row row' : DbArgoProfile.t) : Prop :=
  DbArgoProfile.profile_id row' = DbArgoProfile.profile_id row
  /\ DbArgoProfile.float_id row' = DbArgoProfile.float_id row
  /\ DbArgoProfile.cycle_number row' = DbArgoProfile.cycle_number row
  /\ DbArgoProfile.measurement_date row' = DbArgoProfile.measurement_date row
  /\ DbArgoProfile.latitude row' = DbArgoProfile.latitude row
  /\ DbArgoProfile.longitude row' = DbArgoProfile.longitude row
  /\ DbArgoProfile.data_center row' = DbArgoProfile.data_center row
  /\ DbArgoProfile.processing_date row' = DbArgoProfile.processing_date row
  /\ DbArgoProfile.created_at row' = DbArgoProfile.created_at row
  /\ DbArgoProfile.updated_at row' = DbArgoProfile.updated_at row.

(** What a statement of proposed rows [data] does to one row that is in the
    table: every proposed row with the key of the row updates it in turn. *)
Definition updated_by {R : Type} (same_key : R -> R -> bool) (set_ : R -> R -> R)
  (data : list R) (row : R) : R :=
  fold_left (fun row excluded => if same_key excluded row then set_ row excluded else row)
    data row.

(** The profile rows a file proposes, and the profile table after its
    statement. *)
Definition profile_models (profiles : list ArgoProfile.t) : list DbArgoProfile.t :=
  map (fun profile => _create_profile_model profile (new_float profile)) profiles.

Definition upsert_profile_rows (now : Z) (rows table : list DbArgoProfile.t)
  : list DbArgoProfile.t :=
  fold_left (on_conflict_do_update profile_conflict profile_set_)
    (map (profile_dict now) rows) table.

(** [best] is a row of [seen] that no row of [seen] precedes in the order
    of the query, or [None] when [seen] is empty. *)
Definition latest_of (seen : list DataIngestionLog.t) (best : option DataIngestionLog.t)
  : Prop :=
  match best with
  | None => seen = []
  | Some b =>
    In b seen
    /\ forall other, In other seen ->
         started_before_desc (DataIngestionLog.started_at other)
           (DataIngestionLog.started_at b) = false
  end.

(** [a] is listed before [b]: [b] was not created later than [a]. *)
Definition not_older (a b : JobInfo.t) : Prop :=
  PrimFloat.leb (JobInfo.created_at b) (JobInfo.created_at a) = true.

(** * Further sample data *)

(** The mixed dataset without its CYCLE_NUMBER variable. *)
Definition no_cycle_number_dataset : Dataset := {|
  ds_dims := ds_dims rejected_dataset;
  ds_variables := ["JULD"; "LATITUDE"; "LONGITUDE"; "PRES"; "TEMP"; "PSAL";
                   "PLATFORM_NUMBER"; "DATA_MODE"];
  ds_text := ds_text mixed_dataset;
  ds_int := ds_int mixed_dataset;
  ds_float := ds_float mixed_dataset;
  ds_array := ds_array mixed_dataset;
  ds_flags := ds_flags mixed_dataset
|}.

(** A stored profile and the model a later file proposes for the same
    cycle, at another position. *)
Definition stored_profile : DbArgoProfile.t := {|
  DbArgoProfile.profile_id := "7900522_1";
  DbArgoProfile.float_id := Some "7900522";
  DbArgoProfile.cycle_number := 1;
  DbArgoProfile.measurement_date := 26600 * nanoseconds_per_day;
  DbArgoProfile.latitude := 45.5%float;
  DbArgoProfile.longitude := (-125.25)%float;
  DbArgoProfile.data_points := Some 2;
  DbArgoProfile.max_pressure := Some 10%float;
  DbArgoProfile.min_pressure := Some 0%float;
  DbArgoProfile.quality_flag := Some "B";
  DbArgoProfile.data_mode := Some "R";
  DbArgoProfile.data_center := None;
  DbArgoProfile.processing_date := None;
  DbArgoProfile.created_at := Some (26601 * nanoseconds_per_day);
  DbArgoProfile.updated_at := Some (26601 * nanoseconds_per_day)
|}.

Definition proposed_profile : DbArgoProfile.t := {|
  DbArgoProfile.profile_id := "7900522_1";
  DbArgoProfile.float_id := Some "7900522";
  DbArgoProfile.cycle_number := 1;
  DbArgoProfile.measurement_date := 26601 * nanoseconds_per_day;
  DbArgoProfile.latitude := 46%float;
  DbArgoProfile.longitude := (-126)%float;
  DbArgoProfile.data_points := Some 4;
  DbArgoProfile.max_pressure := Some 30%float;
  DbArgoProfile.min_pressure := Some 0%float;
  DbArgoProfile.quality_flag := Some "A";
  DbArgoProfile.data_mode := Some "D";
  DbArgoProfile.data_center := None;
  DbArgoProfile.processing_date := None;
  DbArgoProfile.created_at := None;
  DbArgoProfile.updated_at := None
|}.

Definition store_with_profile : Store :=
  set_argo_profiles [stored_profile] empty_store.

Definition with_batch_size (n : Z) (c : IngestionConfig) : IngestionConfig :=
  {| input_directory := input_directory c; file_patterns := file_patterns c;
     batch_size := n; max_workers := max_workers c;
     max_retries := max_retries c; retry_delay := retry_delay c;
     exponential_backoff := exponential_backoff c;
     progress_update_interval := progress_update_interval c;
     max_errors_per_file := max_errors_per_file c;
     data_modes := data_modes c; geographic_bounds := geographic_bounds c;
     date_range := date_range c; validation := validation c |}.

(** The instant 2024-11-15 10:30:00, and a store whose audit log has a row
    of 2023-01-01, a row of 2024-11-10 and a row without a start time. *)
Definition mid_november : datetime.t :=
  {| datetime.year := 2024; datetime.month := 11; datetime.day := 15;
     datetime.hour := 10; datetime.minute := 30; datetime.second := 0;
     datetime.microsecond := 0 |}.

Definition old_logs_store : Store :=
  set_data_ingestion_logs
    [earlier_log "data/raw/argo/A.nc" "A.nc" "success" (26663 * nanoseconds_per_day);
     earlier_log "data/raw/argo/B.nc" "B.nc" "success" (27342 * nanoseconds_per_day)]
    empty_store.

(** An engine that never fails a query. *)
Definition query_succeeds (session : Store) : option Exn := None.

(** An operation that loses its connection once and then fails with an
    exception that is not a persistence exception. *)
Definition broken_operation (call : nat) : Outcome Z :=
  if (call <? 1)%nat then Raise (SQLAlchemyError "connection lost")
  else Raise (Exception "TypeError: unsupported operand").

Definition with_progress_update_interval (n : Z) (c : IngestionConfig)
  : IngestionConfig :=
  {| input_directory := input_directory c; file_patterns := file_patterns c;
     batch_size := batch_size c; max_workers := max_workers c;
     max_retries := max_retries c; retry_delay := retry_delay c;
     exponential_backoff := exponential_backoff c;
     progress_update_interval := n;
     max_errors_per_file := max_errors_per_file c;
     data_modes := data_modes c; geographic_bounds := geographic_bounds c;
     date_range := date_range c; validation := validation c |}.

Definition with_max_workers (n : Z) (c : IngestionConfig) : IngestionConfig :=
  {| input_directory := input_directory c; file_patterns := file_patterns c;
     batch_size := batch_size c; max_workers := n;
     max_retries := max_retries c; retry_delay := retry_delay c;
     exponential_backoff := exponential_backoff c;
     progress_update_interval := progress_update_interval c;
     max_errors_per_file := max_errors_per_file c;
     data_modes := data_modes c; geographic_bounds := geographic_bounds c;
     date_range := date_range c; validation := validation c |}.

Definition with_max_retries (n : Z) (c : IngestionConfig) : IngestionConfig :=
  {| input_directory := input_directory c; file_patterns := file_patterns c;
     batch_size := batch_size c; max_workers := max_workers c;
     max_retries := n; retry_delay := retry_delay c;
     exponential_backoff := exponential_backoff c;
     progress_update_interval := progress_update_interval c;
     max_errors_per_file := max_errors_per_file c;
     data_modes := data_modes c; geographic_bounds := geographic_bounds c;
     date_range := date_range c; validation := validation c |}.

(** An engine that accepts the float and profile statements and rejects the
    measurement statement (a violated check constraint, say). *)
Definition rejects_measurements (session : Store) (statement : Statement)
  : option Exn :=
  match statement with
  | UpsertMeasurements _ => Some (SQLAlchemyError "IntegrityError: valid_pressure")
  | _ => None
  end.

(** A registry with two queued jobs, and the summary of a finished run. *)
Definition tracked_job : Jobs :=
  [("job-1", queued_job 10%float); ("job-2", queued_job 11%float)].

Definition sample_summary : IngestionSummary.t :=
  {| IngestionSummary.files_processed := 1; IngestionSummary.files_successful := 1;
     IngestionSummary.files_failed := 0; IngestionSummary.total_records_processed := 1;
     IngestionSummary.total_records_inserted := 4;
     IngestionSummary.total_records_updated := 0;
     IngestionSummary.total_records_skipped := 0 |}.

(** * Properties *)

(** ** The checks of tests/test_argo_ingestion.py on the embedding *)

(** test_pressure_to_depth_conversion: 1000 dbar is within a metre of
    975.6 m. *)
Example pressure_to_depth_conversion :
  PrimFloat.ltb
    (PrimFloat.abs (PrimFloat.sub (_pressure_to_depth 1000%float) 975.6%float))
    1%float = true.
Proof. vm_compute. reflexivity. Qed.

(** test_has_valid_data *)
Example has_valid_data_examples :
  _has_valid_data
    (ArgoMeasurement.set_temperature (Some 15%float) (new_measurement "test" 10%float))
  = true
  /\ _has_valid_data (new_measurement "test" 10%float) = false.
Proof. split; reflexivity. Qed.

(** test_float_model_creation, test_profile_model_creation *)
Example model_creation :
  let float_model := fst (_get_or_create_float first_sighting empty_store ∅) in
  let profile_model := _create_profile_model first_sighting float_model in
  ArgoFloat.float_id float_model = Some "7900522"
  /\ ArgoFloat.project_name float_model = Some "Test Project"
  /\ ArgoFloat.status float_model = Some "active"
  /\ DbArgoProfile.profile_id profile_model = "7900522_1"
  /\ DbArgoProfile.data_points profile_model = Some 2
  /\ DbArgoProfile.max_pressure profile_model = Some 10%float
  /\ DbArgoProfile.quality_flag profile_model = Some "A".
Proof. vm_compute. repeat split; reflexivity. Qed.

(** test_profile_validation: a latitude of 95 is rejected with an error. *)
Example profile_validation :
  let result := FileProcessingResult.make "/test/file.nc" true [] 0 in
  (fst <$> match _validate_profile sample_config first_sighting result with
           | Return v => Some v | Raise _ => None end) = Some true
  /\ match _validate_profile sample_config
             (sample_profile 2 sample_today 95%float [] None None) result with
     | Return (verdict, result') =>
       verdict = false /\ length (FileProcessingResult.errors result') = 1%nat
     | Raise _ => False
     end.
Proof. vm_compute. repeat split; reflexivity. Qed.

(** ** The audit log and the empty file (service.py, database_ops.py) *)

Lemma log_ingestion_result_returns flush_raises result utcnow session :
  fst (log_ingestion_result flush_raises result utcnow session) = Return tt.
Proof.
  unfold log_ingestion_result.
  destruct (log_ingestion_result_try flush_raises result utcnow session)
    as [[[]|e] session']; reflexivity.
Qed.

Lemma log_ingestion_result_flush flush_raises result utcnow session :
  log_ingestion_result flush_raises result utcnow session
  = (Return tt, snd (flush flush_raises utcnow [audit_row result utcnow] session)).
Proof.
  unfold log_ingestion_result, log_ingestion_result_try. fold (audit_row result utcnow).
  destruct (flush flush_raises utcnow [audit_row result utcnow] session)
    as [[[]|e] session']; reflexivity.
Qed.

(** A flush that sends the audit-log row alone. *)
Lemma flush_audit_row flush_raises utcnow row session :
  dirty session = [] ->
  flush flush_raises utcnow [row] session
  = match flush_raises (tables session)
            {| changed_floats := []; added_logs := [row] |} with
    | Some e =>
      (Raise e,
       {| tables := begun session; begun := begun session; inactive := Some e;
          dirty := [] |})
    | None =>
      (Return tt,
       {| tables :=
            set_data_ingestion_logs (data_ingestion_logs (tables session) ++ [row])
              (tables session);
          begun := begun session; inactive := inactive session; dirty := [] |})
    end.
Proof.
  intros Hclean. unfold flush. rewrite Hclean.
  destruct (flush_raises _ _); [reflexivity|].
  destruct (tables session); reflexivity.
Qed.

Lemma flush_nothing flush_raises now session :
  dirty session = [] -> flush flush_raises now [] session = (Return tt, session).
Proof. intros Hclean. unfold flush. rewrite Hclean. reflexivity. Qed.


(** C10: a file that passes the pre-check and parses successfully but has
    no accepted profile is marked failed with the error "No valid profiles
    found in file", and the store is left as it was. *)
Theorem C10_no_valid_profiles_marks_file_failed
  pd_Timedelta_days fs config execute_raises flush_raises clock
  file_path dry_run store :
  fst (validate_netcdf_file fs file_path) = true ->
  FileProcessingResult.success (parse_file pd_Timedelta_days fs config file_path) = true ->
  default [] (profiles (FileProcessingResult.metadata
                          (parse_file pd_Timedelta_days fs config file_path))) = [] ->
  exists result,
    ingest_file pd_Timedelta_days fs config execute_raises flush_raises clock
      file_path dry_run store = (result, store)
    /\ FileProcessingResult.success result = false
    /\ In (Msg "No valid profiles found in file") (FileProcessingResult.errors result)
    /\ FileProcessingResult.errors result
       = (FileProcessingResult.errors (parse_file pd_Timedelta_days fs config file_path)
          ++ [Msg "No valid profiles found in file"])%list.
Proof.
  intros Hvalid Hsuccess Hnone.
  unfold ingest_file.
  destruct (validate_netcdf_file fs file_path) as [is_valid validation_errors].
  cbn in Hvalid. subst is_valid. cbn [negb].
  rewrite Hsuccess. cbn [negb]. rewrite Hnone.
  eexists. split; [reflexivity|]. cbn.
  split; [reflexivity|]. split; [|reflexivity].
  apply in_or_app. right. left. reflexivity.
Qed.

Lemma C10_witness :
  exists result,
    ingest_file exact_Timedelta_days rejected_fs sample_config never_raises never_raises
      (fun _ => 5) "/data/rejected.nc" false empty_store = (result, empty_store)
    /\ FileProcessingResult.success result = false
    /\ In (Msg "No valid profiles found in file") (FileProcessingResult.errors result)
    /\ FileProcessingResult.errors result
       = (FileProcessingResult.errors
            (parse_file exact_Timedelta_days rejected_fs sample_config "/data/rejected.nc")
          ++ [Msg "No valid profiles found in file"])%list.
Proof.
  apply (C10_no_valid_profiles_marks_file_failed exact_Timedelta_days rejected_fs
           sample_config never_raises never_raises (fun _ => 5)
           "/data/rejected.nc" false empty_store);
    vm_compute; reflexivity.
Defined.

(** No call of [ingest_file] changes the database: the session of the
    database work is closed without a commit. *)
Lemma ingest_file_database_leaves_database
  config execute_raises flush_raises clock file_path profiles result store :
  snd (ingest_file_database config execute_raises flush_raises clock file_path
         profiles result store) = store.
Proof.
  unfold ingest_file_database, get_session.
  destruct (ingest_file_block _ _ _ _ _ _ _ _) as [[outcome heap] session].
  reflexivity.
Qed.

Lemma ingest_file_leaves_database
  pd_Timedelta_days fs config execute_raises flush_raises clock
  file_path dry_run store :
  snd (ingest_file pd_Timedelta_days fs config execute_raises flush_raises clock
         file_path dry_run store) = store.
Proof.
  unfold ingest_file.
  destruct (validate_netcdf_file fs file_path) as [is_valid validation_errors].
  destruct (negb is_valid); [reflexivity|].
  destruct (negb (FileProcessingResult.success _)); [reflexivity|].
  destruct (default [] _) as [|p ps]; [reflexivity|].
  destruct dry_run; [reflexivity|].
  pose proof (ingest_file_database_leaves_database config execute_raises flush_raises
                clock file_path (p :: ps)
                (parse_file pd_Timedelta_days fs config file_path) store) as Hstore.
  destruct (ingest_file_database _ _ _ _ _ _ _ _) as [[[[]|e] result] store'];
    cbn [snd] in *; exact Hstore.
Qed.

(** ** The per-file error budget (parsers.py) *)

Lemma validate_profile_keeps_skipped config profile result verdict result' :
  _validate_profile config profile result = Return (verdict, result') ->
  FileProcessingResult.records_skipped result'
  = FileProcessingResult.records_skipped result.
Proof.
  unfold _validate_profile.
  destruct (geographic_filter_rejects config profile); [intros [= _ <-]; reflexivity|].
  destruct (date_range_rejects config profile); [intros [= _ <-]; reflexivity|].
  destruct (DataMode_of_value _) as [mode|e]; cbn [bind]; [|discriminate].
  destruct (negb _); [intros [= _ <-]; reflexivity|].
  destruct (bounds_errors config profile); [|intros [= _ <-]; reflexivity].
  destruct (range_warnings config profile); intros [= _ <-]; reflexivity.
Qed.

(** The [try] block yields a profile and leaves the counter alone, or
    counts the profile as skipped. *)
Lemma parse_profiles_try_skipped pd config ds prof_idx result yielded result' :
  parse_profiles_try pd config ds prof_idx result = Return (yielded, result') ->
  FileProcessingResult.records_skipped result'
  = FileProcessingResult.records_skipped result
    + (if is_not_None yielded then 0 else 1).
Proof.
  unfold parse_profiles_try.
  destruct (_parse_single_profile pd ds prof_idx) as [profile|].
  - destruct (_validate_profile config profile result) as [[verdict r]|e] eqn:Hv;
      cbn [bind]; [|discriminate].
    apply validate_profile_keeps_skipped in Hv.
    destruct verdict; cbn [fst snd]; intros [= <- <-]; cbn; lia.
  - intros [= <- <-]. cbn. lia.
Qed.

(** The only exception of the [try] block: [DataMode(..)] on a data mode
    that is none of R, D, A, for a profile that passed the two filters. *)
Lemma parse_profiles_try_raises pd config ds prof_idx result e :
  parse_profiles_try pd config ds prof_idx result = Raise e ->
  exists profile,
    _parse_single_profile pd ds prof_idx = Some profile
    /\ DataMode_of_value (ArgoProfile.data_mode profile) = Raise e.
Proof.
  unfold parse_profiles_try.
  destruct (_parse_single_profile pd ds prof_idx) as [profile|]; [|discriminate].
  intros H. exists profile. split; [reflexivity|].
  unfold _validate_profile in H.
  destruct (geographic_filter_rejects config profile); [discriminate|].
  destruct (date_range_rejects config profile); [discriminate|].
  destruct (DataMode_of_value _) as [mode|e']; cbn [bind] in H.
  - destruct (negb _); [discriminate|].
    destruct (bounds_errors config profile); [|discriminate].
    destruct (range_warnings config profile); discriminate.
  - congruence.
Qed.

Lemma parse_profiles_loop_visits pd config ds indices : forall result,
  exists visited : nat,
    (visited <= length indices)%nat
    /\ Z.of_nat (length (fst (parse_profiles_loop pd config ds indices result)))
       + (FileProcessingResult.records_skipped
            (snd (parse_profiles_loop pd config ds indices result))
          - FileProcessingResult.records_skipped result)
       = Z.of_nat visited
    /\ ((visited < length indices)%nat ->
        (1 <= visited)%nat
        /\ (exists prof_idx r e,
              indices !! (visited - 1)%nat = Some prof_idx
              /\ parse_profiles_try pd config ds prof_idx r = Raise e)
        /\ max_errors_per_file config
           <= Z.of_nat (length (FileProcessingResult.errors
                (snd (parse_profiles_loop pd config ds indices result))))).
Proof.
  induction indices as [|prof_idx rest IH]; intros result.
  - exists 0%nat. cbn. repeat split; try lia.
  - cbn [parse_profiles_loop].
    destruct (parse_profiles_try pd config ds prof_idx result)
      as [[[profile|] result1]|e] eqn:Htry.
    + apply parse_profiles_try_skipped in Htry. cbn in Htry.
      destruct (IH result1) as (visited & Hle & Hcount & Hstop).
      destruct (parse_profiles_loop pd config ds rest result1) as [ys r2].
      cbn [fst snd length] in *.
      exists (S visited). split; [lia|]. split; [lia|].
      intros Hlt. destruct Hstop as (H1 & (i & r & e & Hi & Hr) & Hb); [lia|].
      split; [lia|]. split; [|exact Hb].
      exists i, r, e. split; [|exact Hr].
      replace (S visited - 1)%nat with (S (visited - 1))%nat by lia. exact Hi.
    + apply parse_profiles_try_skipped in Htry. cbn in Htry.
      destruct (IH result1) as (visited & Hle & Hcount & Hstop).
      destruct (parse_profiles_loop pd config ds rest result1) as [ys r2].
      cbn [fst snd length] in *.
      exists (S visited). split; [lia|]. split; [lia|].
      intros Hlt. destruct Hstop as (H1 & (i & r & e & Hi & Hr) & Hb); [lia|].
      split; [lia|]. split; [|exact Hb].
      exists i, r, e. split; [|exact Hr].
      replace (S visited - 1)%nat with (S (visited - 1))%nat by lia. exact Hi.
    + destruct (too_many_errors config (parse_profiles_except prof_idx e result))
        eqn:Hbudget.
      * exists 1%nat. cbn [fst snd length]. split; [lia|]. split; [cbn; lia|].
        intros _. split; [lia|]. split.
        -- exists prof_idx, result, e. split; [reflexivity|exact Htry].
        -- unfold too_many_errors in Hbudget. lia.
      * destruct (IH (parse_profiles_except prof_idx e result))
          as (visited & Hle & Hcount & Hstop).
        destruct (parse_profiles_loop pd config ds rest _) as [ys r2].
        cbn [fst snd length] in *.
        exists (S visited). split; [lia|]. split; [cbn in Hcount; lia|].
        intros Hlt. destruct Hstop as (H1 & (i & r & e' & Hi & Hr) & Hb); [lia|].
        split; [lia|]. split; [|exact Hb].
        exists i, r, e'. split; [|exact Hr].
        replace (S visited - 1)%nat with (S (visited - 1))%nat by lia. exact Hi.
Qed.

(** What the loop does with the budget: every profile the scan visits is
    either yielded or counted once in [records_skipped]; the scan leaves
    profiles unvisited only after handling a profile has raised an exception
    while the error list, with that exception's message added, had at least
    [max_errors_per_file] entries; when no profile raises, the whole file is
    scanned, however many validation errors accumulate. *)
Lemma scan_stops_only_after_exception
  pd_Timedelta_days config ds result :
  let n_prof := Z.to_nat (dims_get ds "N_PROF") in
  let out := _parse_profiles pd_Timedelta_days config ds result in
  exists visited : nat,
    (visited <= n_prof)%nat
    /\ Z.of_nat (length (fst out))
       + (FileProcessingResult.records_skipped (snd out)
          - FileProcessingResult.records_skipped result)
       = Z.of_nat visited
    /\ ((visited < n_prof)%nat ->
        (1 <= visited)%nat
        /\ (exists r e,
              parse_profiles_try pd_Timedelta_days config ds (visited - 1) r = Raise e)
        /\ max_errors_per_file config
           <= Z.of_nat (length (FileProcessingResult.errors (snd out))))
    /\ ((forall prof_idx r e,
           parse_profiles_try pd_Timedelta_days config ds prof_idx r <> Raise e) ->
        visited = n_prof).
Proof.
  cbv zeta. unfold _parse_profiles.
  set (n := Z.to_nat (dims_get ds "N_PROF")).
  destruct (parse_profiles_loop_visits pd_Timedelta_days config ds (seq 0 n) result)
    as (visited & Hle & Hcount & Hstop).
  rewrite length_seq in Hle, Hstop.
  exists visited. split; [exact Hle|]. split; [exact Hcount|]. split.
  - intros Hlt. destruct (Hstop Hlt) as (H1 & (i & r & e & Hi & Hr) & Hb).
    split; [exact H1|]. split; [|exact Hb].
    apply lookup_seq in Hi. destruct Hi as [-> _].
    exists r, e. exact Hr.
  - intros Hnever.
    destruct (Nat.eq_dec visited n) as [|Hne]; [assumption|].
    destruct Hstop as (_ & (i & r & e & _ & Hr) & _); [lia|].
    exfalso. exact (Hnever i r e Hr).
Qed.

(** C5, where the code departs from it: with a budget of one error, two
    rejected profiles have already put two errors on the list and been
    counted as skipped, and the third profile is scanned all the same (three
    skipped, three errors): the test of the budget sits in the [except]
    branch, which a profile rejected by validation does not reach.  Three
    profiles that raise, under the same budget, do stop the scan after the
    first. *)
Theorem C5_budget_exceeded_without_stop :
  let config := with_max_errors_per_file 1 sample_config in
  let result := FileProcessingResult.make "/data/f.nc" false [] 1000 in
  let after_two :=
    snd (parse_profiles_loop exact_Timedelta_days config three_rejected
           [0%nat; 1%nat] result) in
  let out := _parse_profiles exact_Timedelta_days config three_rejected result in
  let raising := _parse_profiles exact_Timedelta_days config three_unknown_modes result in
  max_errors_per_file config
    < Z.of_nat (length (FileProcessingResult.errors after_two))
  /\ max_errors_per_file config < FileProcessingResult.records_skipped after_two
  /\ FileProcessingResult.records_skipped (snd out) = 3
  /\ length (FileProcessingResult.errors (snd out)) = 3%nat
  /\ fst out = []
  /\ FileProcessingResult.records_skipped (snd raising) = 1
  /\ length (FileProcessingResult.errors (snd raising)) = 1%nat.
Proof. vm_compute. repeat split; reflexivity. Qed.

(** ** Which levels become measurements (mappers.py) *)

Lemma add_reading_frame {B : Type} (get : ArgoMeasurement.t -> B)
  values flags level_idx set_value set_flag measurement :
  (forall v m, get (set_value v m) = get m) ->
  (forall v m, get (set_flag v m) = get m) ->
  get (add_reading values flags level_idx set_value set_flag measurement)
  = get measurement.
Proof.
  intros Hvalue Hflag. unfold add_reading.
  destruct values as [array|]; [|reflexivity].
  destruct (array !! level_idx) as [x|]; [|reflexivity].
  destruct (np_isnan x); [reflexivity|].
  destruct flags as [qc|]; [|apply Hvalue].
  destruct (qc !! level_idx); [rewrite Hflag|]; apply Hvalue.
Qed.

Lemma add_reading_own (get : ArgoMeasurement.t -> option float)
  values flags level_idx set_value set_flag measurement :
  (forall v m, get (set_value v m) = v) ->
  (forall v m, get (set_flag v m) = get m) ->
  get (add_reading values flags level_idx set_value set_flag measurement)
  = match value_read values level_idx with
    | Some x => Some x
    | None => get measurement
    end.
Proof.
  intros Hvalue Hflag. unfold add_reading, value_read.
  destruct values as [array|]; [|reflexivity].
  destruct (array !! level_idx) as [x|]; [|reflexivity].
  destruct (np_isnan x); [reflexivity|].
  destruct flags as [qc|]; [|apply Hvalue].
  destruct (qc !! level_idx); [rewrite Hflag|]; apply Hvalue.
Qed.

Lemma level_measurement_candidate profile pressures level_idx pressure :
  pressures !! level_idx = Some pressure ->
  level_measurement profile pressures level_idx
  = if np_isnan pressure then None
    else if _has_valid_data (level_candidate profile pressure level_idx)
         then Some (level_candidate profile pressure level_idx) else None.
Proof.
  intros H. unfold level_measurement. rewrite H. reflexivity.
Qed.

Ltac frame_step :=
  rewrite add_reading_frame by (intros; reflexivity).
Ltac own_step :=
  rewrite add_reading_own by (intros; reflexivity).

Lemma level_candidate_value field profile pressure level_idx :
  measurement_value field (level_candidate profile pressure level_idx)
  = reading_at field profile level_idx.
Proof.
  assert (Hstart : forall f,
    measurement_value f
      (match ArgoProfile.pressure_qc profile with
       | Some qc =>
         match qc !! level_idx with
         | Some flag =>
           ArgoMeasurement.set_pressure_qc (Some flag)
             (new_measurement (ArgoProfile.profile_id profile) pressure)
         | None => new_measurement (ArgoProfile.profile_id profile) pressure
         end
       | None => new_measurement (ArgoProfile.profile_id profile) pressure
       end) = None).
  { intros f. destruct (ArgoProfile.pressure_qc profile) as [qc|];
      [destruct (qc !! level_idx)|]; destruct f; reflexivity. }
  unfold level_candidate, _add_optional_measurements, _add_salinity_data,
    _add_temperature_data, reading_at.
  destruct field; cbn [measurement_value profile_values];
    repeat first [own_step | frame_step];
    fold (value_read (ArgoProfile.temperature profile) level_idx);
    fold (value_read (ArgoProfile.temperature_adjusted profile) level_idx);
    fold (value_read (ArgoProfile.salinity profile) level_idx);
    fold (value_read (ArgoProfile.salinity_adjusted profile) level_idx);
    fold (value_read (ArgoProfile.oxygen profile) level_idx);
    fold (value_read (ArgoProfile.chlorophyll profile) level_idx).
  - specialize (Hstart Temperature). cbn [measurement_value] in Hstart.
    rewrite Hstart. destruct (value_read _ _); reflexivity.
  - specialize (Hstart TemperatureAdjusted). cbn [measurement_value] in Hstart.
    rewrite Hstart. destruct (value_read _ _); reflexivity.
  - specialize (Hstart Salinity). cbn [measurement_value] in Hstart.
    rewrite Hstart. destruct (value_read _ _); reflexivity.
  - specialize (Hstart SalinityAdjusted). cbn [measurement_value] in Hstart.
    rewrite Hstart. destruct (value_read _ _); reflexivity.
  - specialize (Hstart Oxygen). cbn [measurement_value] in Hstart.
    rewrite Hstart. destruct (value_read _ _); reflexivity.
  - specialize (Hstart Chlorophyll). cbn [measurement_value] in Hstart.
    rewrite Hstart. destruct (value_read _ _); reflexivity.
Qed.

Lemma level_candidate_pressure profile pressure level_idx :
  ArgoMeasurement.pressure (level_candidate profile pressure level_idx) = pressure.
Proof.
  unfold level_candidate, _add_optional_measurements, _add_salinity_data,
    _add_temperature_data.
  repeat frame_step.
  destruct (ArgoProfile.pressure_qc profile) as [qc|];
    [destruct (qc !! level_idx)|]; reflexivity.
Qed.

Lemma has_valid_data_readings measurement :
  _has_valid_data measurement
  = existsb (fun field => is_not_None (measurement_value field measurement))
      [Temperature; TemperatureAdjusted; Salinity; SalinityAdjusted;
       Oxygen; Chlorophyll].
Proof.
  unfold _has_valid_data. cbn [existsb measurement_value].
  rewrite orb_false_r, !orb_assoc. reflexivity.
Qed.

Lemma measurement_loop_omap profile pressures levels :
  measurement_loop profile pressures levels
  = omap (level_measurement profile pressures) levels.
Proof.
  induction levels as [|level_idx rest IH]; [reflexivity|].
  cbn [measurement_loop omap list_omap]. rewrite IH.
  destruct (level_measurement profile pressures level_idx); reflexivity.
Qed.

(** C4 (as amended, with "not NaN" where the claim says "finite"): the
    measurements of a profile are those of its levels, in order; a level
    whose pressure is NaN yields none; a level whose pressure is not NaN and
    all of whose scientific readings are absent or NaN yields none; a level
    whose pressure is not NaN and which has exactly one reading that is not
    NaN yields a measurement that carries the pressure and that reading, the
    other scientific fields being null. *)
Theorem C4_level_measurements profile profile_model pressures :
  ArgoProfile.pressure profile = Some pressures ->
  _create_measurement_models profile profile_model
  = omap (level_measurement profile pressures) (seq 0 (length pressures))
  /\ forall level_idx pressure,
       pressures !! level_idx = Some pressure ->
       (np_isnan pressure = true ->
        level_measurement profile pressures level_idx = None)
       /\ (np_isnan pressure = false ->
           (forall field, reading_at field profile level_idx = None) ->
           level_measurement profile pressures level_idx = None)
       /\ (np_isnan pressure = false ->
           forall field value,
             reading_at field profile level_idx = Some value ->
             (forall other, other <> field ->
                reading_at other profile level_idx = None) ->
             exists measurement,
               level_measurement profile pressures level_idx = Some measurement
               /\ ArgoMeasurement.pressure measurement = pressure
               /\ measurement_value field measurement = Some value
               /\ forall other, other <> field ->
                    measurement_value other measurement = None).
Proof.
  intros Hpressure. split.
  - unfold _create_measurement_models. rewrite Hpressure.
    apply measurement_loop_omap.
  - intros level_idx pressure Hlevel.
    rewrite (level_measurement_candidate _ _ _ _ Hlevel).
    split; [|split].
    + intros ->. reflexivity.
    + intros -> Hnone.
      rewrite has_valid_data_readings. cbn [existsb].
      rewrite !level_candidate_value, !Hnone. reflexivity.
    + intros -> field value Hfield Hothers.
      assert (Hvalid : _has_valid_data (level_candidate profile pressure level_idx)
                       = true).
      { rewrite has_valid_data_readings. apply existsb_exists.
        exists field. split; [destruct field; cbn; tauto|].
        rewrite level_candidate_value, Hfield. reflexivity. }
      rewrite Hvalid. eexists. split; [reflexivity|].
      split; [apply level_candidate_pressure|].
      split; [rewrite level_candidate_value; exact Hfield|].
      intros other Hother. rewrite level_candidate_value. auto.
Qed.

Lemma C4_witness :
  exists measurement,
    level_measurement temperature_only_profile [0; 10; 20]%float 1
    = Some measurement
    /\ ArgoMeasurement.pressure measurement = 10%float
    /\ measurement_value Temperature measurement = Some 14%float
    /\ forall other, other <> Temperature ->
         measurement_value other measurement = None.
Proof.
  destruct (C4_level_measurements temperature_only_profile
              (_create_profile_model temperature_only_profile
                 (new_float temperature_only_profile))
              [0; 10; 20]%float eq_refl) as [_ Hlevels].
  destruct (Hlevels 1%nat 10%float eq_refl) as (_ & _ & Hone).
  apply (Hone eq_refl Temperature 14%float eq_refl).
  intros other Hother. destruct other; try reflexivity. contradiction.
Defined.

(** The scenario itself: three measurements, each with a temperature and a
    null salinity. *)
Example temperature_only_measurements :
  map (fun m => (ArgoMeasurement.pressure m, ArgoMeasurement.temperature m,
                 ArgoMeasurement.salinity m))
    (_create_measurement_models temperature_only_profile
       (_create_profile_model temperature_only_profile
          (new_float temperature_only_profile)))
  = [(0, Some 15, None); (10, Some 14, None); (20, Some 13, None)]%float.
Proof. vm_compute. reflexivity. Qed.

(** C4 as stated fails for values that are infinite: the level at infinite
    pressure yields a measurement, and so does the level whose only finite
    value is its pressure (its temperature is infinite). *)
Lemma C4_infinite_values_are_kept :
  PrimFloat.is_finite infinity = false
  /\ (exists m,
        level_measurement infinite_levels_profile [infinity; 10%float] 0
        = Some m
        /\ ArgoMeasurement.pressure m = infinity)
  /\ (exists m,
        level_measurement infinite_levels_profile [infinity; 10%float] 1
        = Some m
        /\ ArgoMeasurement.pressure m = 10%float
        /\ ArgoMeasurement.temperature m = Some infinity
        /\ forall field,
             match reading_at field infinite_levels_profile 1 with
             | Some x => PrimFloat.is_finite x = false
             | None => True
             end).
Proof.
  split; [reflexivity|]. split.
  - eexists. split; [vm_compute; reflexivity|reflexivity].
  - eexists. split; [vm_compute; reflexivity|].
    repeat split. intros field. destruct field; vm_compute; auto.
Qed.

(** ** Float reconciliation (mappers.py) *)

(** A float that is neither in the cache nor in the store is created with
    status "active" and one profile. *)
Lemma get_or_create_float_new profile session cache :
  cache !! ArgoProfile.float_id profile = None ->
  query_float session (ArgoProfile.float_id profile) = None ->
  let float_model := fst (_get_or_create_float profile session cache) in
  ArgoFloat.status float_model = Some "active"
  /\ ArgoFloat.total_profiles float_model = Some 1
  /\ ArgoFloat.first_profile_date float_model = Some (ArgoProfile.date_time profile)
  /\ ArgoFloat.last_profile_date float_model = Some (ArgoProfile.date_time profile).
Proof.
  intros Hcache Hquery. unfold _get_or_create_float.
  rewrite Hcache, Hquery. cbn. repeat split; reflexivity.
Qed.

(** A float found in the store (and not in the cache) gets one more
    profile, its date range widened, and its last contact moved only by a
    strictly newer profile. *)
Lemma get_or_create_float_existing profile session cache found :
  cache !! ArgoProfile.float_id profile = None ->
  query_float session (ArgoProfile.float_id profile) = Some found ->
  let date_time := ArgoProfile.date_time profile in
  let float_model := fst (_get_or_create_float profile session cache) in
  ArgoFloat.total_profiles float_model
  = Some (default 0 (ArgoFloat.total_profiles found) + 1)
  /\ ArgoFloat.first_profile_date float_model
     = Some (match ArgoFloat.first_profile_date found with
             | Some d => Z.min d date_time
             | None => date_time
             end)
  /\ ArgoFloat.last_profile_date float_model
     = Some (match ArgoFloat.last_profile_date found with
             | Some d => Z.max d date_time
             | None => date_time
             end)
  /\ ArgoFloat.last_contact_date float_model
     = match ArgoFloat.last_contact_date found with
       | Some d => if d <? date_time then Some date_time else Some d
       | None => Some date_time
       end
  /\ (forall d, ArgoFloat.last_contact_date found = Some d -> date_time <= d ->
      ArgoFloat.last_latitude float_model = ArgoFloat.last_latitude found
      /\ ArgoFloat.last_longitude float_model = ArgoFloat.last_longitude found).
Proof.
  intros Hcache Hquery. unfold _get_or_create_float.
  rewrite Hcache, Hquery. cbn [fst]. unfold update_float.
  destruct found as [fid pn wn prj pi inst wit st dd lcd llat llon tp fpd lpd ca ua].
  cbn [ArgoFloat.total_profiles ArgoFloat.first_profile_date
       ArgoFloat.last_profile_date ArgoFloat.last_contact_date
       ArgoFloat.last_latitude ArgoFloat.last_longitude].
  repeat split.
  - destruct (None_or_before lcd _); cbn;
      destruct (None_or_after _ _); cbn;
      destruct (None_or_before _ _); reflexivity.
  - destruct (None_or_before lcd _); cbn;
      destruct fpd as [d|]; cbn;
      try (destruct (Z.ltb_spec (ArgoProfile.date_time profile) d); cbn);
      destruct (None_or_before _ _); cbn; f_equal; lia.
  - destruct (None_or_before lcd _); cbn;
      destruct (None_or_after _ _); cbn;
      destruct lpd as [d|]; cbn;
      try (destruct (Z.ltb_spec d (ArgoProfile.date_time profile)); cbn);
      f_equal; lia.
  - destruct lcd as [d|]; cbn;
      try (destruct (Z.ltb_spec d (ArgoProfile.date_time profile)); cbn);
      destruct (None_or_after _ _); cbn;
      destruct (None_or_before _ _); reflexivity.
  - destruct lcd as [d'|]; [|discriminate]. injection H as ->.
    cbn. destruct (Z.ltb_spec d (ArgoProfile.date_time profile)); [lia|].
    cbn. destruct (None_or_after _ _); cbn;
      destruct (None_or_before _ _); reflexivity.
  - destruct lcd as [d'|]; [|discriminate]. injection H as ->.
    cbn. destruct (Z.ltb_spec d (ArgoProfile.date_time profile)); [lia|].
    cbn. destruct (None_or_after _ _); cbn;
      destruct (None_or_before _ _); reflexivity.
Qed.

(** A float already in the cache is returned as it is: nothing is counted. *)
Lemma get_or_create_float_cached profile session cache cached :
  cache !! ArgoProfile.float_id profile = Some cached ->
  _get_or_create_float profile session cache = (cached, cache).
Proof. intros H. unfold _get_or_create_float. rewrite H. reflexivity. Qed.

(** C3, where the code departs from it: a new float sighted in two
    profiles of one run ends with [total_profiles = 1] and with a date range
    that is the first profile's timestamp alone, because the second sighting
    finds the float in the cache. *)
Theorem C3_second_sighting_is_not_counted :
  exists float_model,
    ModelsDict.floats (batch_map_profiles [first_sighting; second_sighting] empty_store)
    = [float_model]
    /\ length (ModelsDict.profiles
                 (batch_map_profiles [first_sighting; second_sighting] empty_store))
       = 2%nat
    /\ ArgoFloat.total_profiles float_model = Some 1
    /\ ArgoFloat.first_profile_date float_model = Some (26663 * nanoseconds_per_day)
    /\ ArgoFloat.last_profile_date float_model = Some (26663 * nanoseconds_per_day)
    /\ Z.max (ArgoProfile.date_time first_sighting)
             (ArgoProfile.date_time second_sighting)
       = 26664 * nanoseconds_per_day.
Proof.
  eexists. split; [vm_compute; reflexivity|].
  vm_compute. repeat split; reflexivity.
Qed.

(** ** Upserts (database_ops.py) *)

Section Upsert.
Context {R : Type}.
Variable same_key : R -> R -> bool.
Variable set_ : R -> R -> R.

(** [set_] does not touch the key columns, and a row conflicts with
    itself. *)
Hypothesis set_keeps_key :
  forall e row excluded, same_key e (set_ row excluded) = same_key e row.
Hypothesis same_key_refl : forall e, same_key e e = true.

Lemma upsert_keeps_conflicts e table excluded :
  existsb (same_key e) table = true ->
  existsb (same_key e) (on_conflict_do_update same_key set_ table excluded) = true.
Proof.
  intros H. unfold on_conflict_do_update.
  destruct (existsb (same_key excluded) table).
  - apply existsb_exists in H. destruct H as (row & Hin & Hrow).
    apply existsb_exists.
    exists (if same_key excluded row then set_ row excluded else row).
    split; [apply in_map_iff; exists row; split; [reflexivity|exact Hin]|].
    destruct (same_key excluded row); [rewrite set_keeps_key|]; exact Hrow.
  - rewrite existsb_app, H. reflexivity.
Qed.

Lemma upsert_adds_conflict table excluded :
  existsb (same_key excluded) (on_conflict_do_update same_key set_ table excluded)
  = true.
Proof.
  unfold on_conflict_do_update.
  destruct (existsb (same_key excluded) table) eqn:H.
  - apply existsb_exists in H. destruct H as (row & Hin & Hrow).
    apply existsb_exists.
    exists (if same_key excluded row then set_ row excluded else row).
    split; [apply in_map_iff; exists row; split; [reflexivity|exact Hin]|].
    rewrite Hrow, set_keeps_key. exact Hrow.
  - rewrite existsb_app. cbn. rewrite same_key_refl, orb_true_r. reflexivity.
Qed.

Lemma upserts_keep_conflicts e data : forall table,
  existsb (same_key e) table = true ->
  existsb (same_key e)
    (fold_left (on_conflict_do_update same_key set_) data table) = true.
Proof.
  induction data as [|excluded rest IH]; intros table H; [exact H|].
  cbn [fold_left]. apply IH, upsert_keeps_conflicts, H.
Qed.

(** After a statement, each of its rows has a row with its key in the
    table. *)
Lemma upserts_add_conflicts data : forall table e,
  In e data ->
  existsb (same_key e)
    (fold_left (on_conflict_do_update same_key set_) data table) = true.
Proof.
  induction data as [|excluded rest IH]; intros table e Hin; [destruct Hin|].
  cbn [fold_left]. destruct Hin as [->|Hin].
  - apply upserts_keep_conflicts, upsert_adds_conflict.
  - apply IH, Hin.
Qed.

End Upsert.

Lemma find_nowhere {A : Type} (test : A -> bool) l :
  (forall x, In x l -> test x = false) -> find test l = None.
Proof.
  induction l as [|x l IH]; intros Hnone; [reflexivity|]. cbn [find].
  rewrite (Hnone x) by (left; reflexivity).
  apply IH. intros y Hy. apply Hnone. right. exact Hy.
Qed.

Lemma find_same_test {A : Type} (test test' : A -> bool) l :
  (forall x, test x = test' x) -> find test l = find test' l.
Proof.
  intros Hsame. induction l as [|x l IH]; [reflexivity|]. cbn [find].
  rewrite Hsame, IH. reflexivity.
Qed.

(** The table after a statement whose proposed rows have distinct keys:
    every row that was there, updated by the proposed row with its key when
    there is one, followed by the proposed rows whose key was not there. *)
Section UpsertEffect.
Context {R K : Type}.
Variable same_key : R -> R -> bool.
Variable set_ : R -> R -> R.
Variable key : R -> K.

Hypothesis set_keeps_key :
  forall e row excluded, same_key e (set_ row excluded) = same_key e row.
Hypothesis same_key_key : forall e row, same_key e row = true -> key e = key row.

Definition row_after (data : list R) (row : R) : R :=
  match find (fun e => same_key e row) data with
  | Some e => set_ row e
  | None => row
  end.

Definition rows_added (data table : list R) : list R :=
  List.filter (fun e => negb (existsb (same_key e) table)) data.

Lemma no_other_row_with_key d rest row :
  ~ In (key d) (map key rest) -> key d = key row ->
  find (fun e => same_key e row) rest = None.
Proof.
  intros Hfresh Hkey. apply find_nowhere. intros e Hin.
  destruct (same_key e row) eqn:Hmatch; [|reflexivity].
  exfalso. apply Hfresh. apply same_key_key in Hmatch.
  rewrite Hkey, <- Hmatch. apply in_map, Hin.
Qed.

Lemma existsb_after_set e d table :
  existsb (same_key e)
    (map (fun row => if same_key d row then set_ row d else row) table)
  = existsb (same_key e) table.
Proof.
  induction table as [|row rest IH]; [reflexivity|]. cbn [map existsb].
  rewrite IH. destruct (same_key d row); [rewrite set_keeps_key|]; reflexivity.
Qed.

Lemma upserts_effect data : forall table,
  List.NoDup (map key data) ->
  fold_left (on_conflict_do_update same_key set_) data table
  = (map (row_after data) table ++ rows_added data table)%list.
Proof.
  induction data as [|d rest IH]; intros table Hdistinct.
  - cbn. rewrite app_nil_r. symmetry. unfold row_after. cbn. apply map_id.
  - cbn [map] in Hdistinct. apply NoDup_cons_iff in Hdistinct as [Hfresh Hrest].
    cbn [fold_left]. rewrite (IH _ Hrest). unfold on_conflict_do_update.
    unfold rows_added. cbn [List.filter].
    destruct (existsb (same_key d) table) eqn:Hthere; cbn [negb].
    + rewrite map_map. f_equal.
      * apply map_ext. intros row. unfold row_after. cbn [find].
        destruct (same_key d row) eqn:Hmatch; [|reflexivity].
        rewrite (find_same_test _ (fun e => same_key e row))
          by (intros e; apply set_keeps_key).
        rewrite (no_other_row_with_key d rest row Hfresh); [reflexivity|].
        apply same_key_key, Hmatch.
      * apply filter_ext. intros e. rewrite existsb_after_set. reflexivity.
    + rewrite map_app, <- app_assoc. f_equal.
      * apply map_ext_in. intros row Hrow. unfold row_after. cbn [find].
        destruct (same_key d row) eqn:Hmatch; [|reflexivity].
        exfalso. assert (Hsome : existsb (same_key d) table = true)
          by (apply existsb_exists; exists row; split; assumption).
        congruence.
      * cbn [map app]. f_equal.
        -- unfold row_after.
           rewrite (no_other_row_with_key d rest d Hfresh eq_refl). reflexivity.
        -- apply filter_ext_in. intros e Hin. rewrite existsb_app. cbn [existsb].
           destruct (same_key e d) eqn:Hmatch;
             [|rewrite !orb_false_r; reflexivity].
           exfalso. apply Hfresh. apply same_key_key in Hmatch.
           rewrite <- Hmatch. apply in_map, Hin.
Qed.
End UpsertEffect.

Lemma find_map {A B : Type} (test : B -> bool) (f : A -> B) l :
  find test (map f l) = option_map f (find (fun x => test (f x)) l).
Proof.
  induction l as [|x l IH]; [reflexivity|]. cbn [map find].
  destruct (test (f x)); [reflexivity|exact IH].
Qed.

Lemma filter_map_swap {A B : Type} (test : B -> bool) (f : A -> B) l :
  List.filter test (map f l) = map f (List.filter (fun x => test (f x)) l).
Proof.
  induction l as [|x l IH]; [reflexivity|]. cbn [map List.filter].
  destruct (test (f x)); cbn [map]; rewrite IH; reflexivity.
Qed.

Lemma Forall2_map_of {A B : Type} (P : A -> B -> Prop) (f : A -> B) l :
  (forall x, P x (f x)) -> Forall2 P l (map f l).
Proof. intros H. induction l; constructor; auto. Qed.

Lemma same_creation_metadata_refl row : same_creation_metadata row row.
Proof. unfold same_creation_metadata. repeat split; reflexivity. Qed.

Lemma float_set_frame row excluded :
  same_creation_metadata row (float_set_ row excluded).
Proof. unfold same_creation_metadata. repeat split; reflexivity. Qed.

Lemma float_conflict_key e row :
  float_conflict e row = true -> ArgoFloat.float_id e = ArgoFloat.float_id row.
Proof.
  unfold float_conflict, sql_text_eqb.
  destruct (ArgoFloat.float_id e), (ArgoFloat.float_id row); try discriminate.
  intros H. apply String.eqb_eq in H. subst. reflexivity.
Qed.

(** The float table after the statement of [_upsert_floats], for floats
    with distinct ids. *)
Lemma upsert_floats_table now floats table :
  List.NoDup (map ArgoFloat.float_id floats) ->
  fold_left (on_conflict_do_update float_conflict float_set_)
    (map (float_dict now) floats) table
  = (map (fun row =>
            match find (fun f => float_conflict (float_dict now f) row) floats with
            | Some f => float_set_ row (float_dict now f)
            | None => row
            end) table
     ++ map (float_dict now)
          (List.filter
             (fun f => negb (existsb (float_conflict (float_dict now f)) table))
             floats))%list.
Proof.
  intros Hdistinct.
  rewrite (upserts_effect float_conflict float_set_ ArgoFloat.float_id).
  - unfold rows_added. rewrite filter_map_swap. f_equal.
    apply map_ext. intros row. unfold row_after. rewrite find_map.
    destruct (find _ floats); reflexivity.
  - reflexivity.
  - exact float_conflict_key.
  - rewrite map_map. exact Hdistinct.
Qed.

(** C6, and where the code departs from it.  For proposed floats with
    distinct ids and an engine that accepts the statement,
    [_upsert_floats] leaves the old rows in place, followed by the proposed
    floats whose id was not there.  An old row whose id is not proposed is
    unchanged.  An old row in conflict keeps every column outside
    [last_contact_date], [total_profiles], [status] and [last_profile_date];
    it takes the first three from the proposed float; its
    [last_profile_date] becomes NULL, whatever the proposed float has: the
    statement names the column in its SET clause and leaves it out of the
    proposed values.  The other tables are not touched, and a statement that
    the engine rejects changes nothing.  The sample row shows it: the
    stored date of the last profile is lost although a later one was
    proposed. *)
Theorem C6_float_upsert_nulls_last_profile_date :
  (forall execute_raises now floats session,
     NoDup (map ArgoFloat.float_id floats) ->
     let statement := UpsertFloats (map (float_dict now) floats) in
     let out := _upsert_floats execute_raises now floats session in
     (forall e, floats <> [] -> execute_raises session statement = Some e ->
                out = (Raise e, session))
     /\ (execute_raises session statement = None ->
         fst out = Return (Z.of_nat (length floats))
         /\ (exists updated,
               argo_floats (snd out)
               = (updated
                  ++ map (float_dict now)
                       (List.filter
                          (fun f =>
                             negb (existsb (float_conflict (float_dict now f))
                                     (argo_floats session)))
                          floats))%list
               /\ Forall2
                    (fun row row' =>
                       same_creation_metadata row row'
                       /\ match find (fun f => float_conflict (float_dict now f) row)
                                  floats with
                          | Some f =>
                            ArgoFloat.last_contact_date row'
                            = ArgoFloat.last_contact_date f
                            /\ ArgoFloat.total_profiles row'
                               = ArgoFloat.total_profiles f
                            /\ ArgoFloat.status row' = ArgoFloat.status f
                            /\ ArgoFloat.last_profile_date row' = None
                          | None => row' = row
                          end)
                    (argo_floats session) updated)
         /\ argo_profiles (snd out) = argo_profiles session
         /\ argo_measurements (snd out) = argo_measurements session
         /\ data_ingestion_logs (snd out) = data_ingestion_logs session))
  /\ (let out :=
        _upsert_floats never_raises (26664 * nanoseconds_per_day) [proposed_float]
          store_with_float in
      argo_floats store_with_float = [stored_float]
      /\ ArgoFloat.float_id proposed_float = ArgoFloat.float_id stored_float
      /\ ArgoFloat.last_profile_date stored_float
         = Some (26600 * nanoseconds_per_day)
      /\ ArgoFloat.last_profile_date proposed_float
         = Some (26663 * nanoseconds_per_day)
      /\ argo_floats (snd out)
         = [ArgoFloat.set_last_profile_date None
              (ArgoFloat.set_status (Some "inactive")
                 (ArgoFloat.set_total_profiles (Some 6)
                    (ArgoFloat.set_last_contact_date
                       (Some (26663 * nanoseconds_per_day)) stored_float)))]).
Proof.
  split; [|vm_compute; repeat split; reflexivity].
  intros execute_raises now floats session Hdistinct statement out.
  apply NoDup_ListNoDup in Hdistinct.
  subst statement out. unfold _upsert_floats. split.
  - intros e Hsome Hraises. destruct floats as [|f fs]; [contradiction|].
    rewrite Hraises. reflexivity.
  - intros Haccepts.
    assert (Hout :
      (match floats with
       | [] => (Return 0, session)
       | _ :: _ =>
         match execute_raises session (UpsertFloats (map (float_dict now) floats)) with
         | Some e => (Raise e, session)
         | None =>
           (Return (Z.of_nat (length (map (float_dict now) floats))),
            set_argo_floats
              (fold_left (on_conflict_do_update float_conflict float_set_)
                 (map (float_dict now) floats) (argo_floats session)) session)
         end
       end)
      = (Return (Z.of_nat (length floats)),
         set_argo_floats
           (fold_left (on_conflict_do_update float_conflict float_set_)
              (map (float_dict now) floats) (argo_floats session)) session)).
    { destruct floats as [|f fs].
      - cbn. destruct session; reflexivity.
      - rewrite Haccepts, length_map. reflexivity. }
    rewrite Hout. cbn [fst snd argo_floats argo_profiles argo_measurements
                       data_ingestion_logs set_argo_floats].
    split; [reflexivity|]. split; [|repeat split].
    rewrite (upsert_floats_table now floats (argo_floats session) Hdistinct).
    eexists. split; [reflexivity|].
    apply Forall2_map_of. intros row.
    destruct (find _ floats) as [f|].
    + split; [apply float_set_frame|]. repeat split.
    + split; [apply same_creation_metadata_refl|reflexivity].
Qed.

(** ** Retry with backoff (database_ops.py) *)

Lemma retry_delay_for_Return config attempt :
  (exponential_backoff config = true -> attempt < 1024) ->
  retry_delay_for config attempt = Return (backoff_delay config attempt).
Proof.
  unfold retry_delay_for, backoff_delay. intros Hsmall.
  destruct (exponential_backoff config); [|reflexivity].
  destruct (Z.ltb_spec attempt 1024) as [_|Hbig]; [reflexivity|].
  specialize (Hsmall eq_refl). lia.
Qed.

Section RetryFacts.
Context {A : Type}.
Variable config : IngestionConfig.
Variable operation_func : nat -> Outcome A.
Variable time_sleep : float -> option Exn.
Variable retries : Z.

(** The attempts from [first] on, [k] of them, each fail with a persistence
    exception and are each followed by a sleep that [time.sleep] accepts. *)
Definition retried (first k : nat) : Prop :=
  forall j, (j < k)%nat ->
    (exists msg, operation_func (first + j) = Raise (SQLAlchemyError msg))
    /\ (exponential_backoff config = true -> Z.of_nat (first + j) < 1024)
    /\ time_sleep (backoff_delay config (Z.of_nat (first + j))) = None.

Lemma retried_next first k :
  retried first (S k) -> retried (S first) k.
Proof.
  intros Hretried j Hj. replace (S first + j)%nat with (first + S j)%nat by lia.
  apply Hretried. lia.
Qed.

(** The loop goes through retried attempts, sleeping after each. *)
Lemma retry_loop_retried k : forall first count slept,
  (k <= count)%nat ->
  Z.of_nat (first + k) <= retries ->
  retried first k ->
  retry_loop config operation_func time_sleep retries (seq first count) slept
  = retry_loop config operation_func time_sleep retries
      (seq (first + k) (count - k))
      (slept ++ map (fun attempt => backoff_delay config (Z.of_nat attempt))
                    (seq first k))%list.
Proof.
  induction k as [|k IH]; intros first count slept Hcount Hle Hretried.
  - rewrite Nat.add_0_r, Nat.sub_0_r. cbn. rewrite app_nil_r. reflexivity.
  - destruct count as [|count]; [lia|]. cbn [seq retry_loop].
    destruct (Hretried 0%nat ltac:(lia)) as ([msg Hmsg] & Hsmall & Hsleep).
    rewrite Nat.add_0_r in Hmsg, Hsmall, Hsleep. rewrite Hmsg.
    destruct (Z.eqb_spec (Z.of_nat first) retries) as [Heq|_]; [lia|].
    rewrite retry_delay_for_Return by exact Hsmall. rewrite Hsleep.
    rewrite (IH (S first) count) by (try apply retried_next; try assumption; lia).
    cbn [map]. rewrite <- app_assoc.
    replace (S first + k)%nat with (first + S k)%nat by lia. reflexivity.
Qed.

Lemma retry_loop_returns k count value :
  (k < count)%nat -> Z.of_nat k <= retries -> retried 0 k ->
  operation_func k = Return value ->
  retry_loop config operation_func time_sleep retries (seq 0 count) []
  = (Return (Some value),
     map (fun attempt => backoff_delay config (Z.of_nat attempt)) (seq 0 k)).
Proof.
  intros Hcount Hle Hretried Hok.
  rewrite (retry_loop_retried k 0 count []) by (assumption || lia).
  destruct (count - k)%nat as [|rest] eqn:Hrest; [lia|].
  cbn [seq retry_loop Nat.add app]. rewrite Hok. reflexivity.
Qed.

Lemma retry_loop_raises_other k count msg :
  (k < count)%nat -> Z.of_nat k <= retries -> retried 0 k ->
  operation_func k = Raise (Exception msg) ->
  retry_loop config operation_func time_sleep retries (seq 0 count) []
  = (Raise (Exception msg),
     map (fun attempt => backoff_delay config (Z.of_nat attempt)) (seq 0 k)).
Proof.
  intros Hcount Hle Hretried Hraise.
  rewrite (retry_loop_retried k 0 count []) by (assumption || lia).
  destruct (count - k)%nat as [|rest] eqn:Hrest; [lia|].
  cbn [seq retry_loop Nat.add app]. rewrite Hraise. reflexivity.
Qed.

Lemma retry_loop_exhausts k count msg :
  (k < count)%nat -> Z.of_nat k = retries -> retried 0 k ->
  operation_func k = Raise (SQLAlchemyError msg) ->
  retry_loop config operation_func time_sleep retries (seq 0 count) []
  = (Raise (SQLAlchemyError msg),
     map (fun attempt => backoff_delay config (Z.of_nat attempt)) (seq 0 k)).
Proof.
  intros Hcount Hlast Hretried Hraise.
  rewrite (retry_loop_retried k 0 count []) by (assumption || lia).
  destruct (count - k)%nat as [|rest] eqn:Hrest; [lia|].
  cbn [seq retry_loop Nat.add app]. rewrite Hraise.
  destruct (Z.eqb_spec (Z.of_nat k) retries) as [_|Hne]; [reflexivity|lia].
Qed.

(** A sleep that [time.sleep] refuses ends the loop with its exception. *)
Lemma retry_loop_sleep_raises k count msg e :
  (k < count)%nat -> Z.of_nat k < retries -> retried 0 k ->
  operation_func k = Raise (SQLAlchemyError msg) ->
  (exponential_backoff config = true -> Z.of_nat k < 1024) ->
  time_sleep (backoff_delay config (Z.of_nat k)) = Some e ->
  retry_loop config operation_func time_sleep retries (seq 0 count) []
  = (Raise e, map (fun attempt => backoff_delay config (Z.of_nat attempt)) (seq 0 k)).
Proof.
  intros Hcount Hlt Hretried Hraise Hsmall Hsleep.
  rewrite (retry_loop_retried k 0 count []) by (assumption || lia).
  destruct (count - k)%nat as [|rest] eqn:Hrest; [lia|].
  cbn [seq retry_loop Nat.add app]. rewrite Hraise.
  destruct (Z.eqb_spec (Z.of_nat k) retries) as [Heq|_]; [lia|].
  rewrite retry_delay_for_Return by exact Hsmall. rewrite Hsleep. reflexivity.
Qed.

(** Under exponential backoff the delay after the attempt 1024 cannot be
    computed. *)
Lemma retry_loop_overflows k count msg :
  Z.of_nat k = 1024 ->
  (k < count)%nat -> 1024 < retries -> retried 0 k ->
  exponential_backoff config = true ->
  operation_func k = Raise (SQLAlchemyError msg) ->
  retry_loop config operation_func time_sleep retries (seq 0 count) []
  = (Raise (Exception "OverflowError: int too large to convert to float"),
     map (fun attempt => backoff_delay config (Z.of_nat attempt)) (seq 0 k)).
Proof.
  intros Hk Hcount Hlt Hretried Hexp Hraise.
  rewrite (retry_loop_retried k 0 count []) by (assumption || lia).
  destruct (count - k)%nat as [|rest] eqn:Hrest; [lia|].
  cbn [seq retry_loop Nat.add app]. rewrite Hraise.
  destruct (Z.eqb_spec (Z.of_nat k) retries) as [Heq|_]; [lia|].
  unfold retry_delay_for. rewrite Hexp, Hk. reflexivity.
Qed.
End RetryFacts.




(** ** Ingesting a file twice (database_ops.py, service.py) *)

Lemma sql_float_eqb_refl x : sql_float_eqb x x = true.
Proof.
  unfold sql_float_eqb, PrimFloat.is_nan.
  destruct (PrimFloat.eqb x x); reflexivity.
Qed.

Lemma measurement_conflict_refl e : measurement_conflict e e = true.
Proof.
  unfold measurement_conflict.
  rewrite String.eqb_refl, sql_float_eqb_refl. reflexivity.
Qed.

Lemma slices_concat {A : Type} size : forall fuel (l : list A),
  (0 < size)%nat -> (length l <= fuel)%nat ->
  concat (slices fuel size l) = l.
Proof.
  induction fuel as [|fuel IH]; intros l Hsize Hfuel.
  - destruct l; [reflexivity|cbn in Hfuel; lia].
  - destruct l as [|x l]; [reflexivity|].
    cbn [slices concat]. rewrite IH.
    + apply firstn_skipn.
    + exact Hsize.
    + rewrite length_skipn. cbn [length] in *. lia.
Qed.

Lemma map_profiles_loop_measurements profiles session : forall cache,
  snd (map_profiles_loop profiles session cache)
  = flat_map profile_measurements profiles.
Proof.
  induction profiles as [|profile rest IH]; intros cache; [reflexivity|].
  cbn [map_profiles_loop flat_map]. unfold map_profile_to_models.
  destruct (_get_or_create_float profile session cache) as [float_model cache'].
  specialize (IH cache').
  destruct (map_profiles_loop rest session cache') as [[fs dps] ms].
  cbn [snd] in *. rewrite IH. reflexivity.
Qed.

Lemma batch_map_profiles_measurements profiles session :
  ModelsDict.measurements (batch_map_profiles profiles session)
  = flat_map profile_measurements profiles.
Proof.
  unfold batch_map_profiles.
  pose proof (map_profiles_loop_measurements profiles session ∅) as H.
  destruct (map_profiles_loop profiles session ∅) as [[fs dps] ms].
  exact H.
Qed.

Lemma map_profiles_loop_profiles profiles session : forall cache,
  snd (fst (map_profiles_loop profiles session cache)) = profile_models profiles.
Proof.
  unfold profile_models.
  induction profiles as [|profile rest IH]; intros cache; [reflexivity|].
  cbn [map_profiles_loop map]. unfold map_profile_to_models.
  destruct (_get_or_create_float profile session cache) as [float_model cache'].
  specialize (IH cache').
  destruct (map_profiles_loop rest session cache') as [[fs dps] ms].
  cbn [fst snd] in *. rewrite IH. reflexivity.
Qed.

Lemma batch_map_profiles_profiles profiles session :
  ModelsDict.profiles (batch_map_profiles profiles session) = profile_models profiles.
Proof.
  unfold batch_map_profiles.
  pose proof (map_profiles_loop_profiles profiles session ∅) as H.
  destruct (map_profiles_loop profiles session ∅) as [[fs dps] ms].
  exact H.
Qed.

Section HealthyEngine.
Variable pd_Timedelta_days : Number -> option Z.
Variable fs : string -> option File.
Variable config : IngestionConfig.
Variable execute_raises : Store -> Statement -> option Exn.
Variable flush_raises : Store -> Flush -> option Exn.
Hypothesis execute_accepts : accepts_all execute_raises.
Hypothesis flush_accepts : accepts_all flush_raises.

Lemma upsert_floats_accepted now floats session :
  exists count session',
    _upsert_floats execute_raises now floats session = (Return count, session')
    /\ argo_measurements session' = argo_measurements session
    /\ data_ingestion_logs session' = data_ingestion_logs session.
Proof.
  unfold _upsert_floats. destruct floats.
  - eexists _, _. repeat split; reflexivity.
  - rewrite execute_accepts. eexists _, _. repeat split; reflexivity.
Qed.

Lemma upsert_profiles_accepted now profiles session :
  exists session',
    _upsert_profiles execute_raises now profiles session
    = (Return (Z.of_nat (length profiles)), session')
    /\ argo_measurements session' = argo_measurements session
    /\ data_ingestion_logs session' = data_ingestion_logs session.
Proof.
  unfold _upsert_profiles. destruct profiles.
  - eexists. repeat split; reflexivity.
  - rewrite execute_accepts. rewrite length_map. eexists. repeat split; reflexivity.
Qed.

Lemma insert_batches_accepted remaining : forall total session,
  exists count session',
    insert_batches execute_raises remaining total session = (Return count, session')
    /\ argo_measurements session'
       = upsert_measurements (concat remaining) (argo_measurements session)
    /\ data_ingestion_logs session' = data_ingestion_logs session.
Proof.
  induction remaining as [|batch rest IH]; intros total session.
  - eexists _, _. repeat split; reflexivity.
  - cbn [insert_batches]. rewrite execute_accepts.
    edestruct IH as (count & session' & -> & Hm & Hl).
    eexists _, _. split; [reflexivity|]. split.
    + rewrite Hm. cbn [concat argo_measurements set_argo_measurements].
      unfold upsert_measurements. rewrite map_app, fold_left_app. reflexivity.
    + rewrite Hl. reflexivity.
Qed.

Lemma bulk_insert_measurements_accepted measurements session :
  batches_ok config measurements ->
  exists count session',
    _bulk_insert_measurements config execute_raises measurements session
    = (Return count, session')
    /\ argo_measurements session'
       = upsert_measurements (written config measurements) (argo_measurements session)
    /\ data_ingestion_logs session' = data_ingestion_logs session.
Proof.
  intros Hok. unfold _bulk_insert_measurements, written.
  destruct measurements as [|m ms].
  - eexists _, _. split; [reflexivity|].
    destruct (batch_size config <? 0); split; reflexivity.
  - destruct Hok as [Hnil|Hsize]; [discriminate|].
    unfold batches.
    destruct (Z.eqb_spec (batch_size config) 0) as [H0|_]; [contradiction|].
    destruct (Z.ltb_spec (batch_size config) 0) as [Hneg|Hpos].
    + eexists _, _. repeat split; reflexivity.
    + destruct (insert_batches_accepted
                  (slices (length (m :: ms)) (Z.to_nat (batch_size config)) (m :: ms))
                  0 session) as (count & session' & Hrun & Hm & Hl).
      exists count, session'. split; [exact Hrun|]. split; [|exact Hl].
      rewrite Hm, slices_concat by lia. reflexivity.
Qed.

Lemma bulk_insert_measurements_rejected measurements session :
  ~ batches_ok config measurements ->
  exists e,
    _bulk_insert_measurements config execute_raises measurements session
    = (Raise e, session).
Proof.
  intros Hnot. unfold _bulk_insert_measurements.
  destruct measurements as [|m ms]; [exfalso; apply Hnot; left; reflexivity|].
  unfold batches.
  destruct (Z.eqb_spec (batch_size config) 0) as [H0|Hne].
  - eexists. reflexivity.
  - exfalso. apply Hnot. right. exact Hne.
Qed.

Lemma batches_ok_dec measurements :
  batches_ok config measurements \/ ~ batches_ok config measurements.
Proof.
  unfold batches_ok. destruct measurements as [|m ms]; [left; left; reflexivity|].
  destruct (Z.eq_dec (batch_size config) 0) as [H|H].
  - right. intros [Hnil|Hne]; [discriminate|contradiction].
  - left. right. exact H.
Qed.

(** The three statements of [bulk_insert_models], accepted one after the
    other. *)
Lemma bulk_insert_models_accepted now models_dict session :
  batches_ok config (ModelsDict.measurements models_dict) ->
  exists floats_inserted measurements_inserted session',
    bulk_insert_models config execute_raises now models_dict session
    = (Return (floats_inserted,
               Z.of_nat (length (ModelsDict.profiles models_dict)),
               measurements_inserted), session')
    /\ argo_measurements session'
       = upsert_measurements
           (written config (ModelsDict.measurements models_dict))
           (argo_measurements session)
    /\ data_ingestion_logs session' = data_ingestion_logs session.
Proof.
  intros Hbatches. unfold bulk_insert_models, db_bind.
  destruct (upsert_floats_accepted now (ModelsDict.floats models_dict) session)
    as (cf & s1 & -> & Hm1 & Hl1).
  destruct (upsert_profiles_accepted now (ModelsDict.profiles models_dict) s1)
    as (s2 & -> & Hm2 & Hl2).
  destruct (bulk_insert_measurements_accepted
              (ModelsDict.measurements models_dict) s2 Hbatches)
    as (cm & s3 & -> & Hm3 & Hl3).
  eexists _, _, _. split; [reflexivity|].
  split; congruence.
Qed.

Lemma bulk_insert_models_rejected now models_dict session :
  ~ batches_ok config (ModelsDict.measurements models_dict) ->
  exists e session',
    bulk_insert_models config execute_raises now models_dict session
    = (Raise e, session').
Proof.
  intros Hnot. unfold bulk_insert_models, db_bind.
  destruct (upsert_floats_accepted now (ModelsDict.floats models_dict) session)
    as (cf & s1 & -> & _ & _).
  destruct (upsert_profiles_accepted now (ModelsDict.profiles models_dict) s1)
    as (s2 & -> & _ & _).
  destruct (bulk_insert_measurements_rejected
              (ModelsDict.measurements models_dict) s2 Hnot) as (e & ->).
  eexists _, _. reflexivity.
Qed.

(** An accepted flush: the changed floats are written and the added rows
    appended; the measurements are not touched. *)
Lemma flush_accepted now added session :
  exists written,
    flush flush_raises now added session
    = (Return tt,
       {| tables := written; begun := begun session; inactive := inactive session;
          dirty := [] |})
    /\ argo_measurements written = argo_measurements (tables session)
    /\ argo_profiles written = argo_profiles (tables session)
    /\ data_ingestion_logs written
       = (data_ingestion_logs (tables session) ++ added)%list.
Proof.
  unfold flush.
  destruct (dirty session) as [|d ds] eqn:Hdirty.
  - destruct added as [|row rows].
    + exists (tables session). split.
      * destruct session; cbn in *; subst; reflexivity.
      * rewrite app_nil_r. repeat split.
    + rewrite flush_accepts. eexists. split; [reflexivity|]. repeat split.
  - rewrite flush_accepts. eexists. split; [reflexivity|]. repeat split.
Qed.

(** With an engine that accepts everything, the block of the database work
    ends normally: the result has its two counts, the session has the
    measurements upserted and one more audit-log row, the row of the
    result. *)
Lemma ingest_file_block_accepted clock file_path profiles result database :
  batches_ok config (flat_map profile_measurements profiles) ->
  let result' :=
    FileProcessingResult.set_records_processed (Z.of_nat (length profiles))
      (FileProcessingResult.set_records_inserted (Z.of_nat (length profiles))
         result) in
  exists session,
    ingest_file_block config execute_raises flush_raises clock file_path profiles
      result (SessionLocal database)
    = (Return tt, result', session)
    /\ inactive session = None
    /\ argo_measurements (tables session)
       = upsert_measurements
           (written config (flat_map profile_measurements profiles))
           (argo_measurements database)
    /\ data_ingestion_logs (tables session)
       = (data_ingestion_logs database ++ [audit_row result' (clock file_path)])%list.
Proof.
  intros Hbatches result'. unfold ingest_file_block, transaction.
  set (models := batch_map_profiles profiles (tables (SessionLocal database))).
  destruct (flush_accepted (clock file_path) []
              (set_dirty (loaded_floats models (tables (SessionLocal database)))
                 (SessionLocal database)))
    as (flushed & -> & Hm0 & _ & Hl0).
  cbn [tables begun inactive dirty set_dirty SessionLocal] in *.
  assert (Hms : ModelsDict.measurements models = flat_map profile_measurements profiles)
    by apply batch_map_profiles_measurements.
  assert (Hps : length (ModelsDict.profiles models) = length profiles).
  { unfold models. rewrite batch_map_profiles_profiles. apply length_map. }
  destruct (bulk_insert_models_accepted (clock file_path) models flushed)
    as (cf & cm & written & -> & Hm1 & Hl1); [rewrite Hms; exact Hbatches|].
  rewrite Hps. fold result'.
  rewrite log_ingestion_result_flush.
  destruct (flush_accepted (clock file_path) [audit_row result' (clock file_path)]
              (set_tables written
                 {| tables := flushed; begun := flushed; inactive := None;
                    dirty := [] |}))
    as (logged & -> & Hm2 & _ & Hl2).
  cbn [snd tables begun inactive dirty set_tables] in *.
  eexists. split; [reflexivity|]. cbn [tables inactive].
  split; [reflexivity|]. split.
  - rewrite Hm2, Hm1, Hm0, Hms. reflexivity.
  - rewrite Hl2, Hl1, Hl0, app_nil_r. reflexivity.
Qed.
End HealthyEngine.

Section Reingestion.
Variable pd_Timedelta_days : Number -> option Z.
Variable fs : string -> option File.
Variable config : IngestionConfig.
Variable execute_raises : Store -> Statement -> option Exn.
Variable flush_raises : Store -> Flush -> option Exn.
Hypothesis execute_accepts : accepts_all execute_raises.
Hypothesis flush_accepts : accepts_all flush_raises.

(** An ingestible file is reported as ingested, with as many records
    inserted as it has accepted profiles. *)
Lemma ingest_file_ingestible clock file_path store :
  ingestible pd_Timedelta_days fs config file_path ->
  exists result,
    ingest_file pd_Timedelta_days fs config execute_raises flush_raises clock
      file_path false store = (result, store)
    /\ FileProcessingResult.success result = true
    /\ FileProcessingResult.records_inserted result
       = Z.of_nat (length (accepted_profiles pd_Timedelta_days fs config file_path))
    /\ FileProcessingResult.records_processed result
       = Z.of_nat (length (accepted_profiles pd_Timedelta_days fs config file_path)).
Proof.
  intros (Hvalid & Hsuccess & Hsome & Hbatches).
  unfold accepted_profiles in *. unfold ingest_file.
  destruct (validate_netcdf_file fs file_path) as [is_valid validation_errors].
  cbn in Hvalid. subst is_valid. cbn [negb].
  rewrite Hsuccess. cbn [negb].
  set (parsed := parse_file pd_Timedelta_days fs config file_path) in *.
  destruct (default [] (profiles (FileProcessingResult.metadata parsed)))
    as [|p ps] eqn:Hps; [contradiction|].
  unfold ingest_file_database, get_session.
  destruct (ingest_file_block_accepted config execute_raises flush_raises
              execute_accepts flush_accepts clock file_path (p :: ps) parsed store
              Hbatches) as (session & -> & _).
  eexists. split; [reflexivity|]. cbn. repeat split. exact Hsuccess.
Qed.
End Reingestion.

(** C2, where the code departs from it: the sample file is ingested twice,
    with an engine that accepts every statement and every flush.  Both runs
    report success and one inserted record, and inside the session of each
    run the four measurements and the audit row with status "success" are
    there.  The session is closed without a commit, so no call of
    [ingest_file] changes the database: after the first run and after the
    second the measurements table is empty and the audit log has no row for
    the file.  (With the conversion of pandas, which refuses the array that
    the parser hands it, the same file does not reach the database work: it
    fails for want of a valid profile.) *)
Theorem C2_ingested_rows_are_not_committed :
  (forall pd_Timedelta_days fs config execute_raises flush_raises clock
          file_path dry_run store,
     snd (ingest_file pd_Timedelta_days fs config execute_raises flush_raises clock
            file_path dry_run store) = store)
  /\ FileProcessingResult.success (fst first_run) = true
  /\ FileProcessingResult.records_inserted (fst first_run) = 1
  /\ FileProcessingResult.success (fst second_run) = true
  /\ FileProcessingResult.records_inserted (fst second_run) = 1
  /\ (let seen :=
        session_tables exact_Timedelta_days mixed_fs sample_config never_raises
          never_raises (fun _ => 26663 * nanoseconds_per_day) "/data/a.nc"
          empty_store in
      length (argo_measurements seen) = 4%nat
      /\ map DataIngestionLog.status (log_rows_of "/data/a.nc" seen)
         = [Some "success"])
  /\ argo_measurements (snd first_run) = []
  /\ argo_measurements (snd second_run) = []
  /\ log_rows_of "/data/a.nc" (snd first_run) = []
  /\ log_rows_of "/data/a.nc" (snd second_run) = []
  /\ get_ingestion_status "/data/a.nc" (snd second_run) = None
  /\ (let run :=
        ingest_file pandas_Timedelta_days mixed_fs sample_config never_raises
          never_raises (fun _ => 26663 * nanoseconds_per_day) "/data/a.nc" false
          empty_store in
      FileProcessingResult.success (fst run) = false
      /\ FileProcessingResult.errors (fst run)
         = [Msg "No valid profiles found in file"]).
Proof.
  split; [exact ingest_file_leaves_database|].
  vm_compute. repeat split; reflexivity.
Qed.

(** The scenario of the specification: one profile accepted, one rejected;
    the session of the run sees one float, one profile and four
    measurements. *)
Example mixed_file_runs :
  let seen :=
    session_tables exact_Timedelta_days mixed_fs sample_config never_raises
      never_raises (fun _ => 26663 * nanoseconds_per_day) "/data/a.nc"
      empty_store in
  (FileProcessingResult.records_processed (fst first_run),
   FileProcessingResult.records_skipped (fst first_run),
   length (argo_floats seen), length (argo_profiles seen),
   length (argo_measurements seen))
  = (1, 1, 1%nat, 1%nat, 4%nat).
Proof. vm_compute. reflexivity. Qed.

(** ** Resuming (service.py) *)

(** Whatever the audit log says, a resume run is a run of
    [ingest_directory] over the whole directory: the list of files still to
    process only changes the [files_skipped] counter. *)
Lemma resume_ingestion_ingests_directory
  pd_Timedelta_days fs glob config execute_raises flush_raises clock as_completed
  directory skip_successful stats store :
  exists stats',
    resume_ingestion pd_Timedelta_days fs glob config execute_raises flush_raises
      clock as_completed directory skip_successful stats store
    = ingest_directory pd_Timedelta_days fs glob config execute_raises flush_raises
        clock as_completed (Some (default (input_directory config) directory))
        (Some (file_patterns config)) false stats' store
    /\ Stats.files_processed stats' = Stats.files_processed stats
    /\ Stats.files_successful stats' = Stats.files_successful stats
    /\ Stats.files_failed stats' = Stats.files_failed stats.
Proof.
  unfold resume_ingestion.
  destruct skip_successful; eexists; (split; [reflexivity|]);
    repeat split; reflexivity.
Qed.

(** C1, where the code departs from it: the resume run finds that only B
    needs processing and counts A as skipped, yet it ingests the whole
    directory again: two files are processed and two records reported as
    inserted, and the session that ingests A sees a second audit-log row for
    A beside A's profile and its four measurements.  (None of it reaches the
    database, whose sessions are closed without a commit.) *)
Theorem C1_resume_reprocesses_successful_file :
  discover_argo_files resume_glob "data/raw/argo" (file_patterns sample_config)
  = ["data/raw/argo/A.nc"; "data/raw/argo/B.nc"]
  /\ needs_processing store_after_earlier_run "data/raw/argo/A.nc" = false
  /\ needs_processing store_after_earlier_run "data/raw/argo/B.nc" = true
  /\ Stats.files_skipped (snd (fst resumed_run)) = 1
  /\ IngestionSummary.files_processed (fst (fst resumed_run)) = 2
  /\ IngestionSummary.total_records_inserted (fst (fst resumed_run)) = 2
  /\ (let seen :=
        session_tables exact_Timedelta_days resume_fs sample_config never_raises
          never_raises (fun _ => 26663 * nanoseconds_per_day) "data/raw/argo/A.nc"
          store_after_earlier_run in
      length (log_rows_of "data/raw/argo/A.nc" seen) = 2%nat
      /\ map DbArgoProfile.profile_id (argo_profiles seen) = ["7900522_1"]
      /\ length (argo_measurements seen) = 4%nat)
  /\ snd resumed_run = store_after_earlier_run.
Proof. vm_compute. repeat split; reflexivity. Qed.

(** * Further properties of the code *)

(** ** parsers.py *)

Lemma has_dimension_In (ds : Dataset) dim :
  existsb (fun kv : string * Z => String.eqb (fst kv) dim) (ds_dims ds) = true
  <-> In dim (map fst (ds_dims ds)).
Proof.
  rewrite existsb_exists, in_map_iff. split.
  - intros (kv & Hin & Heq). apply String.eqb_eq in Heq. eauto.
  - intros (kv & Heq & Hin). exists kv. split; [exact Hin|].
    apply String.eqb_eq. exact Heq.
Qed.

(** X1: validate_netcdf_file: the file is reported valid exactly when the list
    of errors is empty; an invalid file comes with one or two errors; and the
    file is valid exactly when it exists, is not empty, opens, has the
    dimension N_PROF and has the variables LATITUDE, LONGITUDE and JULD. *)
Theorem validate_netcdf_file_verdict fs file_path :
  let is_valid := fst (validate_netcdf_file fs file_path) in
  let errors := snd (validate_netcdf_file fs file_path) in
  (is_valid = true <-> errors = [])
  /\ (is_valid = false -> (1 <= length errors <= 2)%nat)
  /\ (is_valid = true <->
      exists f ds,
        fs file_path = Some f /\ st_size f <> 0 /\ open_dataset f = Return ds
        /\ In "N_PROF" (map fst (ds_dims ds))
        /\ has_variable ds "LATITUDE" = true
        /\ has_variable ds "LONGITUDE" = true
        /\ has_variable ds "JULD" = true).
Proof.
  cbv zeta. unfold validate_netcdf_file.
  destruct (fs file_path) as [f|] eqn:Hfile.
  2:{ cbn. split; [split; discriminate|]. split; [intros _; lia|].
      split; [discriminate|]. intros (f & ds & [=] & _). }
  destruct (Z.eqb_spec (st_size f) 0) as [Hsize|Hsize].
  { cbn. split; [split; discriminate|]. split; [intros _; lia|].
    split; [discriminate|].
    intros (f' & ds & [= <-] & Hne & _). contradiction. }
  destruct (open_dataset f) as [ds|e] eqn:Hopen.
  2:{ cbn. split; [split; discriminate|]. split; [intros _; lia|].
      split; [discriminate|].
      intros (f' & ds & [= <-] & _ & Hds & _). congruence. }
  cbn [fst snd List.filter].
  pose proof (has_dimension_In ds "N_PROF") as Hdim.
  assert (Hgood :
    (exists f' ds',
        Some f = Some f' /\ st_size f' <> 0 /\ open_dataset f' = Return ds'
        /\ In "N_PROF" (map fst (ds_dims ds'))
        /\ has_variable ds' "LATITUDE" = true
        /\ has_variable ds' "LONGITUDE" = true
        /\ has_variable ds' "JULD" = true)
    <-> existsb (fun kv : string * Z => String.eqb (fst kv) "N_PROF") (ds_dims ds) = true
        /\ has_variable ds "LATITUDE" = true
        /\ has_variable ds "LONGITUDE" = true
        /\ has_variable ds "JULD" = true).
  { split.
    - intros (f' & ds' & [= <-] & _ & Hds & Hn & H1 & H2 & H3).
      assert (ds' = ds) as -> by congruence.
      repeat split; try assumption. apply Hdim. exact Hn.
    - intros (Hn & H1 & H2 & H3). exists f, ds.
      repeat split; try assumption. apply Hdim. exact Hn. }
  rewrite Hgood. clear Hgood Hdim.
  destruct (existsb _ (ds_dims ds));
    destruct (has_variable ds "LATITUDE");
    destruct (has_variable ds "LONGITUDE");
    destruct (has_variable ds "JULD");
    cbn; (split; [split; (discriminate || reflexivity)|]);
    (split; [try discriminate; intros _; lia|]);
    (split; [try discriminate; auto|]);
    try reflexivity; intros (? & ? & ? & ?); discriminate.
Qed.

Lemma parts_leb_total a : forall b, parts_leb a b = false -> parts_leb b a = true.
Proof.
  induction a as [|x a IH]; intros b H; [discriminate|].
  destruct b as [|y b]; [reflexivity|]. cbn [parts_leb] in *.
  rewrite (String.compare_antisym y x).
  destruct (String.compare x y); cbn [CompOpp]; try reflexivity; try discriminate.
  apply IH, H.
Qed.

Lemma path_leb_total p q : path_leb p q = false -> path_leb q p = true.
Proof. apply parts_leb_total. Qed.

Lemma insert_sorted_Permutation p sorted :
  Permutation (insert_sorted p sorted) (p :: sorted).
Proof.
  induction sorted as [|q rest IH]; [reflexivity|]. cbn [insert_sorted].
  destruct (path_leb p q); [reflexivity|].
  rewrite IH. apply perm_swap.
Qed.

Lemma insert_sorted_Sorted p sorted :
  Sorted (fun a b => path_leb a b = true) sorted ->
  Sorted (fun a b => path_leb a b = true) (insert_sorted p sorted).
Proof.
  induction sorted as [|q rest IH]; intros Hs.
  - repeat constructor.
  - cbn [insert_sorted]. destruct (path_leb p q) eqn:Hpq.
    + constructor; [exact Hs|]. constructor. exact Hpq.
    + inversion Hs as [|? ? Hrest Hhd]; subst.
      constructor; [apply IH, Hrest|].
      destruct rest as [|r rest']; cbn [insert_sorted].
      * constructor. apply path_leb_total, Hpq.
      * destruct (path_leb p r).
        -- constructor. apply path_leb_total, Hpq.
        -- inversion Hhd; subst. constructor. assumption.
Qed.

Lemma sorted_set_Permutation files :
  Permutation (sorted_set files) (remove_dups files).
Proof.
  unfold sorted_set. induction (remove_dups files) as [|p rest IH]; [reflexivity|].
  cbn [fold_right]. rewrite insert_sorted_Permutation, IH. reflexivity.
Qed.

(** X2: discover_argo_files returns every path that one of the patterns
    matches in the directory and no other path, each path once, in the order
    of [sorted] on paths. *)
Theorem discover_argo_files_sorted_unique glob input_directory patterns :
  let files := discover_argo_files glob input_directory patterns in
  NoDup files
  /\ Sorted (fun p q => path_leb p q = true) files
  /\ (forall p,
        In p files
        <-> exists pattern, In pattern patterns /\ In p (glob input_directory pattern)).
Proof.
  cbv zeta. unfold discover_argo_files.
  set (found := flat_map _ patterns).
  pose proof (sorted_set_Permutation found) as Hperm.
  split; [|split].
  - rewrite Hperm. apply NoDup_remove_dups.
  - clear Hperm. unfold sorted_set. induction (remove_dups found) as [|p rest IH].
    + apply Sorted_nil.
    + cbn [fold_right]. apply insert_sorted_Sorted, IH.
  - intros p. rewrite <- in_flat_map. fold found.
    rewrite <- !list_elem_of_In, Hperm, elem_of_remove_dups. reflexivity.
Qed.

Lemma DataMode_eqb_eq a b : DataMode_eqb a b = true <-> a = b.
Proof. destruct a, b; cbn; split; intros H; congruence. Qed.

Lemma bounds_errors_nil config profile :
  bounds_errors config profile = [] <->
  between (latitude_min (validation config)) (ArgoProfile.latitude profile)
    (latitude_max (validation config)) = true
  /\ between (longitude_min (validation config)) (ArgoProfile.longitude profile)
       (longitude_max (validation config)) = true
  /\ min_date (validation config) <= ArgoProfile.date_time profile
     <= max_date (validation config).
Proof.
  unfold bounds_errors. cbv zeta.
  destruct (between (latitude_min _) _ _);
    destruct (between (longitude_min _) _ _);
    destruct (Z.leb_spec (min_date (validation config)) (ArgoProfile.date_time profile));
    destruct (Z.leb_spec (ArgoProfile.date_time profile) (max_date (validation config)));
    cbn; split; try discriminate; try (intros (? & ? & ?); discriminate || lia);
    intros _; repeat split; lia.
Qed.

Lemma bounds_errors_length config profile :
  (length (bounds_errors config profile) <= 3)%nat.
Proof.
  unfold bounds_errors. cbv zeta.
  destruct (negb (between (latitude_min _) _ _));
    destruct (negb (between (longitude_min _) _ _));
    destruct (negb _); cbn; lia.
Qed.

(** X3: _validate_profile, accepted profile: when the check returns True the
    position and the date are within the validation bounds, the data mode is
    one of the configured modes, the geographic and the date filter hold when
    they are configured, no error is recorded, the only warnings added are
    the range warnings of the profile, and the skip counter is unchanged. *)
Theorem validate_profile_accepts config profile result result' :
  _validate_profile config profile result = Return (true, result') ->
  let v := validation config in
  let date_time := ArgoProfile.date_time profile in
  between (latitude_min v) (ArgoProfile.latitude profile) (latitude_max v) = true
  /\ between (longitude_min v) (ArgoProfile.longitude profile) (longitude_max v) = true
  /\ min_date v <= date_time <= max_date v
  /\ (exists mode,
        DataMode_of_value (ArgoProfile.data_mode profile) = Return mode
        /\ In mode (data_modes config))
  /\ (forall bounds,
        geographic_bounds config = Some bounds -> bounds_given bounds = true ->
        between (default (-90)%float (lat_min bounds)) (ArgoProfile.latitude profile)
          (default 90%float (lat_max bounds)) = true
        /\ between (default (-180)%float (lon_min bounds)) (ArgoProfile.longitude profile)
             (default 180%float (lon_max bounds)) = true)
  /\ (forall start_date end_date,
        date_range config = Some (start_date, end_date) ->
        start_date <= date_time <= end_date)
  /\ FileProcessingResult.errors result' = FileProcessingResult.errors result
  /\ FileProcessingResult.warnings result'
     = (FileProcessingResult.warnings result ++ range_warnings config profile)%list
  /\ FileProcessingResult.records_skipped result'
     = FileProcessingResult.records_skipped result.
Proof.
  unfold _validate_profile. intros H. cbv zeta.
  destruct (geographic_filter_rejects config profile) eqn:Hgeo; [discriminate|].
  destruct (date_range_rejects config profile) eqn:Hrange; [discriminate|].
  destruct (DataMode_of_value _) as [mode|e] eqn:Hmode; cbn [bind] in H;
    [|discriminate].
  destruct (existsb (DataMode_eqb mode) (data_modes config)) eqn:Hmodes;
    cbn [negb] in H; [|discriminate].
  destruct (bounds_errors config profile) eqn:Herrors; [|discriminate].
  apply bounds_errors_nil in Herrors. destruct Herrors as (Hlat & Hlon & Hdate).
  split; [exact Hlat|]. split; [exact Hlon|]. split; [exact Hdate|].
  split.
  { exists mode. split; [reflexivity|].
    apply existsb_exists in Hmodes. destruct Hmodes as (m & Hin & Heq).
    apply DataMode_eqb_eq in Heq. subst m. exact Hin. }
  split.
  { intros bounds Hbounds Hgiven. unfold geographic_filter_rejects in Hgeo.
    rewrite Hbounds, Hgiven in Hgeo.
    apply orb_false_elim in Hgeo. destruct Hgeo as [Ha Hb].
    apply negb_false_iff in Ha, Hb. split; assumption. }
  split.
  { intros start_date end_date Hr. unfold date_range_rejects in Hrange.
    rewrite Hr in Hrange. apply negb_false_iff, andb_true_iff in Hrange. lia. }
  destruct (range_warnings config profile) eqn:Hw; injection H as <-.
  - rewrite app_nil_r. repeat split; reflexivity.
  - repeat split; reflexivity.
Qed.

Lemma validate_profile_accepts_witness :
  exists result',
    _validate_profile sample_config first_sighting
      (FileProcessingResult.make "/test/file.nc" true [] 0) = Return (true, result')
    /\ between (-90)%float 45.5%float 90%float = true
    /\ FileProcessingResult.errors result' = [].
Proof.
  eexists. split; [vm_compute; reflexivity|].
  pose proof (validate_profile_accepts sample_config first_sighting
                (FileProcessingResult.make "/test/file.nc" true [] 0) _
                ltac:(vm_compute; reflexivity)) as H.
  cbv zeta in H. destruct H as (Hlat & _ & _ & _ & _ & _ & Herr & _).
  split; [exact Hlat|exact Herr].
Defined.

(** X4: _validate_profile, rejected profile: when the check returns False
    because of the geographic filter, the date filter or the data mode, the
    result object is unchanged (no error, no warning, no count); otherwise
    the profile failed the validation bounds and between one and three
    errors are appended, the warnings and the skip counter staying as they
    were. *)
Theorem validate_profile_rejects config profile result result' :
  _validate_profile config profile result = Return (false, result') ->
  let filtered :=
    geographic_filter_rejects config profile
    || date_range_rejects config profile
    || match DataMode_of_value (ArgoProfile.data_mode profile) with
       | Return mode => negb (existsb (DataMode_eqb mode) (data_modes config))
       | Raise _ => false
       end in
  (filtered = true -> result' = result)
  /\ (filtered = false ->
      (1 <= length (bounds_errors config profile) <= 3)%nat
      /\ FileProcessingResult.errors result'
         = (FileProcessingResult.errors result ++ bounds_errors config profile)%list
      /\ FileProcessingResult.warnings result' = FileProcessingResult.warnings result
      /\ FileProcessingResult.records_skipped result'
         = FileProcessingResult.records_skipped result).
Proof.
  unfold _validate_profile. intros H. cbv zeta.
  destruct (geographic_filter_rejects config profile);
    [injection H as <-; split; [reflexivity|discriminate]|].
  destruct (date_range_rejects config profile);
    [injection H as <-; split; [reflexivity|discriminate]|].
  destruct (DataMode_of_value _) as [mode|e]; cbn [bind] in H; [|discriminate].
  destruct (negb (existsb (DataMode_eqb mode) (data_modes config)));
    [injection H as <-; split; [reflexivity|discriminate]|].
  cbn [orb]. split; [discriminate|]. intros _.
  pose proof (bounds_errors_length config profile) as Hlen.
  destruct (bounds_errors config profile) as [|m ms]; [discriminate|].
  injection H as <-. cbn [length] in *. repeat split; lia.
Qed.

Lemma validate_profile_rejects_witness :
  exists result',
    _validate_profile sample_config
      (sample_profile 2 sample_today 95%float [] None None)
      (FileProcessingResult.make "/test/file.nc" true [] 0) = Return (false, result')
    /\ FileProcessingResult.errors result'
       = [ProfileLatitudeOutOfBounds "7900522_2" 95%float].
Proof.
  eexists. split; [vm_compute; reflexivity|].
  pose proof (validate_profile_rejects sample_config
                (sample_profile 2 sample_today 95%float [] None None)
                (FileProcessingResult.make "/test/file.nc" true [] 0) _
                ltac:(vm_compute; reflexivity)) as H.
  cbv zeta in H. destruct H as [_ H].
  destruct (H ltac:(vm_compute; reflexivity)) as (_ & Herr & _).
  rewrite Herr. vm_compute. reflexivity.
Defined.

Lemma parse_profiles_loop_skipped_mono pd config ds indices : forall result,
  FileProcessingResult.records_skipped result
  <= FileProcessingResult.records_skipped
       (snd (parse_profiles_loop pd config ds indices result)).
Proof.
  induction indices as [|prof_idx rest IH]; intros result; [cbn; lia|].
  cbn [parse_profiles_loop].
  destruct (parse_profiles_try pd config ds prof_idx result)
    as [[[profile|] result1]|e] eqn:Htry.
  - apply parse_profiles_try_skipped in Htry. cbn in Htry.
    specialize (IH result1).
    destruct (parse_profiles_loop pd config ds rest result1) as [ys r2].
    cbn [snd] in *. lia.
  - apply parse_profiles_try_skipped in Htry. cbn in Htry.
    specialize (IH result1). lia.
  - destruct (too_many_errors config _); [cbn; lia|].
    specialize (IH (parse_profiles_except prof_idx e result)). cbn in IH |- *. lia.
Qed.

(** X5: parse_file succeeds exactly when the file opens and no required
    variable is missing.  A failed parse carries exactly one error, no
    profile and zero counters.  After a successful parse records_processed is
    the number of accepted profiles, and processed plus skipped is at most
    N_PROF, with equality when fewer than max_errors_per_file errors were
    recorded. *)
Theorem parse_file_outcome pd_Timedelta_days fs config file_path :
  let result := parse_file pd_Timedelta_days fs config file_path in
  (FileProcessingResult.success result = true <->
   exists ds, xr_open_dataset fs file_path = Return ds
              /\ _validate_required_variables config ds = [])
  /\ (FileProcessingResult.success result = false ->
      length (FileProcessingResult.errors result) = 1%nat
      /\ profiles (FileProcessingResult.metadata result) = None
      /\ FileProcessingResult.records_processed result = 0
      /\ FileProcessingResult.records_skipped result = 0)
  /\ (FileProcessingResult.success result = true ->
      exists ds accepted,
        xr_open_dataset fs file_path = Return ds
        /\ profiles (FileProcessingResult.metadata result) = Some accepted
        /\ FileProcessingResult.records_processed result = Z.of_nat (length accepted)
        /\ 0 <= FileProcessingResult.records_skipped result
        /\ FileProcessingResult.records_processed result
           + FileProcessingResult.records_skipped result
           <= Z.max 0 (dims_get ds "N_PROF")
        /\ (Z.of_nat (length (FileProcessingResult.errors result))
            < max_errors_per_file config ->
            FileProcessingResult.records_processed result
            + FileProcessingResult.records_skipped result
            = Z.max 0 (dims_get ds "N_PROF"))).
Proof.
  cbv zeta. unfold parse_file.
  destruct (xr_open_dataset fs file_path) as [ds|e].
  2:{ cbn. split; [split; [discriminate|intros (ds & [=] & _)]|].
      split; [repeat split; reflexivity|discriminate]. }
  destruct (_validate_required_variables config ds) as [|v vs] eqn:Hvars.
  2:{ cbn. split; [split; [discriminate|intros (ds' & [= <-] & Hnil); congruence]|].
      split; [repeat split; reflexivity|discriminate]. }
  set (start := FileProcessingResult.set_metadata _ _).
  unfold _parse_profiles.
  destruct (parse_profiles_loop_visits pd_Timedelta_days config ds
              (seq 0 (Z.to_nat (dims_get ds "N_PROF"))) start)
    as (visited & Hle & Hcount & Hstop).
  rewrite length_seq in Hle, Hstop.
  pose proof (parse_profiles_loop_skipped_mono pd_Timedelta_days config ds
                (seq 0 (Z.to_nat (dims_get ds "N_PROF"))) start) as Hmono.
  destruct (parse_profiles_loop _ _ _ _ start) as [accepted result] eqn:Hloop.
  cbn [fst snd] in *. cbn.
  split; [split; [intros _; exists ds; split; [reflexivity|exact Hvars]|reflexivity]|].
  split; [discriminate|]. intros _.
  exists ds, accepted. split; [reflexivity|]. split; [reflexivity|].
  split; [reflexivity|].
  assert (Hstart : FileProcessingResult.records_skipped start = 0) by reflexivity.
  rewrite Hstart in Hcount, Hmono.
  split; [lia|]. split; [lia|].
  intros Hbudget.
  destruct (Nat.eq_dec visited (Z.to_nat (dims_get ds "N_PROF"))) as [Hall|Hnot];
    [lia|].
  destruct Hstop as (_ & _ & Hmany); lia.
Qed.

Lemma skip_one_iter n : forall result,
  Nat.iter n skip_one result
  = FileProcessingResult.set_records_skipped
      (FileProcessingResult.records_skipped result + Z.of_nat n) result.
Proof.
  induction n as [|n IH]; intros result.
  - cbn. rewrite Z.add_0_r. destruct result; reflexivity.
  - rewrite Nat.iter_succ, IH.
    unfold skip_one, FileProcessingResult.set_records_skipped. cbn.
    f_equal. lia.
Qed.

Lemma parse_profiles_loop_all_skipped pd config ds indices : forall result,
  (forall prof_idx, In prof_idx indices -> _parse_single_profile pd ds prof_idx = None) ->
  parse_profiles_loop pd config ds indices result
  = ([], Nat.iter (length indices) skip_one result).
Proof.
  induction indices as [|prof_idx rest IH]; intros result Hnone; [reflexivity|].
  cbn [parse_profiles_loop]. unfold parse_profiles_try.
  rewrite (Hnone prof_idx) by (left; reflexivity).
  rewrite IH by (intros i Hi; apply Hnone; right; exact Hi).
  cbn [length]. rewrite Nat.iter_succ_r. reflexivity.
Qed.

(** When no profile of a dataset parses, the scan yields nothing and counts
    every profile as skipped. *)
Lemma parse_profiles_none pd config ds :
  (forall prof_idx, _parse_single_profile pd ds prof_idx = None) ->
  forall result,
    _parse_profiles pd config ds result
    = ([], FileProcessingResult.set_records_skipped
             (FileProcessingResult.records_skipped result
              + Z.max 0 (dims_get ds "N_PROF")) result).
Proof.
  intros Hnone result. unfold _parse_profiles.
  rewrite parse_profiles_loop_all_skipped by (intros i _; apply Hnone).
  rewrite length_seq, skip_one_iter. do 2 f_equal. lia.
Qed.

(** Such a file, when it passes the pre-check and has the required
    variables, fails for want of a valid profile. *)
Lemma ingest_file_no_profile
  pd fs config execute_raises flush_raises clock file_path dry_run store f ds :
  (forall prof_idx, _parse_single_profile pd ds prof_idx = None) ->
  fs file_path = Some f -> open_dataset f = Return ds ->
  fst (validate_netcdf_file fs file_path) = true ->
  _validate_required_variables config ds = [] ->
  exists result,
    ingest_file pd fs config execute_raises flush_raises clock
      file_path dry_run store = (result, store)
    /\ FileProcessingResult.success result = false
    /\ FileProcessingResult.errors result = [Msg "No valid profiles found in file"]
    /\ FileProcessingResult.records_processed result = 0
    /\ FileProcessingResult.records_skipped result = Z.max 0 (dims_get ds "N_PROF").
Proof.
  intros Hnone Hfile Hopen Hvalid Hvars.
  unfold ingest_file.
  destruct (validate_netcdf_file fs file_path) as [is_valid validation_errors].
  cbn [fst] in Hvalid. subst is_valid. cbn [negb].
  unfold parse_file, xr_open_dataset.
  rewrite Hfile, Hopen, Hvars, (parse_profiles_none pd config ds Hnone).
  cbn. eexists. split; [reflexivity|]. cbn. repeat split.
Qed.

(** X6: a dataset without the variable CYCLE_NUMBER (which is not among the
    required variables) yields no profile: every profile is parsed to None
    and counted as skipped without an error message, and ingest_file fails
    with the one error 'No valid profiles found in file', leaving the store
    as it was. *)
Theorem missing_cycle_number_skips_every_profile
  pd_Timedelta_days config ds :
  has_variable ds "CYCLE_NUMBER" = false ->
  (forall prof_idx, _parse_single_profile pd_Timedelta_days ds prof_idx = None)
  /\ (forall result,
        _parse_profiles pd_Timedelta_days config ds result
        = ([], FileProcessingResult.set_records_skipped
                 (FileProcessingResult.records_skipped result
                  + Z.max 0 (dims_get ds "N_PROF")) result))
  /\ (forall fs execute_raises flush_raises clock file_path dry_run store f,
        fs file_path = Some f -> open_dataset f = Return ds ->
        fst (validate_netcdf_file fs file_path) = true ->
        _validate_required_variables config ds = [] ->
        exists result,
          ingest_file pd_Timedelta_days fs config execute_raises flush_raises clock
            file_path dry_run store = (result, store)
          /\ FileProcessingResult.success result = false
          /\ FileProcessingResult.errors result
             = [Msg "No valid profiles found in file"]
          /\ FileProcessingResult.records_processed result = 0
          /\ FileProcessingResult.records_skipped result
             = Z.max 0 (dims_get ds "N_PROF")).
Proof.
  intros Hmissing.
  assert (Hnone : forall prof_idx,
            _parse_single_profile pd_Timedelta_days ds prof_idx = None).
  { intros prof_idx. unfold _parse_single_profile, parse_single_profile_body, getitem.
    rewrite Hmissing. reflexivity. }
  split; [exact Hnone|]. split; [apply parse_profiles_none, Hnone|].
  intros fs execute_raises flush_raises clock file_path dry_run store f
    Hfile Hopen Hvalid Hvars.
  apply (ingest_file_no_profile pd_Timedelta_days fs config execute_raises
           flush_raises clock file_path dry_run store f ds);
    assumption.
Qed.

Lemma missing_cycle_number_witness :
  _parse_profiles exact_Timedelta_days sample_config no_cycle_number_dataset
    (FileProcessingResult.make "/data/f.nc" false [] 1000)
  = ([], FileProcessingResult.set_records_skipped 2
           (FileProcessingResult.make "/data/f.nc" false [] 1000)).
Proof.
  apply (proj1 (proj2 (missing_cycle_number_skips_every_profile exact_Timedelta_days
                         sample_config no_cycle_number_dataset eq_refl))).
Defined.

(** X7: the Julian day reaches pd.Timedelta as the array of no dimension
    that .values gives (latitude and longitude go through float(), JULD does
    not).  With a pandas that takes a Python number for days and refuses an
    array, _julian_to_datetime raises for every Julian day that is not NaN,
    so _parse_single_profile returns None for every profile of every
    dataset; every profile is counted as skipped, without an error message;
    ingest_file succeeds on no file at all and leaves the database alone;
    and a file that passes the pre-check and has the required variables
    fails with the one error 'No valid profiles found in file'. *)
Theorem array_julian_day_yields_no_profile pd_Timedelta_days :
  (forall value, pd_Timedelta_days (NdArray value) = None) ->
  (forall ds prof_idx, _parse_single_profile pd_Timedelta_days ds prof_idx = None)
  /\ (forall config ds result,
        _parse_profiles pd_Timedelta_days config ds result
        = ([], FileProcessingResult.set_records_skipped
                 (FileProcessingResult.records_skipped result
                  + Z.max 0 (dims_get ds "N_PROF")) result))
  /\ (forall fs config execute_raises flush_raises clock file_path dry_run store,
        let run := ingest_file pd_Timedelta_days fs config execute_raises
                     flush_raises clock file_path dry_run store in
        FileProcessingResult.success (fst run) = false /\ snd run = store)
  /\ (forall fs config execute_raises flush_raises clock file_path dry_run store f ds,
        fs file_path = Some f -> open_dataset f = Return ds ->
        fst (validate_netcdf_file fs file_path) = true ->
        _validate_required_variables config ds = [] ->
        let run := ingest_file pd_Timedelta_days fs config execute_raises
                     flush_raises clock file_path dry_run store in
        FileProcessingResult.errors (fst run)
        = [Msg "No valid profiles found in file"]
        /\ FileProcessingResult.records_processed (fst run) = 0
        /\ FileProcessingResult.records_skipped (fst run)
           = Z.max 0 (dims_get ds "N_PROF")).
Proof.
  intros Hrefused.
  assert (Hnone : forall ds prof_idx,
            _parse_single_profile pd_Timedelta_days ds prof_idx = None).
  { intros ds prof_idx. unfold _parse_single_profile, parse_single_profile_body.
    destruct (getitem ds (ds_int ds) "CYCLE_NUMBER" prof_idx);
      cbn [bind]; [|reflexivity].
    destruct (getitem ds (ds_float ds) "LATITUDE" prof_idx);
      cbn [bind]; [|reflexivity].
    destruct (getitem ds (ds_float ds) "LONGITUDE" prof_idx);
      cbn [bind]; [|reflexivity].
    destruct (getitem ds (ds_float ds) "JULD" prof_idx) as [value|];
      cbn [bind]; [|reflexivity].
    cbv zeta. destruct (np_isnan _); [reflexivity|].
    unfold _julian_to_datetime. rewrite Hrefused. reflexivity. }
  split; [exact Hnone|].
  split; [intros config ds; apply parse_profiles_none, Hnone|].
  split.
  - intros fs config execute_raises flush_raises clock file_path dry_run store.
    cbv zeta. unfold ingest_file.
    destruct (validate_netcdf_file fs file_path) as [is_valid validation_errors].
    destruct (negb is_valid); [split; reflexivity|].
    unfold parse_file, xr_open_dataset.
    destruct (fs file_path) as [f|]; [|split; reflexivity].
    destruct (open_dataset f) as [ds|e]; [|split; reflexivity].
    destruct (_validate_required_variables config ds); [|split; reflexivity].
    rewrite (parse_profiles_none pd_Timedelta_days config ds (Hnone ds)).
    split; reflexivity.
  - intros fs config execute_raises flush_raises clock file_path dry_run store f ds
      Hfile Hopen Hvalid Hvars. cbv zeta.
    destruct (ingest_file_no_profile pd_Timedelta_days fs config execute_raises
                flush_raises clock file_path dry_run store f ds (Hnone ds)
                Hfile Hopen Hvalid Hvars)
      as (result & -> & _ & Herrors & Hprocessed & Hskipped).
    cbn [fst]. repeat split; assumption.
Qed.

Lemma array_julian_day_witness :
  _parse_single_profile pandas_Timedelta_days mixed_dataset 0 = None
  /\ (let run :=
        ingest_file pandas_Timedelta_days mixed_fs sample_config never_raises
          never_raises (fun _ => 26663 * nanoseconds_per_day) "/data/a.nc" false
          empty_store in
      FileProcessingResult.success (fst run) = false /\ snd run = empty_store).
Proof.
  destruct (array_julian_day_yields_no_profile pandas_Timedelta_days
              (fun value => eq_refl)) as (Hnone & _ & Hfails & _).
  split; [apply Hnone|apply Hfails].
Defined.

(** The sample file under pandas: both profiles are skipped and the file
    fails, while the day count of tests/test_argo_ingestion.py, a Python
    float, converts. *)
Example julian_day_under_pandas :
  (let run :=
     ingest_file pandas_Timedelta_days mixed_fs sample_config never_raises
       never_raises (fun _ => 26663 * nanoseconds_per_day) "/data/a.nc" false
       empty_store in
   FileProcessingResult.errors (fst run) = [Msg "No valid profiles found in file"]
   /\ FileProcessingResult.records_skipped (fst run) = 2)
  /\ _julian_to_datetime pandas_Timedelta_days (PyFloat 25000.5)
     = Return (25000 * nanoseconds_per_day + nanoseconds_per_day / 2)
  /\ _julian_to_datetime pandas_Timedelta_days (NdArray 25000.5)
     = Raise (Exception "Error converting Julian day").
Proof. vm_compute. repeat split; reflexivity. Qed.

(** ** mappers.py *)

(** The comparisons of floats that are not NaN are those of a total order. *)

Lemma SFcompare_rank f1 f2 :
  SFcompare f1 f2
  = match float_rank f1, float_rank f2 with
    | Some a, Some b => Some (rank_compare a b)
    | _, _ => None
    end.
Proof.
  destruct f1 as [s1|s1| |s1 m1 e1], f2 as [s2|s2| |s2 m2 e2];
    try destruct s1; try destruct s2; try reflexivity.
  - cbn -[Z.compare]. unfold rank_compare. cbn [fst snd].
    rewrite Z.compare_refl, Z.compare_opp, (Z.compare_antisym e1 e2).
    destruct (e1 ?= e2); reflexivity.
Qed.

Lemma rank_compare_le a b :
  rank_compare a b <> Gt <->
  fst (fst a) < fst (fst b)
  \/ (fst (fst a) = fst (fst b)
      /\ (snd (fst a) < snd (fst b)
          \/ (snd (fst a) = snd (fst b) /\ snd a <= snd b))).
Proof.
  unfold rank_compare.
  destruct (Z.compare_spec (fst (fst a)) (fst (fst b)));
    [destruct (Z.compare_spec (snd (fst a)) (snd (fst b)));
       [destruct (Z.compare_spec (snd a) (snd b))|..]|..];
    split; intros; try lia; try congruence; try discriminate.
Qed.

Lemma rank_compare_eq a b :
  rank_compare a b = Eq <-> a = b.
Proof.
  destruct a as [[a1 a2] a3], b as [[b1 b2] b3]. unfold rank_compare. cbn [fst snd].
  destruct (Z.compare_spec a1 b1);
    [destruct (Z.compare_spec a2 b2); [destruct (Z.compare_spec a3 b3)|..]|..];
    split; intros H'; try discriminate; try (injection H' as -> -> ->; lia); subst; try reflexivity; try lia.
Qed.

Lemma leb_rank x y :
  PrimFloat.leb x y = true <->
  exists a b, float_rank (Prim2SF x) = Some a /\ float_rank (Prim2SF y) = Some b
              /\ rank_compare a b <> Gt.
Proof.
  rewrite FloatAxioms.leb_spec. unfold SFleb. rewrite SFcompare_rank.
  destruct (float_rank (Prim2SF x)) as [a|], (float_rank (Prim2SF y)) as [b|];
    try (split; [discriminate|intros (? & ? & ? & ? & _); congruence]).
  split.
  - intros H. exists a, b. repeat split. destruct (rank_compare a b); congruence.
  - intros (a' & b' & [= <-] & [= <-] & H). destruct (rank_compare a b); congruence.
Qed.

Lemma ltb_rank x y :
  PrimFloat.ltb x y = true <->
  exists a b, float_rank (Prim2SF x) = Some a /\ float_rank (Prim2SF y) = Some b
              /\ rank_compare a b = Lt.
Proof.
  rewrite FloatAxioms.ltb_spec. unfold SFltb. rewrite SFcompare_rank.
  destruct (float_rank (Prim2SF x)) as [a|], (float_rank (Prim2SF y)) as [b|];
    try (split; [discriminate|intros (? & ? & ? & ? & _); congruence]).
  split.
  - intros H. exists a, b. repeat split. destruct (rank_compare a b); congruence.
  - intros (a' & b' & [= <-] & [= <-] & H). rewrite H. reflexivity.
Qed.

Lemma is_nan_rank x :
  PrimFloat.is_nan x = false <-> exists a, float_rank (Prim2SF x) = Some a.
Proof.
  unfold PrimFloat.is_nan. rewrite FloatAxioms.eqb_spec. unfold SFeqb.
  rewrite SFcompare_rank.
  destruct (float_rank (Prim2SF x)) as [a|].
  - pose proof (proj2 (rank_compare_eq a a) eq_refl) as ->. cbn.
    split; eauto.
  - cbn. split; [discriminate|intros [? ?]; discriminate].
Qed.

Lemma float_leb_refl x : PrimFloat.is_nan x = false -> PrimFloat.leb x x = true.
Proof.
  intros H. apply is_nan_rank in H. destruct H as [a Ha].
  apply leb_rank. exists a, a. repeat split; try assumption.
  rewrite (proj2 (rank_compare_eq a a) eq_refl). discriminate.
Qed.

Lemma float_leb_trans x y z :
  PrimFloat.leb x y = true -> PrimFloat.leb y z = true -> PrimFloat.leb x z = true.
Proof.
  rewrite !leb_rank.
  intros (a & b & Ha & Hb & Hab) (b' & c & Hb' & Hc & Hbc).
  rewrite Hb in Hb'. injection Hb' as <-.
  exists a, c. repeat split; try assumption.
  apply rank_compare_le in Hab, Hbc. apply rank_compare_le. lia.
Qed.

Lemma float_ltb_leb x y :
  PrimFloat.is_nan x = false -> PrimFloat.is_nan y = false ->
  PrimFloat.ltb x y = false -> PrimFloat.leb y x = true.
Proof.
  intros Hx Hy Hlt. apply is_nan_rank in Hx, Hy.
  destruct Hx as [a Ha], Hy as [b Hb].
  apply leb_rank. exists b, a. repeat split; try assumption.
  intros Hgt.
  assert (PrimFloat.ltb x y = true); [|congruence].
  apply ltb_rank. exists a, b. repeat split; try assumption.
  destruct a as [[a1 a2] a3], b as [[b1 b2] b3].
  unfold rank_compare in *. cbn [fst snd] in *.
  rewrite (Z.compare_antisym a1 b1), (Z.compare_antisym a2 b2), (Z.compare_antisym a3 b3) in Hgt.
  destruct (a1 ?= b1); cbn in *; try congruence.
  destruct (a2 ?= b2); cbn in *; try congruence.
  destruct (a3 ?= b3); cbn in *; congruence.
Qed.

Lemma float_ltb_leb' x y : PrimFloat.ltb x y = true -> PrimFloat.leb x y = true.
Proof.
  rewrite ltb_rank, leb_rank. intros (a & b & Ha & Hb & H).
  exists a, b. repeat split; try assumption. congruence.
Qed.

Lemma sql_float_eqb_rank x y :
  sql_float_eqb x y = true <-> float_rank (Prim2SF x) = float_rank (Prim2SF y).
Proof.
  unfold sql_float_eqb, PrimFloat.is_nan.
  rewrite !FloatAxioms.eqb_spec. unfold SFeqb. rewrite !SFcompare_rank.
  destruct (float_rank (Prim2SF x)) as [a|], (float_rank (Prim2SF y)) as [b|].
  - rewrite (proj2 (rank_compare_eq a a) eq_refl),
      (proj2 (rank_compare_eq b b) eq_refl).
    cbn [negb andb]. rewrite orb_false_r.
    pose proof (rank_compare_eq a b) as Hab.
    destruct (rank_compare a b); split; intros H; try discriminate;
      try reflexivity.
    + f_equal. apply Hab. reflexivity.
    + injection H as H. apply Hab in H. discriminate.
    + injection H as H. apply Hab in H. discriminate.
  - rewrite (proj2 (rank_compare_eq a a) eq_refl). cbn. split; discriminate.
  - rewrite (proj2 (rank_compare_eq b b) eq_refl). cbn. split; discriminate.
  - cbn. split; reflexivity.
Qed.

Lemma sql_float_eqb_sym x y : sql_float_eqb x y = sql_float_eqb y x.
Proof.
  apply eq_true_iff_eq. rewrite !sql_float_eqb_rank. split; intros H; symmetry; exact H.
Qed.

Lemma sql_float_eqb_trans x y z :
  sql_float_eqb x y = true -> sql_float_eqb y z = true -> sql_float_eqb x z = true.
Proof. rewrite !sql_float_eqb_rank. congruence. Qed.

Lemma not_nan_Forall values :
  Forall (fun x => PrimFloat.is_nan x = false) (not_nan values).
Proof.
  unfold not_nan. apply List.Forall_forall. intros x Hin.
  apply filter_In in Hin. destruct Hin as [_ H].
  apply negb_true_iff in H. exact H.
Qed.

Lemma fold_float_max_bounds rest : forall x,
  Forall (fun y => PrimFloat.is_nan y = false) (x :: rest) ->
  In (fold_left float_max rest x) (x :: rest)
  /\ Forall (fun y => PrimFloat.leb y (fold_left float_max rest x) = true) (x :: rest).
Proof.
  induction rest as [|y rest IH]; intros x Hvalid.
  - cbn. split; [left; reflexivity|]. constructor; [|constructor].
    apply float_leb_refl. inversion Hvalid; assumption.
  - cbn [fold_left].
    inversion Hvalid as [|? ? Hx Hrest]; subst.
    inversion Hrest as [|? ? Hy Hrest']; subst.
    assert (Hacc : PrimFloat.is_nan (float_max x y) = false)
      by (unfold float_max; destruct (PrimFloat.ltb x y); assumption).
    destruct (IH (float_max x y)) as [Hin Hall]; [constructor; assumption|].
    inversion Hall as [|? ? Hhead Htail]; subst.
    assert (Hxy : PrimFloat.leb x (float_max x y) = true
                  /\ PrimFloat.leb y (float_max x y) = true).
    { unfold float_max. destruct (PrimFloat.ltb x y) eqn:Hlt.
      - split; [apply float_ltb_leb', Hlt|apply float_leb_refl, Hy].
      - split; [apply float_leb_refl, Hx|apply float_ltb_leb; assumption]. }
    split.
    + destruct Hin as [Hin|Hin]; [|right; right; exact Hin].
      rewrite <- Hin. unfold float_max.
      destruct (PrimFloat.ltb x y); [right; left|left]; reflexivity.
    + constructor; [eapply float_leb_trans; [apply Hxy|exact Hhead]|].
      constructor; [eapply float_leb_trans; [apply Hxy|exact Hhead]|exact Htail].
Qed.

Lemma fold_float_min_bounds rest : forall x,
  Forall (fun y => PrimFloat.is_nan y = false) (x :: rest) ->
  In (fold_left float_min rest x) (x :: rest)
  /\ Forall (fun y => PrimFloat.leb (fold_left float_min rest x) y = true) (x :: rest).
Proof.
  induction rest as [|y rest IH]; intros x Hvalid.
  - cbn. split; [left; reflexivity|]. constructor; [|constructor].
    apply float_leb_refl. inversion Hvalid; assumption.
  - cbn [fold_left].
    inversion Hvalid as [|? ? Hx Hrest]; subst.
    inversion Hrest as [|? ? Hy Hrest']; subst.
    assert (Hacc : PrimFloat.is_nan (float_min x y) = false)
      by (unfold float_min; destruct (PrimFloat.ltb y x); assumption).
    destruct (IH (float_min x y)) as [Hin Hall]; [constructor; assumption|].
    inversion Hall as [|? ? Hhead Htail]; subst.
    assert (Hxy : PrimFloat.leb (float_min x y) x = true
                  /\ PrimFloat.leb (float_min x y) y = true).
    { unfold float_min. destruct (PrimFloat.ltb y x) eqn:Hlt.
      - split; [apply float_ltb_leb', Hlt|apply float_leb_refl, Hy].
      - split; [apply float_leb_refl, Hx|apply float_ltb_leb; assumption]. }
    split.
    + destruct Hin as [Hin|Hin]; [|right; right; exact Hin].
      rewrite <- Hin. unfold float_min.
      destruct (PrimFloat.ltb y x); [right; left|left]; reflexivity.
    + constructor; [eapply float_leb_trans; [exact Hhead|apply Hxy]|].
      constructor; [eapply float_leb_trans; [exact Hhead|apply Hxy]|exact Htail].
Qed.

(** X8: _create_profile_model: data_points is the number of pressures that
    are not NaN; max_pressure and min_pressure are None exactly when there is
    no such pressure, and otherwise are valid pressures of the profile that
    bound all the valid pressures from above and from below; quality_flag is
    'A' exactly when position_qc is '1'. *)
Theorem profile_model_statistics profile float_model :
  let model := _create_profile_model profile float_model in
  let valid :=
    match ArgoProfile.pressure profile with
    | Some pressure => not_nan pressure
    | None => []
    end in
  DbArgoProfile.data_points model = Some (Z.of_nat (length valid))
  /\ (DbArgoProfile.max_pressure model = None <-> valid = [])
  /\ (DbArgoProfile.min_pressure model = None <-> valid = [])
  /\ (forall hi,
        DbArgoProfile.max_pressure model = Some hi ->
        In hi valid /\ Forall (fun x => PrimFloat.leb x hi = true) valid)
  /\ (forall lo,
        DbArgoProfile.min_pressure model = Some lo ->
        In lo valid /\ Forall (fun x => PrimFloat.leb lo x = true) valid)
  /\ (DbArgoProfile.quality_flag model = Some "A"
      <-> ArgoProfile.position_qc profile = Some "1").
Proof.
  cbv zeta. unfold _create_profile_model. cbn.
  destruct (ArgoProfile.pressure profile) as [pressure|].
  2:{ split; [reflexivity|]. split; [tauto|]. split; [tauto|].
      split; [discriminate|]. split; [discriminate|].
      destruct (bool_decide_reflect (ArgoProfile.position_qc profile = Some "1"));
        split; intros H; congruence. }
  unfold np_nanmax, np_nanmin.
  pose proof (not_nan_Forall pressure) as Hvalid.
  destruct (not_nan pressure) as [|x rest] eqn:Hnn.
  - cbn. split; [reflexivity|]. split; [tauto|]. split; [tauto|].
    split; [discriminate|]. split; [discriminate|].
    destruct (bool_decide_reflect (ArgoProfile.position_qc profile = Some "1"));
      split; intros H; congruence.
  - destruct (Z.ltb_spec 0 (Z.of_nat (length (x :: rest)))) as [_|Hlen];
      [|cbn [length] in Hlen; lia].
    split; [reflexivity|].
    split; [split; discriminate|]. split; [split; discriminate|].
    split; [intros hi [= <-]; apply fold_float_max_bounds, Hvalid|].
    split; [intros lo [= <-]; apply fold_float_min_bounds, Hvalid|].
    destruct (bool_decide_reflect (ArgoProfile.position_qc profile = Some "1"));
      split; intros H; congruence.
Qed.

Lemma level_candidate_profile_id profile pressure level_idx :
  ArgoMeasurement.profile_id (level_candidate profile pressure level_idx)
  = ArgoProfile.profile_id profile.
Proof.
  unfold level_candidate, _add_optional_measurements, _add_salinity_data,
    _add_temperature_data.
  repeat frame_step.
  destruct (ArgoProfile.pressure_qc profile) as [qc|];
    [destruct (qc !! level_idx)|]; reflexivity.
Qed.

Lemma level_candidate_depth profile pressure level_idx :
  ArgoMeasurement.depth (level_candidate profile pressure level_idx)
  = Some (_pressure_to_depth pressure).
Proof.
  unfold level_candidate, _add_optional_measurements, _add_salinity_data,
    _add_temperature_data.
  repeat frame_step.
  destruct (ArgoProfile.pressure_qc profile) as [qc|];
    [destruct (qc !! level_idx)|]; reflexivity.
Qed.

(** The pressures of the levels kept, in the order of the levels. *)
Lemma kept_levels_sublist {B : Type} (f : nat -> option B) (g : B -> float)
  (pressures : list float) : forall first,
  (forall i b, f (first + i)%nat = Some b -> pressures !! i = Some (g b)) ->
  sublist (map g (omap f (seq first (length pressures)))) pressures.
Proof.
  induction pressures as [|p rest IH]; intros first Hf; [constructor|].
  cbn [length seq omap list_omap].
  assert (Hrest : sublist (map g (omap f (seq (S first) (length rest)))) rest).
  { apply IH. intros i b Hb. apply (Hf (S i) b).
    rewrite <- Hb. f_equal. lia. }
  destruct (f first) as [b|] eqn:Hb.
  - cbn [map]. specialize (Hf 0%nat b). rewrite Nat.add_0_r in Hf.
    specialize (Hf Hb). cbn in Hf. injection Hf as ->.
    apply sublist_skip, Hrest.
  - apply sublist_cons, Hrest.
Qed.

(** X9: _create_measurement_models: every measurement built carries the
    profile id of the profile, a pressure that is not NaN, a depth and at
    least one reading; the pressures of the measurements are a subsequence
    of the pressures of the profile, so no level is duplicated or
    reordered. *)
Theorem measurement_models_wellformed profile profile_model :
  let measurements := _create_measurement_models profile profile_model in
  Forall
    (fun m =>
       ArgoMeasurement.profile_id m = ArgoProfile.profile_id profile
       /\ np_isnan (ArgoMeasurement.pressure m) = false
       /\ ArgoMeasurement.depth m <> None
       /\ _has_valid_data m = true)
    measurements
  /\ sublist (map ArgoMeasurement.pressure measurements)
       (default [] (ArgoProfile.pressure profile))
  /\ (length measurements <= length (default [] (ArgoProfile.pressure profile)))%nat.
Proof.
  cbv zeta. unfold _create_measurement_models.
  destruct (ArgoProfile.pressure profile) as [pressures|]; cbn [default].
  2:{ split; [constructor|]. split; [constructor|]. cbn. lia. }
  rewrite measurement_loop_omap.
  assert (Hlevel : forall i m,
            level_measurement profile pressures i = Some m ->
            pressures !! i = Some (ArgoMeasurement.pressure m)
            /\ ArgoMeasurement.profile_id m = ArgoProfile.profile_id profile
            /\ np_isnan (ArgoMeasurement.pressure m) = false
            /\ ArgoMeasurement.depth m <> None
            /\ _has_valid_data m = true).
  { intros i m Hm.
    destruct (pressures !! i) as [pressure|] eqn:Hp;
      [|unfold level_measurement in Hm; rewrite Hp in Hm; discriminate].
    rewrite (level_measurement_candidate _ _ _ _ Hp) in Hm.
    destruct (np_isnan pressure) eqn:Hnan; [discriminate|].
    destruct (_has_valid_data (level_candidate profile pressure i)) eqn:Hvalid;
      [|discriminate].
    injection Hm as <-.
    rewrite level_candidate_pressure, level_candidate_profile_id,
      level_candidate_depth.
    repeat split; try assumption. discriminate. }
  assert (Hsub : sublist
            (map ArgoMeasurement.pressure
               (omap (level_measurement profile pressures) (seq 0 (length pressures))))
            pressures).
  { apply kept_levels_sublist. intros i m Hm. apply Hlevel in Hm. tauto. }
  split; [|split; [exact Hsub|]].
  - apply List.Forall_forall. intros m Hin.
    apply list_elem_of_In, list_elem_of_omap in Hin.
    destruct Hin as (i & _ & Hm). apply Hlevel in Hm. tauto.
  - apply sublist_length in Hsub. rewrite length_map in Hsub. exact Hsub.
Qed.

Lemma count_qc_flags_fold flags : forall stats,
  let stats' := fold_left count_qc_flag flags stats in
  QCStats.total_measurements stats' = QCStats.total_measurements stats
  /\ QCStats.good_quality stats'
     = QCStats.good_quality stats + count_flags ["1"; "2"] flags
  /\ QCStats.questionable_quality stats'
     = QCStats.questionable_quality stats + count_flags ["3"] flags
  /\ QCStats.bad_quality stats'
     = QCStats.bad_quality stats + count_flags ["4"] flags
  /\ QCStats.missing_qc stats'
     = QCStats.missing_qc stats
       + (Z.of_nat (length flags) - count_flags ["1"; "2"; "3"; "4"] flags).
Proof.
  induction flags as [|flag rest IH]; intros stats; cbv zeta.
  - unfold count_flags. cbn. repeat split; lia.
  - cbn [fold_left]. specialize (IH (count_qc_flag stats flag)). cbv zeta in IH.
    destruct IH as (Ht & Hg & Hq & Hb & Hm).
    rewrite Ht, Hg, Hq, Hb, Hm. clear Ht Hg Hq Hb Hm.
    unfold count_flags, count_qc_flag, string_in.
    cbn [List.filter existsb QCFlag_value length].
    destruct (String.eqb_spec flag "1") as [->|H1]; [cbn; repeat split; lia|].
    destruct (String.eqb_spec flag "2") as [->|H2]; [cbn; repeat split; lia|].
    destruct (String.eqb_spec flag "3") as [->|H3]; [cbn; repeat split; lia|].
    destruct (String.eqb_spec flag "4") as [->|H4]; [cbn; repeat split; lia|].
    cbn. repeat split; lia.
Qed.

(** X10: validate_qc_flags: total_measurements is the number of pressure
    levels; good, questionable and bad count the temperature flags '1' or
    '2', '3' and '4'; every other flag is counted as missing, so the four
    counters add up to the number of temperature flags.  Without pressures
    all counters are zero. *)
Theorem validate_qc_flags_counts profile :
  let stats := validate_qc_flags profile in
  let flags :=
    match ArgoProfile.pressure profile, ArgoProfile.temperature_qc profile with
    | Some _, Some temperature_qc => temperature_qc
    | _, _ => []
    end in
  QCStats.total_measurements stats
  = Z.of_nat (length (default [] (ArgoProfile.pressure profile)))
  /\ QCStats.good_quality stats = count_flags ["1"; "2"] flags
  /\ QCStats.questionable_quality stats = count_flags ["3"] flags
  /\ QCStats.bad_quality stats = count_flags ["4"] flags
  /\ QCStats.good_quality stats + QCStats.questionable_quality stats
     + QCStats.bad_quality stats + QCStats.missing_qc stats
     = Z.of_nat (length flags)
  /\ 0 <= QCStats.missing_qc stats.
Proof.
  cbv zeta. unfold validate_qc_flags.
  destruct (ArgoProfile.pressure profile) as [pressure|];
    [|cbn; repeat split; lia].
  destruct (ArgoProfile.temperature_qc profile) as [flags|];
    [|cbn; repeat split; lia].
  match goal with
  | |- context [fold_left count_qc_flag flags ?s] =>
    destruct (count_qc_flags_fold flags s) as (Ht & Hg & Hq & Hb & Hm)
  end.
  rewrite Ht, Hg, Hq, Hb, Hm. cbn [QCStats.total_measurements QCStats.good_quality
    QCStats.questionable_quality QCStats.bad_quality QCStats.missing_qc default].
  assert (Hsplit : count_flags ["1"; "2"; "3"; "4"] flags
                   = count_flags ["1"; "2"] flags + count_flags ["3"] flags
                     + count_flags ["4"] flags
                   /\ count_flags ["1"; "2"; "3"; "4"] flags
                      <= Z.of_nat (length flags)).
  { unfold count_flags, string_in. clear.
    induction flags as [|flag rest IH]; [cbn; lia|].
    cbn [List.filter existsb] in IH |- *.
    destruct (String.eqb_spec flag "1") as [->|H1]; [cbn [orb length String.eqb Ascii.eqb Bool.eqb andb] in *; lia|].
    destruct (String.eqb_spec flag "2") as [->|H2]; [cbn [orb length String.eqb Ascii.eqb Bool.eqb andb] in *; lia|].
    destruct (String.eqb_spec flag "3") as [->|H3]; [cbn [orb length String.eqb Ascii.eqb Bool.eqb andb] in *; lia|].
    destruct (String.eqb_spec flag "4") as [->|H4]; [cbn [orb length String.eqb Ascii.eqb Bool.eqb andb] in *; lia|].
    cbn [orb length] in *. lia. }
  repeat split; lia.
Qed.

(** X11: _get_or_create_float: the model returned for a float is cached, and
    every later sighting of the same float by the same mapper returns that
    model unchanged, whatever the later profile holds.  A float found in the
    database gets its profile count raised by one and a date range that
    contains the date of the profile, while its identity, status and
    deployment date stay. *)
Theorem float_cache_freezes_model profile session cache :
  let float_model := fst (_get_or_create_float profile session cache) in
  let cache' := snd (_get_or_create_float profile session cache) in
  cache' !! ArgoProfile.float_id profile = Some float_model
  /\ (forall other,
        ArgoProfile.float_id other = ArgoProfile.float_id profile ->
        _get_or_create_float other session cache' = (float_model, cache'))
  /\ (forall key, key <> ArgoProfile.float_id profile -> cache' !! key = cache !! key)
  /\ (cache !! ArgoProfile.float_id profile = None ->
      forall found,
        query_float session (ArgoProfile.float_id profile) = Some found ->
        ArgoFloat.total_profiles float_model
        = Some (default 0 (ArgoFloat.total_profiles found) + 1)
        /\ ArgoFloat.float_id float_model = ArgoFloat.float_id found
        /\ ArgoFloat.platform_number float_model = ArgoFloat.platform_number found
        /\ ArgoFloat.project_name float_model = ArgoFloat.project_name found
        /\ ArgoFloat.pi_name float_model = ArgoFloat.pi_name found
        /\ ArgoFloat.status float_model = ArgoFloat.status found
        /\ ArgoFloat.deployment_date float_model = ArgoFloat.deployment_date found
        /\ (exists first last,
              ArgoFloat.first_profile_date float_model = Some first
              /\ ArgoFloat.last_profile_date float_model = Some last
              /\ first <= ArgoProfile.date_time profile <= last)).
Proof.
  cbv zeta. unfold _get_or_create_float.
  destruct (cache !! ArgoProfile.float_id profile) as [cached|] eqn:Hcache;
    cbn [fst snd].
  - split; [exact Hcache|]. split; [|split; [reflexivity|discriminate]].
    intros other Hsame. rewrite Hsame, Hcache. reflexivity.
  - split; [apply lookup_insert_eq|]. split; [|split].
    + intros other Hsame. rewrite Hsame, lookup_insert_eq. reflexivity.
    + intros key Hkey. apply lookup_insert_ne. congruence.
    + intros _ found Hquery. rewrite Hquery. unfold update_float.
      destruct found as [fid pn wn prj pi inst wit st dd lcd llat llon tp fpd lpd ca ua].
      cbn [ArgoFloat.total_profiles ArgoFloat.first_profile_date
           ArgoFloat.last_profile_date ArgoFloat.last_contact_date
           ArgoFloat.float_id ArgoFloat.platform_number ArgoFloat.project_name
           ArgoFloat.pi_name ArgoFloat.status ArgoFloat.deployment_date].
      destruct (None_or_before lcd (ArgoProfile.date_time profile)); cbn;
        (destruct fpd as [first|]; cbn;
         [destruct (Z.ltb_spec (ArgoProfile.date_time profile) first); cbn|]);
        (destruct lpd as [last|]; cbn;
         [destruct (Z.ltb_spec last (ArgoProfile.date_time profile)); cbn|]);
        repeat (split; [reflexivity|]);
        eexists _, _; (split; [reflexivity|]); (split; [reflexivity|]); lia.
Qed.

Lemma query_float_id session float_id found :
  query_float session float_id = Some found -> ArgoFloat.float_id found = float_id.
Proof.
  unfold query_float. intros H. apply find_some in H. destruct H as [_ H].
  apply bool_decide_eq_true in H. exact H.
Qed.

Lemma update_float_id profile found :
  ArgoFloat.float_id (update_float profile found) = ArgoFloat.float_id found.
Proof.
  unfold update_float.
  destruct (None_or_before (ArgoFloat.last_contact_date found) _); cbn;
    destruct (None_or_after _ _); cbn;
    destruct (None_or_before _ _); reflexivity.
Qed.

Lemma get_or_create_float_id profile session cache :
  cache_keyed cache ->
  ArgoFloat.float_id (fst (_get_or_create_float profile session cache))
  = ArgoProfile.float_id profile
  /\ cache_keyed (snd (_get_or_create_float profile session cache)).
Proof.
  intros Hcache. unfold _get_or_create_float.
  destruct (cache !! ArgoProfile.float_id profile) as [cached|] eqn:Hlookup.
  - cbn. split; [apply Hcache, Hlookup|exact Hcache].
  - cbn [fst snd].
    assert (Hid : ArgoFloat.float_id
                    match query_float session (ArgoProfile.float_id profile) with
                    | Some found => update_float profile found
                    | None => new_float profile
                    end = ArgoProfile.float_id profile).
    { destruct (query_float session _) as [found|] eqn:Hquery; [|reflexivity].
      rewrite update_float_id. apply query_float_id in Hquery. exact Hquery. }
    split; [exact Hid|].
    intros key float_model Hkey.
    destruct (decide (ArgoProfile.float_id profile = key)) as [<-|Hne].
    + rewrite lookup_insert_eq in Hkey. injection Hkey as <-. exact Hid.
    + rewrite lookup_insert_ne in Hkey by exact Hne. apply Hcache, Hkey.
Qed.

Lemma map_profiles_loop_models profiles session : forall cache,
  cache_keyed cache ->
  let '(floats, db_profiles, _) := map_profiles_loop profiles session cache in
  map ArgoFloat.float_id floats = map ArgoProfile.float_id profiles
  /\ db_profiles
     = map (fun profile => _create_profile_model profile (new_float profile)) profiles.
Proof.
  induction profiles as [|profile rest IH]; intros cache Hcache; [split; reflexivity|].
  cbn [map_profiles_loop]. unfold map_profile_to_models.
  destruct (get_or_create_float_id profile session cache Hcache) as [Hid Hcache'].
  destruct (_get_or_create_float profile session cache) as [float_model cache'].
  cbn [fst snd] in *. specialize (IH cache' Hcache').
  destruct (map_profiles_loop rest session cache') as [[floats db_profiles] ms].
  destruct IH as [Hfloats Hprofiles]. cbn [map].
  rewrite Hid, Hfloats, Hprofiles. split; reflexivity.
Qed.

Lemma dict_set_keys {V : Type} (k : option string) (v : V) d :
  NoDup (map fst d) ->
  NoDup (map fst (dict_set (fun a b => bool_decide (a = b)) k v d))
  /\ (forall key, In key (map fst (dict_set (fun a b => bool_decide (a = b)) k v d))
                  <-> key = k \/ In key (map fst d)).
Proof.
  induction d as [|[k' v'] rest IH]; intros Hnodup.
  - cbn. split; [repeat constructor; set_solver|]. intros key. split.
    + intros [<-|[]]. left. reflexivity.
    + intros [->|[]]. left. reflexivity.
  - cbn [dict_set]. cbn [map fst] in Hnodup. apply NoDup_cons in Hnodup.
    destruct Hnodup as [Hk' Hrest].
    destruct (bool_decide_reflect (k = k')) as [<-|Hne].
    + cbn [map fst]. split; [apply NoDup_cons; split; assumption|].
      intros key. cbn. split; intros H; intuition congruence.
    + destruct (IH Hrest) as [Hnodup' Hkeys]. cbn [map fst]. split.
      * apply NoDup_cons. split; [|exact Hnodup'].
        rewrite list_elem_of_In, Hkeys. rewrite list_elem_of_In in Hk'.
        intros [Heq|Hin]; [congruence|contradiction].
      * intros key. cbn [In]. rewrite Hkeys. split; intros H; intuition congruence.
Qed.

Lemma unique_floats_keys floats : forall unique,
  NoDup (map fst unique) ->
  let unique' :=
    fold_left
      (fun unique float_model =>
         dict_set (fun a b => bool_decide (a = b))
           (ArgoFloat.float_id float_model) float_model unique)
      floats unique in
  NoDup (map fst unique')
  /\ (forall key, In key (map fst unique')
                  <-> In key (map ArgoFloat.float_id floats) \/ In key (map fst unique))
  /\ (Forall (fun kv => ArgoFloat.float_id (snd kv) = fst kv) unique ->
      Forall (fun kv => ArgoFloat.float_id (snd kv) = fst kv) unique').
Proof.
  induction floats as [|float_model rest IH]; intros unique Hnodup; cbv zeta.
  - cbn. split; [exact Hnodup|]. split; [tauto|auto].
  - cbn [fold_left map].
    destruct (dict_set_keys (ArgoFloat.float_id float_model) float_model unique Hnodup)
      as [Hnodup' Hkeys].
    destruct (IH _ Hnodup') as (Hn & Hk & Hf). cbv zeta in Hn, Hk, Hf.
    split; [exact Hn|]. split.
    + intros key. rewrite Hk, Hkeys. cbn [In]. split; intros H; intuition congruence.
    + intros Hall. apply Hf. clear - Hall.
      induction unique as [|[k v] unique IH]; cbn [dict_set].
      * repeat constructor.
      * inversion Hall; subst.
        destruct (bool_decide _); constructor; cbn; auto.
Qed.


(** ** database_ops.py *)

Lemma same_profile_identity_refl row : same_profile_identity row row.
Proof. unfold same_profile_identity. repeat split; reflexivity. Qed.

Lemma profile_set_frame row excluded :
  same_profile_identity row (profile_set_ row excluded).
Proof. unfold same_profile_identity. repeat split; reflexivity. Qed.

Lemma profile_conflict_key e row :
  profile_conflict e row = true
  -> DbArgoProfile.profile_id e = DbArgoProfile.profile_id row.
Proof. unfold profile_conflict. apply String.eqb_eq. Qed.

(** X13: _upsert_profiles, for profiles with distinct profile ids: a
    statement that the engine rejects changes nothing.  One that it accepts
    returns the number of profiles sent and leaves the old rows in place,
    followed by the proposed profiles whose id was not there, each with the
    eleven proposed values.  An old row whose id is not proposed is
    unchanged; an old row in conflict takes data_mode, data_points,
    max_pressure, min_pressure and quality_flag from the proposed profile
    and keeps its identity, date and position.  The other tables are
    untouched. *)
Theorem upsert_profiles_effect execute_raises now profiles session :
  NoDup (map DbArgoProfile.profile_id profiles) ->
  let statement := UpsertProfiles (map (profile_dict now) profiles) in
  let out := _upsert_profiles execute_raises now profiles session in
  (forall e, profiles <> [] -> execute_raises session statement = Some e ->
             out = (Raise e, session))
  /\ (execute_raises session statement = None ->
      fst out = Return (Z.of_nat (length profiles))
      /\ (exists updated,
            argo_profiles (snd out)
            = (updated
               ++ map (profile_dict now)
                    (List.filter
                       (fun p =>
                          negb (existsb (profile_conflict (profile_dict now p))
                                  (argo_profiles session)))
                       profiles))%list
            /\ Forall2
                 (fun row row' =>
                    same_profile_identity row row'
                    /\ match find (fun p => profile_conflict (profile_dict now p) row)
                               profiles with
                       | Some p =>
                         DbArgoProfile.data_mode row' = DbArgoProfile.data_mode p
                         /\ DbArgoProfile.data_points row'
                            = DbArgoProfile.data_points p
                         /\ DbArgoProfile.max_pressure row'
                            = DbArgoProfile.max_pressure p
                         /\ DbArgoProfile.min_pressure row'
                            = DbArgoProfile.min_pressure p
                         /\ DbArgoProfile.quality_flag row'
                            = DbArgoProfile.quality_flag p
                       | None => row' = row
                       end)
                 (argo_profiles session) updated)
      /\ argo_floats (snd out) = argo_floats session
      /\ argo_measurements (snd out) = argo_measurements session
      /\ data_ingestion_logs (snd out) = data_ingestion_logs session).
Proof.
  intros Hdistinct statement out. apply NoDup_ListNoDup in Hdistinct.
  subst statement out. unfold _upsert_profiles.
  split.
  - intros e Hsome Hraises. destruct profiles as [|p ps]; [contradiction|].
    rewrite Hraises. reflexivity.
  - intros Haccepts.
    assert (Hout :
      (match profiles with
       | [] => (Return 0, session)
       | _ :: _ =>
         match execute_raises session
                 (UpsertProfiles (map (profile_dict now) profiles)) with
         | Some e => (Raise e, session)
         | None =>
           (Return (Z.of_nat (length (map (profile_dict now) profiles))),
            set_argo_profiles
              (fold_left (on_conflict_do_update profile_conflict profile_set_)
                 (map (profile_dict now) profiles) (argo_profiles session)) session)
         end
       end)
      = (Return (Z.of_nat (length profiles)),
         set_argo_profiles
           (fold_left (on_conflict_do_update profile_conflict profile_set_)
              (map (profile_dict now) profiles) (argo_profiles session)) session)).
    { destruct profiles as [|p ps].
      - cbn. destruct session; reflexivity.
      - rewrite Haccepts, length_map. reflexivity. }
    rewrite Hout. cbn [fst snd argo_floats argo_profiles argo_measurements
                       data_ingestion_logs set_argo_profiles].
    split; [reflexivity|]. split; [|repeat split].
    rewrite (upserts_effect profile_conflict profile_set_ DbArgoProfile.profile_id);
      [|reflexivity|exact profile_conflict_key|rewrite map_map; exact Hdistinct].
    unfold rows_added. rewrite filter_map_swap.
    eexists. split; [reflexivity|].
    apply Forall2_map_of. intros row. unfold row_after. rewrite find_map.
    destruct (find _ profiles) as [p|]; cbn [option_map].
    + split; [apply profile_set_frame|]. repeat split.
    + split; [apply same_profile_identity_refl|reflexivity].
Qed.

Lemma upsert_profiles_witness :
  let out :=
    _upsert_profiles never_raises (26664 * nanoseconds_per_day) [proposed_profile]
      store_with_profile in
  fst out = Return 1
  /\ exists row',
       argo_profiles (snd out) = [row']
       /\ same_profile_identity stored_profile row'
       /\ DbArgoProfile.data_mode row' = DbArgoProfile.data_mode proposed_profile
       /\ DbArgoProfile.data_points row' = DbArgoProfile.data_points proposed_profile.
Proof.
  cbv zeta.
  destruct (upsert_profiles_effect never_raises (26664 * nanoseconds_per_day)
              [proposed_profile] store_with_profile
              ltac:(apply NoDup_singleton))
    as (_ & Haccepted).
  destruct (Haccepted eq_refl) as (Hcount & (updated & Htable & Hrows) & _).
  split; [exact Hcount|].
  change (argo_profiles store_with_profile) with [stored_profile] in Hrows.
  inversion Hrows as [|row row' rest rest' Hrow Hrest]; subst.
  inversion Hrest; subst.
  exists row'. split; [exact Htable|].
  destruct Hrow as (Hidentity & Hcolumns). split; [exact Hidentity|].
  change (find _ [proposed_profile]) with (Some proposed_profile) in Hcolumns.
  destruct Hcolumns as (Hmode & Hpoints & _). split; assumption.
Defined.

(** The row after that upsert: the position and the date are the stored
    ones, the five descriptive columns the proposed ones; and a profile with
    a new id is appended. *)
Example profile_upsert_on_conflict :
  map (fun row => (DbArgoProfile.latitude row, DbArgoProfile.measurement_date row,
                   DbArgoProfile.data_points row, DbArgoProfile.data_mode row))
    (argo_profiles
       (snd (_upsert_profiles never_raises (26664 * nanoseconds_per_day)
               [proposed_profile] store_with_profile)))
  = [(45.5%float, 26600 * nanoseconds_per_day, Some 4, Some "D")]
  /\ map DbArgoProfile.profile_id
       (argo_profiles
          (snd (_upsert_profiles never_raises (26664 * nanoseconds_per_day)
                  [proposed_profile] empty_store)))
     = [DbArgoProfile.profile_id proposed_profile].
Proof. vm_compute. split; reflexivity. Qed.

Lemma slices_lookup {A : Type} (size : nat) : forall fuel (l : list A) i,
  (0 < size)%nat -> (length l <= fuel)%nat ->
  slices fuel size l !! i
  = if (i * size <? length l)%nat
    then Some (firstn size (skipn (i * size) l)) else None.
Proof.
  induction fuel as [|fuel IH]; intros l i Hsize Hfuel.
  - destruct l; [|cbn in Hfuel; lia]. cbn.
    destruct (Nat.ltb_spec (i * size) 0); [lia|reflexivity].
  - destruct l as [|x l].
    + cbn. destruct (Nat.ltb_spec (i * size) 0); [lia|reflexivity].
    + cbn [slices]. destruct i as [|i].
      * cbn. reflexivity.
      * cbn [lookup list_lookup]. change (slices fuel size (skipn size (x :: l)) !! i
          = if (S i * size <? length (x :: l))%nat
            then Some (firstn size (skipn (S i * size) (x :: l))) else None).
        rewrite IH by (try rewrite length_skipn; cbn [length] in *; lia).
        rewrite length_skipn.
        replace (S i * size)%nat with (i * size + size)%nat by lia.
        rewrite <- skipn_skipn.
        destruct (Nat.ltb_spec (i * size) (length (x :: l) - size));
          destruct (Nat.ltb_spec (i * size + size) (length (x :: l)));
          try lia; reflexivity.
Qed.

Lemma slices_length {A : Type} (size : nat) : forall fuel (l : list A),
  (0 < size)%nat -> (length l <= fuel)%nat ->
  Z.of_nat (length (slices fuel size l))
  = (Z.of_nat (length l) + Z.of_nat size - 1) / Z.of_nat size.
Proof.
  induction fuel as [|fuel IH]; intros l Hsize Hfuel.
  - destruct l; [|cbn in Hfuel; lia]. cbn [slices length].
    symmetry. apply Z.div_small. lia.
  - destruct l as [|x l].
    + cbn [slices length]. symmetry. apply Z.div_small. lia.
    + cbn [slices].
      change (length (firstn size (x :: l) :: slices fuel size (skipn size (x :: l))))
        with (S (length (slices fuel size (skipn size (x :: l))))).
      rewrite Nat2Z.inj_succ.
      rewrite IH by (try rewrite length_skipn; cbn [length] in *; lia).
      rewrite length_skipn.
      assert (Hn : (1 <= length (x :: l))%nat) by (cbn; lia).
      set (n := length (x :: l)) in *.
      destruct (Nat.le_gt_cases n size) as [Hshort|Hlong].
      * replace (n - size)%nat with 0%nat by lia.
        rewrite (Z.div_small (Z.of_nat 0 + Z.of_nat size - 1)) by lia.
        apply Z.div_unique with (r := Z.of_nat n - 1); lia.
      * rewrite Nat2Z.inj_sub by lia.
        replace (Z.of_nat n + Z.of_nat size - 1)
          with ((Z.of_nat n - Z.of_nat size + Z.of_nat size - 1)
                + 1 * Z.of_nat size) by lia.
        rewrite Z.div_add by lia. lia.
Qed.

(** X14: with a positive batch_size the batches of _bulk_insert_measurements
    are the consecutive slices of the measurement list: batch i is the
    batch_size rows from position i * batch_size, no batch is empty or longer
    than batch_size, together they give the list back, and their number is
    the rounded-up quotient. *)
Theorem batches_are_consecutive_slices config measurements :
  0 < batch_size config ->
  let size := Z.to_nat (batch_size config) in
  exists remaining,
    batches config measurements = Return remaining
    /\ concat remaining = measurements
    /\ (forall i batch,
          remaining !! i = Some batch ->
          batch = firstn size (skipn (i * size) measurements)
          /\ (1 <= length batch <= size)%nat)
    /\ Z.of_nat (length remaining)
       = (Z.of_nat (length measurements) + batch_size config - 1) / batch_size config.
Proof.
  intros Hpositive size. unfold batches.
  destruct (Z.eqb_spec (batch_size config) 0) as [H0|_]; [lia|].
  destruct (Z.ltb_spec (batch_size config) 0) as [Hneg|_]; [lia|].
  fold size. assert (Hsize : (0 < size)%nat) by (subst size; lia).
  eexists. split; [reflexivity|].
  split; [apply slices_concat; lia|]. split.
  - intros i batch Hbatch.
    rewrite slices_lookup in Hbatch by lia.
    destruct (Nat.ltb_spec (i * size) (length measurements)) as [Hlt|]; [|discriminate].
    injection Hbatch as <-. split; [reflexivity|].
    rewrite length_firstn, length_skipn. lia.
  - rewrite slices_length by lia. subst size. rewrite Z2Nat.id by lia. reflexivity.
Qed.

Lemma batches_witness :
  exists remaining,
    batches sample_config
      (flat_map profile_measurements [first_sighting; second_sighting])
    = Return remaining
    /\ Z.of_nat (length remaining) = 1.
Proof.
  destruct (batches_are_consecutive_slices sample_config
              (flat_map profile_measurements [first_sighting; second_sighting])
              ltac:(vm_compute; reflexivity))
    as (remaining & Hrun & _ & _ & Hcount).
  exists remaining. split; [exact Hrun|]. rewrite Hcount. vm_compute. reflexivity.
Defined.



Section UpsertAgain.
Context {R : Type}.
Variable same_key : R -> R -> bool.
Variable set_ : R -> R -> R.

Hypothesis set_keeps_key :
  forall e row excluded, same_key e (set_ row excluded) = same_key e row.
Hypothesis same_key_refl : forall e, same_key e e = true.
(** The last proposed row wins, and a row proposed for itself changes
    nothing. *)
Hypothesis set_last : forall row e1 e2, set_ (set_ row e1) e2 = set_ row e2.
Hypothesis set_self : forall e, set_ e e = e.

Lemma updated_by_cons d data row :
  updated_by same_key set_ (d :: data) row
  = updated_by same_key set_ data (if same_key d row then set_ row d else row).
Proof. reflexivity. Qed.

Lemma updated_by_key e data : forall row,
  same_key e (updated_by same_key set_ data row) = same_key e row.
Proof.
  induction data as [|d data IH]; intros row; [reflexivity|].
  rewrite !updated_by_cons.
  rewrite IH. destruct (same_key d row); [apply set_keeps_key|reflexivity].
Qed.

Lemma upserts_present data : forall table,
  (forall e, In e data -> existsb (same_key e) table = true) ->
  fold_left (on_conflict_do_update same_key set_) data table
  = map (updated_by same_key set_ data) table.
Proof.
  induction data as [|d data IH]; intros table Hpresent.
  - cbn. symmetry. apply map_id.
  - cbn [fold_left]. unfold on_conflict_do_update at 2.
    rewrite (Hpresent d) by (left; reflexivity).
    rewrite IH.
    + rewrite map_map. reflexivity.
    + intros e Hin. specialize (Hpresent e (or_intror Hin)).
      rewrite existsb_exists in *. destruct Hpresent as (row & Hrow & Hkey).
      exists (if same_key d row then set_ row d else row). split.
      * apply in_map_iff. exists row. split; [reflexivity|exact Hrow].
      * destruct (same_key d row); [rewrite set_keeps_key|]; exact Hkey.
Qed.

Lemma updated_by_unmatched data : forall row,
  existsb (fun e => same_key e row) data = false -> updated_by same_key set_ data row = row.
Proof.
  induction data as [|d data IH]; intros row H; [reflexivity|].
  cbn [existsb] in H. apply orb_false_elim in H. destruct H as [Hd Hrest].
  rewrite updated_by_cons, Hd. apply IH, Hrest.
Qed.

Lemma updated_by_overwritten data : forall row e,
  existsb (fun e' => same_key e' row) data = true ->
  updated_by same_key set_ data (set_ row e) = updated_by same_key set_ data row.
Proof.
  induction data as [|d data IH]; intros row e H; [discriminate|].
  cbn [existsb] in H. rewrite !updated_by_cons.
  rewrite set_keeps_key.
  destruct (same_key d row) eqn:Hd.
  - rewrite set_last. reflexivity.
  - cbn [orb] in H. apply IH, H.
Qed.

Lemma matched_after_set data row e :
  existsb (fun e' => same_key e' (set_ row e)) data
  = existsb (fun e' => same_key e' row) data.
Proof.
  induction data as [|d data IH]; [reflexivity|].
  cbn [existsb]. rewrite IH, set_keeps_key. reflexivity.
Qed.

Lemma upserts_keep_unmatched data : forall table row,
  In row (fold_left (on_conflict_do_update same_key set_) data table) ->
  existsb (fun e => same_key e row) data = false ->
  In row table.
Proof.
  induction data as [|d data IH]; intros table row Hin Hnone; [exact Hin|].
  cbn [existsb] in Hnone. apply orb_false_elim in Hnone.
  destruct Hnone as [Hd Hrest]. cbn [fold_left] in Hin.
  apply IH in Hin; [|exact Hrest].
  unfold on_conflict_do_update in Hin.
  destruct (existsb (same_key d) table).
  - apply in_map_iff in Hin. destruct Hin as (row0 & Heq & Hin0).
    destruct (same_key d row0) eqn:Hd0.
    + subst row. rewrite set_keeps_key in Hd. congruence.
    + subst row. exact Hin0.
  - apply in_app_or in Hin. destruct Hin as [Hin|[<-|[]]]; [exact Hin|].
    rewrite same_key_refl in Hd. discriminate.
Qed.

(** Every row of the table after a statement is left as it is by the same
    statement. *)
Lemma upserts_rows_settled data : forall table row,
  In row (fold_left (on_conflict_do_update same_key set_) data table) ->
  updated_by same_key set_ data row = row.
Proof.
  induction data as [|d data IH]; intros table row Hin; [reflexivity|].
  cbn [fold_left] in Hin. rewrite !updated_by_cons.
  pose proof (IH _ _ Hin) as Hsettled.
  destruct (same_key d row) eqn:Hd; [|exact Hsettled].
  destruct (existsb (fun e => same_key e row) data) eqn:Hlater.
  - rewrite updated_by_overwritten by exact Hlater. exact Hsettled.
  - rewrite updated_by_unmatched by (rewrite matched_after_set; exact Hlater).
    apply upserts_keep_unmatched in Hin; [|exact Hlater].
    unfold on_conflict_do_update in Hin.
    destruct (existsb (same_key d) table) eqn:Hex.
    + apply in_map_iff in Hin. destruct Hin as (row0 & Heq & _).
      destruct (same_key d row0) eqn:Hd0; subst row.
      * apply set_last.
      * congruence.
    + apply in_app_or in Hin. destruct Hin as [Hin|[<-|[]]]; [|apply set_self].
      assert (existsb (same_key d) table = true); [|congruence].
      apply existsb_exists. exists row. split; assumption.
Qed.

(** A second statement whose rows have the keys and the [set_] columns of
    the first leaves the table as the first made it. *)
Lemma updated_by_same data data' :
  Forall2 (fun e e' => (forall row, same_key e' row = same_key e row)
                       /\ (forall row, set_ row e' = set_ row e)) data data' ->
  forall row, updated_by same_key set_ data' row = updated_by same_key set_ data row.
Proof.
  induction 1 as [|e e' data data' [Hkey Hset] _ IH]; intros row; [reflexivity|].
  rewrite !updated_by_cons.
  rewrite Hkey, Hset. apply IH.
Qed.

Lemma upserts_again data data' table :
  Forall2 (fun e e' => (forall row, same_key e' row = same_key e row)
                       /\ (forall row, set_ row e' = set_ row e)) data data' ->
  let once := fold_left (on_conflict_do_update same_key set_) data table in
  fold_left (on_conflict_do_update same_key set_) data' once = once.
Proof.
  intros Hsame once.
  rewrite upserts_present.
  - rewrite <- (map_id once) at 2. apply map_ext_in. intros row Hrow.
    rewrite (updated_by_same data data' Hsame).
    apply (upserts_rows_settled data table row Hrow).
  - intros e' Hin'.
    assert (Hkeys : exists e, In e data /\ forall row, same_key e' row = same_key e row).
    { clear - Hsame Hin'. induction Hsame as [|e e0 data data' [Hkey _] _ IH];
        [destruct Hin'|].
      destruct Hin' as [<-|Hin'].
      - exists e. split; [left; reflexivity|exact Hkey].
      - destruct (IH Hin') as (e1 & Hin1 & Hk1). exists e1.
        split; [right; exact Hin1|exact Hk1]. }
    destruct Hkeys as (e & Hin & Hkey).
    pose proof (upserts_add_conflicts same_key set_ set_keeps_key same_key_refl
                  data table e Hin) as Hthere.
    fold once in Hthere. rewrite existsb_exists in *.
    destruct Hthere as (row & Hrow & Hmatch). exists row.
    rewrite Hkey. split; assumption.
Qed.
End UpsertAgain.

Lemma started_before_desc_irrefl a : started_before_desc a a = false.
Proof. destruct a; cbn; [apply Z.ltb_irrefl|reflexivity]. Qed.

Lemma started_before_desc_trans a b c :
  started_before_desc a b = true -> started_before_desc b c = true ->
  started_before_desc a c = true.
Proof.
  destruct a, b, c; cbn; try discriminate; try reflexivity.
  rewrite !Z.ltb_lt. lia.
Qed.

Lemma latest_row_fold rows : forall seen best,
  latest_of seen best ->
  latest_of (seen ++ rows)
    (fold_left
       (fun best row =>
          match best with
          | None => Some row
          | Some b =>
            if started_before_desc (DataIngestionLog.started_at row)
                 (DataIngestionLog.started_at b)
            then Some row else best
          end) rows best).
Proof.
  induction rows as [|x rest IH]; intros seen best Hbest.
  - rewrite app_nil_r. exact Hbest.
  - cbn [fold_left].
    replace (seen ++ x :: rest)%list with ((seen ++ [x]) ++ rest)%list
      by (rewrite <- app_assoc; reflexivity).
    apply IH. destruct best as [b|]; cbn in Hbest |- *.
    + destruct Hbest as [Hin Hfirst].
      destruct (started_before_desc (DataIngestionLog.started_at x)
                  (DataIngestionLog.started_at b)) eqn:Hx; cbn.
      * split; [apply in_or_app; right; left; reflexivity|].
        intros other Hother. apply in_app_or in Hother.
        destruct Hother as [Hother|[<-|[]]]; [|apply started_before_desc_irrefl].
        destruct (started_before_desc (DataIngestionLog.started_at other)
                    (DataIngestionLog.started_at x)) eqn:Hback; [|reflexivity].
        rewrite <- (Hfirst other Hother).
        symmetry. eapply started_before_desc_trans; eassumption.
      * split; [apply in_or_app; left; exact Hin|].
        intros other Hother. apply in_app_or in Hother.
        destruct Hother as [Hother|[<-|[]]]; [apply Hfirst, Hother|exact Hx].
    + subst seen. cbn. split; [left; reflexivity|].
      intros other [<-|[]]. apply started_before_desc_irrefl.
Qed.


Example timestamp_of_reference_date :
  timestamp {| datetime.year := 1950; datetime.month := 1; datetime.day := 1;
               datetime.hour := 0; datetime.minute := 0; datetime.second := 0;
               datetime.microsecond := 0 |} = 0
  /\ timestamp {| datetime.year := 2023; datetime.month := 1; datetime.day := 1;
                  datetime.hour := 0; datetime.minute := 0; datetime.second := 0;
                  datetime.microsecond := 0 |} = sample_today
  /\ timestamp (replace_midnight mid_november) = 27347 * nanoseconds_per_day.
Proof. vm_compute. repeat split; reflexivity. Qed.

(** X17: cleanup_old_logs deletes nothing and returns 0 whenever the day of
    the month minus [days] is not a day of the current month, in particular
    whenever [days] is at least the day of the month: [replace(day=...)]
    raises and the exception is swallowed. *)
Theorem cleanup_old_logs_day_out_of_month delete_raises utcnow days session :
  datetime.day utcnow <= days
  \/ days_in_month (datetime.year utcnow) (datetime.month utcnow)
     < datetime.day utcnow - days ->
  cleanup_old_logs delete_raises utcnow days session = (Return 0, session).
Proof.
  intros Hout. unfold cleanup_old_logs, cleanup_old_logs_try, db_try_except,
    replace_day.
  cbn [replace_midnight datetime.day datetime.year datetime.month].
  destruct (Z.leb_spec 1 (datetime.day utcnow - days));
    destruct (Z.leb_spec (datetime.day utcnow - days)
                (days_in_month (datetime.year utcnow) (datetime.month utcnow)));
    cbn [andb]; try reflexivity.
  lia.
Qed.

Lemma cleanup_old_logs_default_witness :
  cleanup_old_logs never_raises mid_november 30 old_logs_store
  = (Return 0, old_logs_store).
Proof.
  apply (cleanup_old_logs_day_out_of_month never_raises mid_november 30 old_logs_store).
  left. vm_compute. discriminate.
Defined.

(** X18: cleanup_old_logs, when the day of the month minus [days] is a day
    of the current month and the engine accepts the DELETE: exactly the rows
    that started before midnight of that day are removed, their number is
    returned, rows without a start time are kept and the other tables are
    untouched. *)
Theorem cleanup_old_logs_deletes_before_cutoff delete_raises utcnow days session :
  let cutoff :=
    timestamp {| datetime.year := datetime.year utcnow;
                 datetime.month := datetime.month utcnow;
                 datetime.day := datetime.day utcnow - days;
                 datetime.hour := 0; datetime.minute := 0; datetime.second := 0;
                 datetime.microsecond := 0 |} in
  1 <= datetime.day utcnow - days
    <= days_in_month (datetime.year utcnow) (datetime.month utcnow) ->
  delete_raises session cutoff = None ->
  exists count session',
    cleanup_old_logs delete_raises utcnow days session = (Return count, session')
    /\ data_ingestion_logs session'
       = List.filter (fun row => negb (started_before cutoff row))
           (data_ingestion_logs session)
    /\ count + Z.of_nat (length (data_ingestion_logs session'))
       = Z.of_nat (length (data_ingestion_logs session))
    /\ (forall row,
          In row (data_ingestion_logs session) ->
          (In row (data_ingestion_logs session')
           <-> match DataIngestionLog.started_at row with
               | Some started_at => cutoff <= started_at
               | None => True
               end))
    /\ argo_floats session' = argo_floats session
    /\ argo_profiles session' = argo_profiles session
    /\ argo_measurements session' = argo_measurements session.
Proof.
  intros cutoff Hday Haccepts.
  unfold cleanup_old_logs, cleanup_old_logs_try, db_try_except, replace_day.
  cbn [replace_midnight datetime.day datetime.year datetime.month datetime.hour
       datetime.minute datetime.second datetime.microsecond].
  destruct (Z.leb_spec 1 (datetime.day utcnow - days)); [|lia].
  destruct (Z.leb_spec (datetime.day utcnow - days)
              (days_in_month (datetime.year utcnow) (datetime.month utcnow))); [|lia].
  cbn [andb]. fold cutoff. rewrite Haccepts.
  eexists _, _. split; [reflexivity|].
  cbn [data_ingestion_logs set_data_ingestion_logs argo_floats argo_profiles
       argo_measurements].
  split; [reflexivity|]. split; [|split; [|repeat split]].
  - induction (data_ingestion_logs session) as [|row rest IH]; [reflexivity|].
    cbn [List.filter]. destruct (started_before cutoff row); cbn [negb length]; lia.
  - intros row Hin. rewrite filter_In. unfold started_before.
    destruct (DataIngestionLog.started_at row) as [started_at|].
    + destruct (Z.ltb_spec started_at cutoff); cbn; split; try tauto; try lia;
        intros [_ H']; discriminate.
    + cbn. tauto.
Qed.

Lemma cleanup_old_logs_cutoff_witness :
  exists count session',
    cleanup_old_logs never_raises mid_november 10 old_logs_store
    = (Return count, session')
    /\ data_ingestion_logs session'
       = [earlier_log "data/raw/argo/B.nc" "B.nc" "success"
            (27342 * nanoseconds_per_day)]
    /\ count = 1.
Proof.
  destruct (cleanup_old_logs_deletes_before_cutoff never_raises mid_november 10
              old_logs_store ltac:(vm_compute; split; discriminate) eq_refl)
    as (count & session' & Hrun & Hlogs & Hcount & _).
  exists count, session'. split; [exact Hrun|].
  split; [rewrite Hlogs; vm_compute; reflexivity|].
  rewrite Hlogs in Hcount. change (count + 1 = 2) in Hcount. lia.
Defined.

(** X19: get_database_stats returns the empty dictionary, whatever the
    database holds and whether or not its count queries fail: after the four
    counts its try block raises AttributeError (a mapped column has no
    attribute min), and the except branch returns {}.  So the database_stats
    entry of get_ingestion_statistics is always empty; the other two entries
    are the service's counters and four settings of the configuration, and
    the call leaves the database as it is. *)
Theorem get_database_stats_is_empty query_raises :
  (forall session, exists e, get_database_stats_try query_raises session = Raise e)
  /\ (forall session, get_database_stats query_raises session = [])
  /\ (forall config stats database,
        get_ingestion_statistics query_raises config stats database
        = ({| IngestionStatistics.processing_stats := stats;
              IngestionStatistics.database_stats := [];
              IngestionStatistics.configuration :=
                (batch_size config, max_workers config, input_directory config,
                 file_patterns config) |},
           database)).
Proof.
  assert (Hraises : forall session,
            exists e, get_database_stats_try query_raises session = Raise e).
  { intros session. unfold get_database_stats_try.
    destruct (query_raises session) as [e|]; eexists; reflexivity. }
  assert (Hempty : forall session, get_database_stats query_raises session = []).
  { intros session. unfold get_database_stats.
    destruct (Hraises session) as [e ->]. reflexivity. }
  split; [exact Hraises|]. split; [exact Hempty|].
  intros config stats database.
  unfold get_ingestion_statistics, get_session. cbn [tables SessionLocal].
  rewrite Hempty. reflexivity.
Qed.

(** The statistics of a database with two audit-log rows. *)
Example get_database_stats_of_old_logs :
  get_database_stats query_succeeds old_logs_store = [].
Proof. reflexivity. Qed.

(** X20: execute_with_retry: with a negative number of retries the operation
    is not called and None is returned; an exception that is not a
    persistence exception is raised at once, after the sleeps of the failures
    before it; an explicit max_retries of 0 is replaced by the configured
    value; an exception of time.sleep (a negative, NaN or too large delay)
    leaves execute_with_retry in place of the operation's exception, without
    a further attempt; and under exponential backoff, with more than 1024
    retries allowed, the attempt 1024 that fails ends the call with
    OverflowError, since 2 ** 1024 does not convert to a float.  Every
    earlier sleep is one that time.sleep has accepted. *)
Theorem execute_with_retry_edge_cases {A : Type} config
  (operation_func : nat -> Outcome A) time_sleep max_retries_arg :
  let retries :=
    match max_retries_arg with
    | Some n => if n =? 0 then max_retries config else n
    | None => max_retries config
    end in
  let delay := fun attempt : nat => backoff_delay config (Z.of_nat attempt) in
  let retried := fun k : nat =>
    forall j, (j < k)%nat ->
      (exists msg', operation_func j = Raise (SQLAlchemyError msg'))
      /\ (exponential_backoff config = true -> Z.of_nat j < 1024)
      /\ time_sleep (delay j) = None in
  (retries < 0 ->
   execute_with_retry config operation_func time_sleep max_retries_arg
   = (Return None, []))
  /\ (forall k msg,
        Z.of_nat k <= retries -> retried k ->
        operation_func k = Raise (Exception msg) ->
        execute_with_retry config operation_func time_sleep max_retries_arg
        = (Raise (Exception msg), map delay (seq 0 k)))
  /\ execute_with_retry config operation_func time_sleep (Some 0)
     = execute_with_retry config operation_func time_sleep None
  /\ (forall k msg e,
        Z.of_nat k < retries -> retried k ->
        operation_func k = Raise (SQLAlchemyError msg) ->
        (exponential_backoff config = true -> Z.of_nat k < 1024) ->
        time_sleep (delay k) = Some e ->
        execute_with_retry config operation_func time_sleep max_retries_arg
        = (Raise e, map delay (seq 0 k)))
  /\ (forall msg,
        exponential_backoff config = true -> 1024 < retries ->
        retried (Z.to_nat 1024) ->
        operation_func (Z.to_nat 1024) = Raise (SQLAlchemyError msg) ->
        execute_with_retry config operation_func time_sleep max_retries_arg
        = (Raise (Exception "OverflowError: int too large to convert to float"),
           map delay (seq 0 (Z.to_nat 1024)))).
Proof.
  intros retries delay retried. unfold execute_with_retry. fold retries.
  split; [|split; [|split; [|split]]].
  - intros Hneg. replace (Z.to_nat (retries + 1)) with 0%nat by lia. reflexivity.
  - intros k msg Hk Hretried Hraise.
    apply retry_loop_raises_other; [lia|exact Hk|exact Hretried|exact Hraise].
  - reflexivity.
  - intros k msg e Hk Hretried Hraise Hsmall Hsleep.
    apply (retry_loop_sleep_raises config operation_func time_sleep retries k _ msg);
      [lia|exact Hk|exact Hretried|exact Hraise|exact Hsmall|exact Hsleep].
  - intros msg Hexp Hmany Hretried Hraise.
    assert (Hk : Z.of_nat (Z.to_nat 1024) = 1024) by (apply Z2Nat.id; lia).
    revert Hretried Hraise Hk. generalize (Z.to_nat 1024). intros k Hretried Hraise Hk.
    apply (retry_loop_overflows config operation_func time_sleep retries k _ msg);
      [exact Hk|lia|lia|exact Hretried|exact Hexp|exact Hraise].
Qed.

(** A type error after one lost connection is raised at once, after the one
    sleep; with a negative maximum the operation is not called at all; and
    with the default configuration the sleep after the attempt 33, of
    [2 ** 33] seconds, is the last that [time.sleep] of CPython takes. *)
Example execute_with_retry_edge_examples :
  execute_with_retry sample_config broken_operation python_sleep None
  = (Raise (Exception "TypeError: unsupported operand"), [1%float])
  /\ execute_with_retry sample_config flaky_operation python_sleep (Some (-1))
     = (Return None, [])
  /\ execute_with_retry (with_max_retries 0 sample_config) failing_operation
       python_sleep None
     = (Raise (SQLAlchemyError "connection lost"), [])
  /\ python_sleep (backoff_delay sample_config 33) = None
  /\ python_sleep (backoff_delay sample_config 34)
     = Some (Exception "OverflowError: timestamp too large to convert to C _PyTime_t").
Proof. vm_compute. repeat split; reflexivity. Qed.

(** ** service.py *)

Section ParseFrame.
Context {B : Type}.
Variable get : FileProcessingResult.t -> B.
Hypothesis get_errors : forall v r, get (FileProcessingResult.set_errors v r) = get r.
Hypothesis get_warnings : forall v r, get (FileProcessingResult.set_warnings v r) = get r.
Hypothesis get_skipped :
  forall v r, get (FileProcessingResult.set_records_skipped v r) = get r.

(** A field that the three setters of the scan leave alone is the same
    after the scan. *)
Lemma validate_profile_frame config profile result verdict result' :
  _validate_profile config profile result = Return (verdict, result') ->
  get result' = get result.
Proof.
  unfold _validate_profile.
  destruct (geographic_filter_rejects config profile); [intros [= _ <-]; reflexivity|].
  destruct (date_range_rejects config profile); [intros [= _ <-]; reflexivity|].
  destruct (DataMode_of_value _) as [mode|e]; cbn [bind]; [|discriminate].
  destruct (negb _); [intros [= _ <-]; reflexivity|].
  destruct (bounds_errors config profile); [|intros [= _ <-]; apply get_errors].
  destruct (range_warnings config profile); intros [= _ <-];
    [reflexivity|apply get_warnings].
Qed.

Lemma parse_profiles_loop_frame pd config ds indices : forall result,
  get (snd (parse_profiles_loop pd config ds indices result)) = get result.
Proof.
  induction indices as [|prof_idx rest IH]; intros result; [reflexivity|].
  cbn [parse_profiles_loop].
  destruct (parse_profiles_try pd config ds prof_idx result)
    as [[yielded result1]|e] eqn:Htry.
  - assert (Hsame : get result1 = get result).
    { unfold parse_profiles_try in Htry.
      destruct (_parse_single_profile pd ds prof_idx) as [profile|].
      - destruct (_validate_profile config profile result) as [[verdict r]|e] eqn:Hv;
          cbn [bind] in Htry; [|discriminate].
        apply validate_profile_frame in Hv.
        destruct verdict; cbn [fst snd] in Htry; injection Htry as _ <-;
          [exact Hv|]. unfold skip_one. rewrite get_skipped. exact Hv.
      - injection Htry as _ <-. unfold skip_one. apply get_skipped. }
    destruct yielded as [profile|].
    + specialize (IH result1).
      destruct (parse_profiles_loop pd config ds rest result1) as [ys r2].
      cbn [snd] in *. congruence.
    + rewrite IH. exact Hsame.
  - assert (Hsame : get (parse_profiles_except prof_idx e result) = get result).
    { unfold parse_profiles_except, skip_one. rewrite get_skipped. apply get_errors. }
    destruct (too_many_errors config _); [exact Hsame|].
    rewrite IH. exact Hsame.
Qed.
End ParseFrame.

Lemma parse_file_inserts_nothing pd fs config file_path :
  FileProcessingResult.records_inserted (parse_file pd fs config file_path) = 0.
Proof.
  unfold parse_file.
  destruct (xr_open_dataset fs file_path) as [ds|e]; [|reflexivity].
  destruct (_validate_required_variables config ds); [|reflexivity].
  unfold _parse_profiles.
  match goal with
  | |- context [parse_profiles_loop pd config ds ?indices ?start] =>
    pose proof (parse_profiles_loop_frame FileProcessingResult.records_inserted
                  ltac:(reflexivity) ltac:(reflexivity) ltac:(reflexivity)
                  pd config ds indices start) as H;
    destruct (parse_profiles_loop pd config ds indices start) as [ps r]
  end.
  cbn in *. exact H.
Qed.

(** The count of profiles that [bulk_insert_models] returns is the number
    of profile models, whatever the engine does. *)
Lemma bulk_insert_models_count config execute_raises now models_dict session
  floats_inserted profiles_inserted measurements_inserted session' :
  bulk_insert_models config execute_raises now models_dict session
  = (Return (floats_inserted, profiles_inserted, measurements_inserted), session') ->
  profiles_inserted = Z.of_nat (length (ModelsDict.profiles models_dict)).
Proof.
  unfold bulk_insert_models, db_bind.
  destruct (_upsert_floats _ _ _ _) as [[cf|e] s1]; [|discriminate].
  unfold _upsert_profiles.
  destruct (ModelsDict.profiles models_dict) as [|p ps].
  - destruct (_bulk_insert_measurements _ _ _ _) as [[cm|e] s3]; [|discriminate].
    intros [= _ <- _ _]. reflexivity.
  - destruct (execute_raises s1 _); [discriminate|].
    destruct (_bulk_insert_measurements _ _ _ _) as [[cm|e] s3]; [|discriminate].
    intros [= _ <- _ _]. rewrite length_map. reflexivity.
Qed.

(** X21: ingest_file never changes the database: the session of its database
    work is closed without a commit, so what the upserts and the flush of
    the audit-log row did is discarded, whether the call reports success or
    failure; resume_ingestion selects the same files after the call as
    before.  A dry run reports no inserted record.  A call that fails
    reports no inserted record either, unless the failure is that of the
    savepoint's commit after a failed flush: then records_inserted is the
    number of accepted profiles, set before the commit was tried. *)
Theorem ingest_file_leaves_the_database
  pd_Timedelta_days fs config execute_raises flush_raises clock
  file_path dry_run store :
  let run := ingest_file pd_Timedelta_days fs config execute_raises flush_raises clock
               file_path dry_run store in
  snd run = store
  /\ (forall path, needs_processing (snd run) path = needs_processing store path)
  /\ (dry_run = true -> FileProcessingResult.records_inserted (fst run) = 0)
  /\ (FileProcessingResult.success (fst run) = false ->
      FileProcessingResult.records_inserted (fst run) = 0
      \/ (exists e,
            In (DatabaseErrorFor file_path (savepoint_inactive e))
              (FileProcessingResult.errors (fst run)))
         /\ FileProcessingResult.records_inserted (fst run)
            = Z.of_nat
                (length (accepted_profiles pd_Timedelta_days fs config file_path))).
Proof.
  intros run. subst run.
  pose proof (ingest_file_leaves_database pd_Timedelta_days fs config execute_raises
                flush_raises clock file_path dry_run store) as Hstore.
  split; [exact Hstore|]. split; [intros path; rewrite Hstore; reflexivity|].
  clear Hstore.
  pose proof (parse_file_inserts_nothing pd_Timedelta_days fs config file_path)
    as Hparsed.
  unfold accepted_profiles, ingest_file.
  destruct (validate_netcdf_file fs file_path) as [is_valid validation_errors].
  destruct (negb is_valid); [split; intros _; [|left]; reflexivity|].
  destruct (FileProcessingResult.success (parse_file _ _ _ _)) eqn:Hsuccess;
    cbn [negb]; [|split; intros _; [|left]; exact Hparsed].
  destruct (default [] _) as [|p ps];
    [split; intros _; [|left]; exact Hparsed|].
  destruct dry_run; [split; intros _; [|left]; exact Hparsed|].
  split; [discriminate|].
  unfold ingest_file_database, get_session, ingest_file_block, transaction.
  destruct (flush _ _ _ _) as [[[]|e] flushed];
    [|intros _; left; exact Hparsed].
  destruct (bulk_insert_models _ _ _ _ _) as [[[[fi pi] mi]|e] written] eqn:Hbulk;
    [|intros _; left; exact Hparsed].
  apply bulk_insert_models_count in Hbulk.
  rewrite batch_map_profiles_profiles in Hbulk.
  unfold profile_models in Hbulk. rewrite length_map in Hbulk. subst pi.
  match goal with
  | |- context [log_ingestion_result ?fr ?r ?now ?sess] =>
    pose proof (log_ingestion_result_returns fr r now sess) as Hlog;
    destruct (log_ingestion_result fr r now sess) as [outcome logged]
  end.
  cbn [fst] in Hlog. subst outcome.
  destruct (inactive logged) as [e|].
  - intros _. right. split; [|reflexivity].
    exists e. cbn. apply in_or_app. right. left. reflexivity.
  - cbn. rewrite Hsuccess. discriminate.
Qed.

(** With an engine that rejects the measurement statement, the float and
    the profile statements had gone through before; the file fails with the
    engine's exception. *)
Example rejected_measurements_run :
  let models := batch_map_profiles
                  (accepted_profiles exact_Timedelta_days mixed_fs sample_config
                     "/data/a.nc") empty_store in
  (exists session,
     _upsert_profiles rejects_measurements 0 (ModelsDict.profiles models)
       (snd (_upsert_floats rejects_measurements 0 (ModelsDict.floats models)
               empty_store))
     = (Return 1, session)
     /\ length (argo_floats session) = 1%nat
     /\ length (argo_profiles session) = 1%nat)
  /\ FileProcessingResult.errors
       (fst (ingest_file exact_Timedelta_days mixed_fs sample_config
               rejects_measurements never_raises (fun _ => 0) "/data/a.nc" false
               empty_store))
     = [ProfileLatitudeOutOfBounds "7900522_2" 95%float;
        DatabaseErrorFor "/data/a.nc"
          (SQLAlchemyError "IntegrityError: valid_pressure")].
Proof.
  cbv zeta. split.
  - eexists. split; [vm_compute; reflexivity|]. split; reflexivity.
  - vm_compute. reflexivity.
Qed.

Lemma ingest_file_dry_run
  pd_Timedelta_days fs config execute_raises flush_raises clock file_path store :
  FileProcessingResult.records_inserted
    (fst (ingest_file pd_Timedelta_days fs config execute_raises flush_raises clock
            file_path true store)) = 0.
Proof.
  pose proof (parse_file_inserts_nothing pd_Timedelta_days fs config file_path)
    as Hparsed.
  unfold ingest_file.
  destruct (validate_netcdf_file fs file_path) as [is_valid validation_errors].
  destruct (negb is_valid); [reflexivity|].
  destruct (negb (FileProcessingResult.success _)); [exact Hparsed|].
  destruct (default [] _); exact Hparsed.
Qed.

(** What one turn of a loop adds to the counters: the file is processed
    once, and counted once as successful or failed, twice when the progress
    test raises. *)
Lemma record_result_counts config n file_path result stats :
  let out := record_result config n file_path result stats in
  let stats' := snd out in
  let turns := if progress_update_interval config =? 0 then 2 else 1 in
  Stats.files_processed stats' = Stats.files_processed stats + 1
  /\ Stats.files_successful stats' + Stats.files_failed stats'
     = Stats.files_successful stats + Stats.files_failed stats + turns
  /\ Stats.files_successful stats <= Stats.files_successful stats'
  /\ Stats.files_failed stats <= Stats.files_failed stats'
  /\ Stats.files_discovered stats' = Stats.files_discovered stats
  /\ Stats.files_skipped stats' = Stats.files_skipped stats
  /\ Z.of_nat (length (fst out)) = turns
  /\ (FileProcessingResult.records_inserted result = 0 ->
      Forall (fun r => FileProcessingResult.records_inserted r = 0) (fst out)).
Proof.
  cbv zeta. unfold record_result, progress_remainder, count_file, count_failed.
  destruct (progress_update_interval config =? 0);
    destruct (FileProcessingResult.success result); cbn;
    repeat split; try lia; intros Hzero; repeat constructor; exact Hzero.
Qed.

Section ProcessFiles.
Variable pd_Timedelta_days : Number -> option Z.
Variable fs : string -> option File.
Variable config : IngestionConfig.
Variable execute_raises : Store -> Statement -> option Exn.
Variable flush_raises : Store -> Flush -> option Exn.
Variable clock : string -> Z.

(** The counters, the results and the database after a loop over
    [files]. *)
Definition files_counted (files : list string) (dry_run : bool) (stats : Stats.t)
  (store : Store) (out : list FileProcessingResult.t * Stats.t * Store) : Prop :=
  let results := fst (fst out) in
  let stats' := snd (fst out) in
  let turns := if progress_update_interval config =? 0 then 2 else 1 in
  Z.of_nat (length results) = Z.of_nat (length files) * turns
  /\ Stats.files_processed stats'
     = Stats.files_processed stats + Z.of_nat (length files)
  /\ Stats.files_successful stats' + Stats.files_failed stats'
     = Stats.files_successful stats + Stats.files_failed stats
       + Z.of_nat (length files) * turns
  /\ Stats.files_successful stats <= Stats.files_successful stats'
  /\ Stats.files_failed stats <= Stats.files_failed stats'
  /\ Stats.files_discovered stats' = Stats.files_discovered stats
  /\ Stats.files_skipped stats' = Stats.files_skipped stats
  /\ snd out = store
  /\ (dry_run = true ->
      Forall (fun result => FileProcessingResult.records_inserted result = 0)
        results).

Lemma files_counted_nil dry_run stats store :
  files_counted [] dry_run stats store ([], stats, store).
Proof.
  unfold files_counted. cbn. repeat split; try lia. intros _. constructor.
Qed.

(** One turn followed by the rest of the loop. *)
Lemma files_counted_cons n file_path rest dry_run stats store
  (loop : Stats.t -> Store -> list FileProcessingResult.t * Stats.t * Store) :
  (forall stats store, files_counted rest dry_run stats store (loop stats store)) ->
  files_counted (file_path :: rest) dry_run stats store
    (let '(result, store) :=
       ingest_file pd_Timedelta_days fs config execute_raises flush_raises clock
         file_path dry_run store in
     let '(appended, stats) := record_result config n file_path result stats in
     let '(results, stats, store) := loop stats store in
     ((appended ++ results)%list, stats, store)).
Proof.
  intros Hloop.
  pose proof (ingest_file_leaves_database pd_Timedelta_days fs config execute_raises
                flush_raises clock file_path dry_run store) as Hstore.
  pose proof (ingest_file_dry_run pd_Timedelta_days fs config execute_raises
                flush_raises clock file_path store) as Hdry.
  destruct (ingest_file _ _ _ _ _ _ file_path dry_run store) as [result store1] eqn:Hrun.
  cbn [snd] in Hstore. subst store1.
  pose proof (record_result_counts config n file_path result stats) as Hturn.
  cbv zeta in Hturn.
  destruct (record_result config n file_path result stats) as [appended stats1].
  specialize (Hloop stats1 store).
  destruct (loop stats1 store) as [[results stats2] store2].
  unfold files_counted in *. cbn [fst snd length] in *.
  destruct Hturn as (Hp & Hsf & Hs & Hf & Hd & Hk & Hlen & Hzero).
  destruct Hloop as (Hlen' & Hp' & Hsf' & Hs' & Hf' & Hd' & Hk' & Hstore' & Hdry').
  rewrite length_app.
  split; [lia|]. split; [lia|]. split; [lia|]. split; [lia|]. split; [lia|].
  split; [lia|]. split; [lia|]. split; [exact Hstore'|].
  intros ->. apply Forall_app. split; [|apply Hdry'; reflexivity].
  apply Hzero. rewrite Hrun in Hdry. exact Hdry.
Qed.

Lemma process_files_from_counted files dry_run : forall i stats store,
  files_counted files dry_run stats store
    (process_files_from pd_Timedelta_days fs config execute_raises flush_raises clock
       i files dry_run stats store).
Proof.
  induction files as [|file_path rest IH]; intros i stats store.
  - apply files_counted_nil.
  - cbn [process_files_from].
    apply (files_counted_cons (fun _ => i + 1) file_path rest dry_run stats store
             (process_files_from pd_Timedelta_days fs config execute_raises
                flush_raises clock (i + 1) rest dry_run)).
    intros stats' store'. apply IH.
Qed.

Lemma process_completed_counted files dry_run : forall stats store,
  files_counted files dry_run stats store
    (process_completed pd_Timedelta_days fs config execute_raises flush_raises clock
       files dry_run stats store).
Proof.
  induction files as [|file_path rest IH]; intros stats store.
  - apply files_counted_nil.
  - cbn [process_completed].
    apply (files_counted_cons Stats.files_processed file_path rest dry_run stats store
             (process_completed pd_Timedelta_days fs config execute_raises
                flush_raises clock rest dry_run)).
    intros stats' store'. apply IH.
Qed.
End ProcessFiles.

Lemma sum_records_inserted_zero results : forall total,
  Forall (fun result => FileProcessingResult.records_inserted result = 0) results ->
  fold_left (fun total result => total + FileProcessingResult.records_inserted result)
    results total = total.
Proof.
  induction results as [|result rest IH]; intros total Hzero; [reflexivity|].
  inversion Hzero as [|? ? Hr Hrest]; subst. cbn [fold_left].
  rewrite Hr, Z.add_0_r. apply IH, Hrest.
Qed.

(** X22: ingest_directory, with workers that complete in any order: every
    discovered file is counted as processed once, and once as successful or
    as failed.  With progress_update_interval = 0, which the configuration
    does not exclude, the progress test of the loop raises
    ZeroDivisionError after each file: the except branch then counts the
    file as failed once more, so that successful + failed grows by two per
    file.  files_skipped is not touched; the summary repeats the counters
    and reports no updated or skipped record; the database is left as it
    was; a dry run reports no inserted record. *)
Theorem ingest_directory_counts
  pd_Timedelta_days fs glob config execute_raises flush_raises clock as_completed
  directory patterns dry_run stats store :
  (forall files, Permutation (as_completed files) files) ->
  let files :=
    discover_argo_files glob (default (input_directory config) directory)
      match patterns with
      | Some (p :: ps) => p :: ps
      | _ => file_patterns config
      end in
  let out := ingest_directory pd_Timedelta_days fs glob config execute_raises
               flush_raises clock as_completed directory patterns dry_run stats store in
  let summary := fst (fst out) in
  let stats' := snd (fst out) in
  let turns := if progress_update_interval config =? 0 then 2 else 1 in
  Stats.files_discovered stats' = Z.of_nat (length files)
  /\ Stats.files_processed stats'
     = Stats.files_processed stats + Z.of_nat (length files)
  /\ Stats.files_successful stats' + Stats.files_failed stats'
     = Stats.files_successful stats + Stats.files_failed stats
       + Z.of_nat (length files) * turns
  /\ Stats.files_successful stats <= Stats.files_successful stats'
  /\ Stats.files_failed stats <= Stats.files_failed stats'
  /\ Stats.files_skipped stats' = Stats.files_skipped stats
  /\ IngestionSummary.files_processed summary = Stats.files_processed stats'
  /\ IngestionSummary.files_successful summary = Stats.files_successful stats'
  /\ IngestionSummary.files_failed summary = Stats.files_failed stats'
  /\ IngestionSummary.total_records_updated summary = 0
  /\ IngestionSummary.total_records_skipped summary = 0
  /\ snd out = store
  /\ (dry_run = true -> files <> [] ->
      IngestionSummary.total_records_inserted summary = 0).
Proof.
  intros Hcompleted files out summary stats' turns.
  subst summary stats' out. unfold ingest_directory. fold files.
  destruct files as [|file_path rest] eqn:Hfiles.
  { cbn. do 11 (split; [lia|]). split; [reflexivity|].
    intros _ H. contradiction. }
  unfold _process_files_parallel, _process_files_sequential.
  set (started := set_files_discovered (Z.of_nat (length (file_path :: rest))) stats).
  assert (Hstarted : Stats.files_processed started = Stats.files_processed stats
                     /\ Stats.files_successful started = Stats.files_successful stats
                     /\ Stats.files_failed started = Stats.files_failed stats
                     /\ Stats.files_skipped started = Stats.files_skipped stats
                     /\ Stats.files_discovered started
                        = Z.of_nat (length (file_path :: rest)))
    by (repeat split; reflexivity).
  destruct Hstarted as (Hp0 & Hs0 & Hf0 & Hk0 & Hd0).
  assert (Hlength : length (as_completed (file_path :: rest))
                    = length (file_path :: rest))
    by (apply Permutation_length, Hcompleted).
  destruct (1 <? max_workers config).
  - pose proof (process_completed_counted pd_Timedelta_days fs config execute_raises
                  flush_raises clock (as_completed (file_path :: rest)) dry_run
                  started store) as H.
    destruct (process_completed _ _ _ _ _ _ _ _ _ _) as [[results stats1] store1].
    unfold files_counted in H. cbn [fst snd] in *. rewrite Hlength in H.
    fold turns in H.
    destruct H as (_ & Hp & Hsf & Hs & Hf & Hd & Hk & Hstore & Hdry).
    cbn -[Z.of_nat length Z.add Z.mul]. do 11 (split; [lia|]).
    split; [exact Hstore|].
    intros -> _. apply sum_records_inserted_zero, Hdry. reflexivity.
  - pose proof (process_files_from_counted pd_Timedelta_days fs config execute_raises
                  flush_raises clock (file_path :: rest) dry_run 0
                  started store) as H.
    destruct (process_files_from _ _ _ _ _ _ _ _ _ _ _) as [[results stats1] store1].
    unfold files_counted in H. cbn [fst snd] in *. fold turns in H.
    destruct H as (_ & Hp & Hsf & Hs & Hf & Hd & Hk & Hstore & Hdry).
    cbn -[Z.of_nat length Z.add Z.mul]. do 11 (split; [lia|]).
    split; [exact Hstore|].
    intros -> _. apply sum_records_inserted_zero, Hdry. reflexivity.
Qed.

Lemma ingest_directory_counts_witness :
  let out :=
    ingest_directory exact_Timedelta_days resume_fs resume_glob sample_config
      never_raises never_raises (fun _ => 26663 * nanoseconds_per_day) (@rev string)
      None None true Stats.initial empty_store in
  Stats.files_processed (snd (fst out)) = 2
  /\ Stats.files_successful (snd (fst out)) + Stats.files_failed (snd (fst out)) = 2
  /\ snd out = empty_store.
Proof.
  cbv zeta.
  pose proof (ingest_directory_counts exact_Timedelta_days resume_fs resume_glob
                sample_config never_raises never_raises
                (fun _ => 26663 * nanoseconds_per_day) (@rev string)
                None None true Stats.initial empty_store
                (fun files => Permutation_sym (Permutation_rev files))) as H.
  cbv zeta in H.
  destruct H as (_ & Hprocessed & Hsum & _ & _ & _ & _ & _ & _ & _ & _ & Hstore & _).
  split; [exact Hprocessed|]. split; [exact Hsum|]. exact Hstore.
Defined.

(** The two files of the sample directory, both ingested with success: with
    the default interval two files are counted as successful; with an
    interval of 0 the same two files are also counted as failed, and the
    run has four results. *)
Example progress_interval_zero_counts_failures :
  let run := fun interval =>
    fst (ingest_directory exact_Timedelta_days resume_fs resume_glob
           (with_progress_update_interval interval
              (with_max_workers 1 sample_config))
           never_raises never_raises (fun _ => 26663 * nanoseconds_per_day)
           (fun files => files) None None false Stats.initial empty_store) in
  let counters := fun interval =>
    (Stats.files_processed (snd (run interval)),
     Stats.files_successful (snd (run interval)),
     Stats.files_failed (snd (run interval))) in
  counters 100 = (2, 2, 0) /\ counters 0 = (2, 2, 2).
Proof. vm_compute. split; reflexivity. Qed.

Lemma profile_set_self e : profile_set_ e e = e.
Proof. destruct e; reflexivity. Qed.

Lemma measurement_set_self e : measurement_set_ e e = e.
Proof. destruct e; reflexivity. Qed.

Lemma profile_conflict_refl e : profile_conflict e e = true.
Proof. apply String.eqb_refl. Qed.

Section HealthyEngineTables.
Variable config : IngestionConfig.
Variable execute_raises : Store -> Statement -> option Exn.
Hypothesis execute_accepts : accepts_all execute_raises.

Lemma upsert_floats_other_tables now floats session :
  exists session',
    _upsert_floats execute_raises now floats session
    = (Return (Z.of_nat (length floats)), session')
    /\ argo_profiles session' = argo_profiles session
    /\ argo_measurements session' = argo_measurements session
    /\ data_ingestion_logs session' = data_ingestion_logs session.
Proof.
  unfold _upsert_floats. destruct floats.
  - eexists. repeat split; reflexivity.
  - rewrite execute_accepts. rewrite length_map. eexists. repeat split; reflexivity.
Qed.

Lemma upsert_profiles_table now profiles session :
  exists session',
    _upsert_profiles execute_raises now profiles session
    = (Return (Z.of_nat (length profiles)), session')
    /\ argo_profiles session' = upsert_profile_rows now profiles (argo_profiles session)
    /\ argo_measurements session' = argo_measurements session
    /\ data_ingestion_logs session' = data_ingestion_logs session.
Proof.
  unfold _upsert_profiles, upsert_profile_rows. destruct profiles.
  - eexists. repeat split; reflexivity.
  - rewrite execute_accepts. rewrite length_map. eexists. repeat split; reflexivity.
Qed.

Lemma insert_batches_tables remaining : forall total session,
  exists session',
    insert_batches execute_raises remaining total session
    = (Return (total + Z.of_nat (length (concat remaining))), session')
    /\ argo_profiles session' = argo_profiles session
    /\ argo_measurements session'
       = upsert_measurements (concat remaining) (argo_measurements session).
Proof.
  induction remaining as [|batch rest IH]; intros total session.
  - eexists. cbn. rewrite Z.add_0_r. repeat split; reflexivity.
  - cbn [insert_batches]. rewrite execute_accepts.
    edestruct IH as (session' & -> & Hp & Hm).
    eexists. split; [|split].
    + cbn [concat]. rewrite length_app, length_map. do 2 f_equal. lia.
    + rewrite Hp. reflexivity.
    + rewrite Hm. cbn [concat argo_measurements set_argo_measurements].
      unfold upsert_measurements. rewrite map_app, fold_left_app. reflexivity.
Qed.

(** The measurement statements: their count and their effect depend on the
    measurements and the batch size alone. *)
Lemma bulk_insert_measurements_tables measurements session :
  batches_ok config measurements ->
  exists session',
    _bulk_insert_measurements config execute_raises measurements session
    = (Return (Z.of_nat (length (written config measurements))), session')
    /\ argo_profiles session' = argo_profiles session
    /\ argo_measurements session'
       = upsert_measurements (written config measurements) (argo_measurements session).
Proof.
  intros Hok. unfold _bulk_insert_measurements, written.
  destruct measurements as [|m ms].
  - destruct (batch_size config <? 0); eexists; repeat split; reflexivity.
  - destruct Hok as [Hnil|Hsize]; [discriminate|].
    unfold batches.
    destruct (Z.eqb_spec (batch_size config) 0) as [H0|_]; [contradiction|].
    destruct (Z.ltb_spec (batch_size config) 0) as [Hneg|Hpos].
    + eexists. repeat split; reflexivity.
    + destruct (insert_batches_tables
                  (slices (length (m :: ms)) (Z.to_nat (batch_size config)) (m :: ms))
                  0 session) as (session' & Hrun & Hp & Hm).
      rewrite slices_concat in Hrun, Hm by lia.
      exists session'. split; [exact Hrun|]. split; assumption.
Qed.

Lemma bulk_insert_models_tables now models_dict session :
  batches_ok config (ModelsDict.measurements models_dict) ->
  exists session',
    bulk_insert_models config execute_raises now models_dict session
    = (Return (Z.of_nat (length (ModelsDict.floats models_dict)),
               Z.of_nat (length (ModelsDict.profiles models_dict)),
               Z.of_nat (length (written config
                                   (ModelsDict.measurements models_dict)))),
       session')
    /\ argo_profiles session'
       = upsert_profile_rows now (ModelsDict.profiles models_dict)
           (argo_profiles session)
    /\ argo_measurements session'
       = upsert_measurements (written config (ModelsDict.measurements models_dict))
           (argo_measurements session).
Proof.
  intros Hbatches. unfold bulk_insert_models, db_bind.
  destruct (upsert_floats_other_tables now (ModelsDict.floats models_dict) session)
    as (s1 & -> & Hp1 & Hm1 & _).
  destruct (upsert_profiles_table now (ModelsDict.profiles models_dict) s1)
    as (s2 & -> & Hp2 & Hm2 & _).
  destruct (bulk_insert_measurements_tables
              (ModelsDict.measurements models_dict) s2 Hbatches)
    as (s3 & -> & Hp3 & Hm3).
  eexists. split; [reflexivity|]. split; congruence.
Qed.
End HealthyEngineTables.

Lemma Forall2_map_same {A B : Type} (R : B -> B -> Prop) (f g : A -> B) l :
  (forall x, R (f x) (g x)) -> Forall2 R (map f l) (map g l).
Proof. intros H. induction l; constructor; auto. Qed.



(** X24: log_ingestion_result builds one audit-log row from the result and
    flushes it, and returns normally whatever the flush does.  The row has
    status 'success' or 'failed' after the result's success flag, the path
    and the name of the file, the time of the call as its start and, for a
    success only, as its end, the number of processed records and at most
    ten error messages.  When the flush is accepted the row is appended to
    the audit log that the session sees and the profile and measurement
    tables are as before; when it fails the session sees the tables of the
    begin of its innermost transaction again and that transaction is left
    inactive. *)
Theorem log_ingestion_result_effect flush_raises result utcnow session :
  let out := log_ingestion_result flush_raises result utcnow session in
  let row := audit_row result utcnow in
  fst out = Return tt
  /\ match flush_raises (tables session)
             {| changed_floats := dirty session; added_logs := [row] |} with
     | None =>
       data_ingestion_logs (tables (snd out))
       = (data_ingestion_logs (tables session) ++ [row])%list
       /\ argo_profiles (tables (snd out)) = argo_profiles (tables session)
       /\ argo_measurements (tables (snd out)) = argo_measurements (tables session)
       /\ begun (snd out) = begun session
       /\ inactive (snd out) = inactive session
     | Some e => tables (snd out) = begun session /\ inactive (snd out) = Some e
     end
  /\ DataIngestionLog.status row
     = Some (if FileProcessingResult.success result then "success" else "failed")
  /\ DataIngestionLog.file_path row = Some (FileProcessingResult.file_path result)
  /\ DataIngestionLog.filename row
     = path_name (FileProcessingResult.file_path result)
  /\ DataIngestionLog.started_at row = Some utcnow
  /\ DataIngestionLog.completed_at row
     = (if FileProcessingResult.success result then Some utcnow else None)
  /\ DataIngestionLog.profiles_processed row
     = Some (FileProcessingResult.records_processed result)
  /\ DataIngestionLog.error_message row
     = match firstn 10 (FileProcessingResult.errors result) with
       | [] => None
       | errors => Some errors
       end.
Proof.
  cbv zeta. split; [apply log_ingestion_result_returns|]. split.
  - rewrite log_ingestion_result_flush. unfold flush.
    destruct (flush_raises _ _) as [e|] eqn:Hflush.
    + destruct (dirty session); cbn; split; reflexivity.
    + destruct (dirty session); cbn; repeat split; reflexivity.
  - unfold audit_row, log_model_of, create_ingestion_log_entry. cbn.
    destruct (FileProcessingResult.success result); cbn;
      destruct (firstn 10 (FileProcessingResult.errors result)); repeat split.
Qed.

(** ** api/routes/ingestion.py *)

Lemma jobs_get_update job_id other set_ (active_jobs : Jobs) :
  jobs_get other (jobs_update job_id set_ active_jobs)
  = if String.eqb job_id other
    then option_map set_ (jobs_get other active_jobs)
    else jobs_get other active_jobs.
Proof.
  unfold jobs_get, jobs_update. induction active_jobs as [|[k job] rest IH]; cbn [map find fst snd].
  - destruct (String.eqb job_id other); reflexivity.
  - destruct (String.eqb job_id k) eqn:Hk; cbn [fst snd].
    + apply String.eqb_eq in Hk. subst k.
      destruct (String.eqb other job_id) eqn:Ho.
      * apply String.eqb_eq in Ho. subst other. rewrite String.eqb_refl. reflexivity.
      * exact IH.
    + destruct (String.eqb other k) eqn:Ho; [|exact IH].
      apply String.eqb_eq in Ho. subst other. rewrite Hk. reflexivity.
Qed.

Lemma job_setitem_tracked job_id set_ active_jobs job :
  jobs_get job_id active_jobs = Some job ->
  fst (job_setitem job_id set_ active_jobs) = Return tt
  /\ jobs_get job_id (snd (job_setitem job_id set_ active_jobs)) = Some (set_ job)
  /\ (forall other, other <> job_id ->
        jobs_get other (snd (job_setitem job_id set_ active_jobs))
        = jobs_get other active_jobs)
  /\ map fst (snd (job_setitem job_id set_ active_jobs)) = map fst active_jobs.
Proof.
  intros Hjob. unfold job_setitem. rewrite Hjob. cbn [fst snd].
  split; [reflexivity|]. split; [|split].
  - rewrite jobs_get_update, String.eqb_refl, Hjob. reflexivity.
  - intros other Hother. rewrite jobs_get_update.
    destruct (String.eqb_spec job_id other); [congruence|reflexivity].
  - unfold jobs_update. rewrite map_map. apply map_ext. intros [k j]. cbn.
    destruct (String.eqb job_id k); reflexivity.
Qed.

Lemma job_setitem_untracked job_id set_ active_jobs :
  jobs_get job_id active_jobs = None ->
  job_setitem job_id set_ active_jobs
  = (Raise (Exception ("KeyError: " ++ job_id)), active_jobs).
Proof. intros Hjob. unfold job_setitem. rewrite Hjob. reflexivity. Qed.

Lemma jobs_get_del job_id other active_jobs :
  jobs_get other (jobs_del job_id active_jobs)
  = if String.eqb job_id other then None else jobs_get other active_jobs.
Proof.
  unfold jobs_get, jobs_del.
  induction active_jobs as [|[k job] rest IH]; cbn [List.filter find fst snd].
  - destruct (String.eqb job_id other); reflexivity.
  - destruct (String.eqb job_id k) eqn:Hk; cbn [negb find fst snd].
    + apply String.eqb_eq in Hk. subst k. rewrite IH.
      destruct (String.eqb job_id other) eqn:Ho; [reflexivity|].
      rewrite String.eqb_sym, Ho. reflexivity.
    + destruct (String.eqb other k) eqn:Ho.
      * apply String.eqb_eq in Ho. subst other. rewrite Hk. reflexivity.
      * exact IH.
Qed.

Lemma job_bind_Return {A B} (m : Handler A) (k : A -> Handler B) active_jobs a
  active_jobs' :
  m active_jobs = (Return a, active_jobs') ->
  job_bind m k active_jobs = k a active_jobs'.
Proof. intros Hm. unfold job_bind. rewrite Hm. reflexivity. Qed.

Lemma job_bind_Raise {A B} (m : Handler A) (k : A -> Handler B) active_jobs e
  active_jobs' :
  m active_jobs = (Raise e, active_jobs') ->
  job_bind m k active_jobs = (Raise e, active_jobs').
Proof. intros Hm. unfold job_bind. rewrite Hm. reflexivity. Qed.

(** Two writes to the same tracked job, one after the other. *)
Lemma job_setitem_twice job_id first second active_jobs job :
  jobs_get job_id active_jobs = Some job ->
  let written :=
    job_bind (job_setitem job_id first) (fun _ => job_setitem job_id second)
      active_jobs in
  fst written = Return tt
  /\ jobs_get job_id (snd written) = Some (second (first job))
  /\ (forall other, other <> job_id ->
        jobs_get other (snd written) = jobs_get other active_jobs)
  /\ map fst (snd written) = map fst active_jobs.
Proof.
  intros Hjob. cbv zeta.
  destruct (job_setitem_tracked job_id first active_jobs job Hjob)
    as (Hret & Hget & Hother & Hkeys).
  destruct (job_setitem job_id first active_jobs) as [[[]|e] jobs1] eqn:Hfirst;
    cbn [fst snd] in *; [|discriminate].
  rewrite (job_bind_Return _ _ _ _ _ Hfirst).
  destruct (job_setitem_tracked job_id second jobs1 _ Hget)
    as (Hret2 & Hget2 & Hother2 & Hkeys2).
  split; [exact Hret2|]. split; [exact Hget2|]. split.
  - intros other Hne. rewrite Hother2, Hother by exact Hne. reflexivity.
  - rewrite Hkeys2. exact Hkeys.
Qed.

Lemma mark_running_tracked job_id active_jobs job :
  jobs_get job_id active_jobs = Some job ->
  fst (mark_running job_id active_jobs) = Return tt
  /\ jobs_get job_id (snd (mark_running job_id active_jobs))
     = Some (Job.set_message (JobText "Ingestion in progress...")
               (Job.set_status "running" job))
  /\ (forall other, other <> job_id ->
        jobs_get other (snd (mark_running job_id active_jobs))
        = jobs_get other active_jobs)
  /\ map fst (snd (mark_running job_id active_jobs)) = map fst active_jobs.
Proof. intros Hjob. exact (job_setitem_twice job_id _ _ active_jobs job Hjob). Qed.

Lemma mark_cancelled_tracked job_id active_jobs job :
  jobs_get job_id active_jobs = Some job ->
  fst (mark_cancelled job_id active_jobs) = Return tt
  /\ jobs_get job_id (snd (mark_cancelled job_id active_jobs))
     = Some (Job.set_message (JobText "Job cancelled by user")
               (Job.set_status "cancelled" job))
  /\ (forall other, other <> job_id ->
        jobs_get other (snd (mark_cancelled job_id active_jobs))
        = jobs_get other active_jobs)
  /\ map fst (snd (mark_cancelled job_id active_jobs)) = map fst active_jobs.
Proof. intros Hjob. exact (job_setitem_twice job_id _ _ active_jobs job Hjob). Qed.

Lemma job_setitem_thrice job_id first second third active_jobs job :
  jobs_get job_id active_jobs = Some job ->
  let written :=
    job_bind (job_setitem job_id first) (fun _ =>
    job_bind (job_setitem job_id second) (fun _ => job_setitem job_id third))
      active_jobs in
  fst written = Return tt
  /\ jobs_get job_id (snd written) = Some (third (second (first job)))
  /\ (forall other, other <> job_id ->
        jobs_get other (snd written) = jobs_get other active_jobs)
  /\ map fst (snd written) = map fst active_jobs.
Proof.
  intros Hjob. cbv zeta.
  destruct (job_setitem_tracked job_id first active_jobs job Hjob)
    as (Hret & Hget & Hother & Hkeys).
  destruct (job_setitem job_id first active_jobs) as [[[]|e] jobs1] eqn:Hfirst;
    cbn [fst snd] in *; [|discriminate].
  rewrite (job_bind_Return _ _ _ _ _ Hfirst).
  destruct (job_setitem_twice job_id second third jobs1 _ Hget)
    as (Hret2 & Hget2 & Hother2 & Hkeys2).
  split; [exact Hret2|]. split; [exact Hget2|]. split.
  - intros other Hne. rewrite Hother2, Hother by exact Hne. reflexivity.
  - rewrite Hkeys2. exact Hkeys.
Qed.

Lemma mark_untracked job_id first (rest : unit -> Handler unit) active_jobs :
  jobs_get job_id active_jobs = None ->
  job_bind (job_setitem job_id first) rest active_jobs
  = (Raise (Exception ("KeyError: " ++ job_id)), active_jobs).
Proof.
  intros Hjob. unfold job_bind. rewrite (job_setitem_untracked _ _ _ Hjob). reflexivity.
Qed.

(** X27: cancel_job: an unknown job gives 404 and changes nothing; a running
    job stays in the registry with status 'cancelled'; a job in any other
    state, a queued one included, is removed, after which get_job_status gives
    404.  No other job is affected and job ids stay distinct. *)
Theorem cancel_job_effect job_id active_jobs :
  let reply := fst (cancel_job job_id active_jobs) in
  let active_jobs' := snd (cancel_job job_id active_jobs) in
  (forall other, other <> job_id ->
     jobs_get other active_jobs' = jobs_get other active_jobs)
  /\ (NoDup (map fst active_jobs) -> NoDup (map fst active_jobs'))
  /\ (jobs_get job_id active_jobs = None ->
      reply = HTTPException 404 ("Ingestion job " ++ job_id ++ " not found")
      /\ active_jobs' = active_jobs)
  /\ (forall job,
        jobs_get job_id active_jobs = Some job ->
        Job.status job = "running" ->
        reply = Ok (MarkedForCancellation job_id)
        /\ map fst active_jobs' = map fst active_jobs
        /\ jobs_get job_id active_jobs'
           = Some {| Job.status := "cancelled";
                     Job.message := JobText "Job cancelled by user";
                     Job.created_at := Job.created_at job;
                     Job.summary := Job.summary job;
                     Job.error := Job.error job |})
  /\ (forall job,
        jobs_get job_id active_jobs = Some job ->
        Job.status job <> "running" ->
        reply = Ok (Removed job_id)
        /\ jobs_get job_id active_jobs' = None
        /\ (length active_jobs' < length active_jobs)%nat
        /\ forall current_time,
             get_job_status job_id current_time active_jobs'
             = HTTPException 404 ("Ingestion job " ++ job_id ++ " not found")).
Proof.
  cbv zeta. unfold cancel_job.
  destruct (jobs_get job_id active_jobs) as [job|] eqn:Hjob.
  - destruct (String.eqb_spec (Job.status job) "running") as [Hrun|Hrun];
      cbn [fst snd].
    + destruct (mark_cancelled_tracked job_id active_jobs job Hjob)
        as (_ & Hget & Hother & Hkeys).
      split; [exact Hother|]. split; [rewrite Hkeys; trivial|].
      split; [discriminate|]. split.
      * intros job0 [= <-] _. split; [reflexivity|]. split; [exact Hkeys|].
        exact Hget.
      * intros job0 [= <-] Hnot. contradiction.
    + split.
      { intros other Hne. rewrite jobs_get_del.
        destruct (String.eqb_spec job_id other); [congruence|reflexivity]. }
      split.
      { unfold jobs_del. intros Hnodup. clear Hjob.
        induction active_jobs as [|[k j] rest IH]; cbn; [constructor|].
        cbn in Hnodup. apply NoDup_cons in Hnodup as [Hnotin Hnodup].
        destruct (String.eqb job_id k); cbn; [apply IH; exact Hnodup|].
        apply NoDup_cons. split; [|apply IH; exact Hnodup].
        intros Hin. apply Hnotin. apply list_elem_of_fmap in Hin as [[k' j'] [-> Hin]].
        apply list_elem_of_fmap. exists (k', j'). split; [reflexivity|].
        apply list_elem_of_In in Hin. apply List.filter_In in Hin as [Hin _].
        apply list_elem_of_In. exact Hin. }
      split; [discriminate|]. split.
      * intros job0 [= <-] Hnot. contradiction.
      * intros job0 [= <-] _. split; [reflexivity|].
        assert (Hgone : jobs_get job_id (jobs_del job_id active_jobs) = None).
        { rewrite jobs_get_del, String.eqb_refl. reflexivity. }
        split; [exact Hgone|]. split.
        -- unfold jobs_del, jobs_get in *. clear Hgone Hrun.
           induction active_jobs as [|[k j] rest IH]; [discriminate|].
           cbn [find fst snd] in Hjob. cbn [List.filter fst length].
           destruct (String.eqb job_id k); cbn [negb length].
           ++ pose proof (List.filter_length_le
                            (fun kv => negb (String.eqb job_id (fst kv))) rest). lia.
           ++ specialize (IH Hjob). lia.
        -- intros current_time. unfold get_job_status. rewrite Hgone. reflexivity.
  - cbn [fst snd]. split; [reflexivity|]. split; [trivial|].
    split; [split; reflexivity|]. split; intros job [=].
Qed.

Lemma mark_completed_tracked job_id summary active_jobs job :
  jobs_get job_id active_jobs = Some job ->
  fst (mark_completed job_id summary active_jobs) = Return tt
  /\ jobs_get job_id (snd (mark_completed job_id summary active_jobs))
     = Some {| Job.status := "completed";
               Job.message :=
                 IngestionCompletedProcessed
                   (IngestionSummary.total_records_inserted summary);
               Job.created_at := Job.created_at job;
               Job.summary := Some summary;
               Job.error := Job.error job |}
  /\ (forall other, other <> job_id ->
        jobs_get other (snd (mark_completed job_id summary active_jobs))
        = jobs_get other active_jobs)
  /\ map fst (snd (mark_completed job_id summary active_jobs)) = map fst active_jobs.
Proof. intros Hjob. exact (job_setitem_thrice job_id _ _ _ active_jobs job Hjob). Qed.

Lemma mark_failed_tracked job_id e active_jobs job :
  jobs_get job_id active_jobs = Some job ->
  fst (mark_failed job_id e active_jobs) = Return tt
  /\ jobs_get job_id (snd (mark_failed job_id e active_jobs))
     = Some {| Job.status := "failed";
               Job.message := IngestionFailed e;
               Job.created_at := Job.created_at job;
               Job.summary := Job.summary job;
               Job.error := Some e |}
  /\ (forall other, other <> job_id ->
        jobs_get other (snd (mark_failed job_id e active_jobs))
        = jobs_get other active_jobs)
  /\ map fst (snd (mark_failed job_id e active_jobs)) = map fst active_jobs.
Proof. intros Hjob. exact (job_setitem_thrice job_id _ _ _ active_jobs job Hjob). Qed.

(** The run of a job that is tracked when it starts and when the awaited
    ingestion ends. *)
Lemma run_ingestion_job_tracked job_id ingestion meanwhile active_jobs job job' :
  jobs_get job_id active_jobs = Some job ->
  jobs_get job_id (meanwhile (snd (mark_running job_id active_jobs))) = Some job' ->
  let outcome := run_ingestion_job job_id (Return tt) ingestion meanwhile active_jobs in
  fst outcome = Return tt
  /\ jobs_get job_id (snd outcome) = Some (finished_job ingestion job')
  /\ (forall other, other <> job_id ->
        jobs_get other (snd outcome)
        = jobs_get other (meanwhile (snd (mark_running job_id active_jobs))))
  /\ map fst (snd outcome)
     = map fst (meanwhile (snd (mark_running job_id active_jobs))).
Proof.
  intros Hjob Hlater. cbv zeta.
  unfold run_ingestion_job, run_ingestion_job_try.
  destruct (mark_running_tracked job_id active_jobs job Hjob) as (Hret & _).
  destruct (mark_running job_id active_jobs) as [[[]|e] running] eqn:Hrunning;
    cbn [fst snd] in *; [|discriminate].
  rewrite (job_bind_Return _ _ _ _ _ Hrunning).
  rewrite (job_bind_Return (fun jobs => (Return tt, jobs)) _ running tt running eq_refl).
  destruct ingestion as [summary|e]; cbn [finished_job].
  - rewrite (job_bind_Return (fun jobs => (Return summary, meanwhile jobs)) _
               running summary (meanwhile running) eq_refl).
    destruct (mark_completed_tracked job_id summary _ job' Hlater)
      as (Hdone & Hget & Hother & Hkeys).
    destruct (mark_completed job_id summary (meanwhile running)) as [[[]|e] final];
      cbn [fst snd] in *; [|discriminate].
    repeat split; assumption.
  - rewrite (job_bind_Raise (fun jobs => (Raise e, meanwhile jobs)) _
               running e (meanwhile running) eq_refl).
    destruct (mark_failed_tracked job_id e _ job' Hlater)
      as (Hdone & Hget & Hother & Hkeys).
    repeat split; assumption.
Qed.

Lemma jobs_get_dict_set job_id job (active_jobs : Jobs) :
  jobs_get job_id (dict_set String.eqb job_id job active_jobs) = Some job.
Proof.
  unfold jobs_get.
  induction active_jobs as [|[k j] rest IH]; cbn [dict_set find fst snd option_map].
  - rewrite String.eqb_refl. reflexivity.
  - destruct (String.eqb job_id k) eqn:Hk; cbn [find fst snd option_map].
    + rewrite String.eqb_refl. reflexivity.
    + rewrite Hk. exact IH.
Qed.

(** The task of a job that is not in the registry: the first write raises,
    and so does the first write of the exception handler. *)
Lemma run_ingestion_job_untracked job_id service ingestion meanwhile active_jobs :
  jobs_get job_id active_jobs = None ->
  run_ingestion_job job_id service ingestion meanwhile active_jobs
  = (Raise (Exception ("KeyError: " ++ job_id)), active_jobs).
Proof.
  intros Hjob. unfold run_ingestion_job, run_ingestion_job_try.
  rewrite (job_bind_Raise (mark_running job_id) _ active_jobs _ active_jobs
             (mark_untracked _ _ _ _ Hjob)).
  unfold mark_failed. apply mark_untracked. exact Hjob.
Qed.

(** X28: run_ingestion_job: a job that is no longer in the registry when the
    task starts, or when the ingestion ends, makes the task raise KeyError
    out of its own exception handler.  Otherwise no exception escapes and the
    job ends as 'completed' with its summary or as 'failed' with the error,
    whatever status the other handlers gave it meanwhile; the other jobs are
    left as they were.  In particular the task of a job that start_ingestion
    queued and cancel_job removed before the task started ends with that
    KeyError. *)
Theorem run_ingestion_job_registry job_id service ingestion meanwhile active_jobs :
  let outcome := run_ingestion_job job_id service ingestion meanwhile active_jobs in
  let running := snd (mark_running job_id active_jobs) in
  (jobs_get job_id active_jobs = None ->
   outcome = (Raise (Exception ("KeyError: " ++ job_id)), active_jobs))
  /\ (forall job e,
        jobs_get job_id active_jobs = Some job ->
        service = Raise e ->
        fst outcome = Return tt
        /\ jobs_get job_id (snd outcome)
           = Some {| Job.status := "failed";
                     Job.message := IngestionFailed e;
                     Job.created_at := Job.created_at job;
                     Job.summary := Job.summary job;
                     Job.error := Some e |}
        /\ forall other, other <> job_id ->
             jobs_get other (snd outcome) = jobs_get other active_jobs)
  /\ (forall job job',
        jobs_get job_id active_jobs = Some job ->
        service = Return tt ->
        jobs_get job_id (meanwhile running) = Some job' ->
        fst outcome = Return tt
        /\ jobs_get job_id (snd outcome) = Some (finished_job ingestion job')
        /\ Job.status (finished_job ingestion job')
           = match ingestion with Return _ => "completed" | Raise _ => "failed" end
        /\ forall other, other <> job_id ->
             jobs_get other (snd outcome) = jobs_get other (meanwhile running))
  /\ (forall job,
        jobs_get job_id active_jobs = Some job ->
        service = Return tt ->
        jobs_get job_id (meanwhile running) = None ->
        outcome = (Raise (Exception ("KeyError: " ++ job_id)), meanwhile running))
  /\ (forall path_exists path_is_dir time,
        let queued :=
          snd (start_ingestion path_exists path_is_dir job_id None time active_jobs) in
        let removed := snd (cancel_job job_id queued) in
        jobs_get job_id queued = Some (queued_job time)
        /\ fst (cancel_job job_id queued) = Ok (Removed job_id)
        /\ run_ingestion_job job_id service ingestion meanwhile removed
           = (Raise (Exception ("KeyError: " ++ job_id)), removed)).
Proof.
  cbv zeta. split; [|split; [|split; [|split]]].
  - apply run_ingestion_job_untracked.
  - intros job e Hjob ->.
    unfold run_ingestion_job, run_ingestion_job_try.
    destruct (mark_running_tracked job_id active_jobs job Hjob)
      as (Hret & Hget & Hother & _).
    destruct (mark_running job_id active_jobs) as [[[]|e'] running] eqn:Hrunning;
      cbn [fst snd] in *; [|discriminate].
    rewrite (job_bind_Return _ _ _ _ _ Hrunning).
    rewrite (job_bind_Raise (fun jobs => (Raise e, jobs)) _ running e running eq_refl).
    destruct (mark_failed_tracked job_id e running _ Hget)
      as (Hdone & Hget' & Hother' & _).
    split; [exact Hdone|]. split; [exact Hget'|].
    intros other Hne. rewrite Hother', Hother by exact Hne. reflexivity.
  - intros job job' Hjob -> Hlater.
    destruct (run_ingestion_job_tracked job_id ingestion meanwhile active_jobs
                job job' Hjob Hlater) as (Hret & Hget & Hother & _).
    split; [exact Hret|]. split; [exact Hget|].
    split; [destruct ingestion; reflexivity|exact Hother].
  - intros job Hjob -> Hlater.
    unfold run_ingestion_job, run_ingestion_job_try.
    destruct (mark_running_tracked job_id active_jobs job Hjob) as (Hret & _).
    destruct (mark_running job_id active_jobs) as [[[]|e'] running] eqn:Hrunning;
      cbn [fst snd] in *; [|discriminate].
    rewrite (job_bind_Return _ _ _ _ _ Hrunning).
    rewrite (job_bind_Return (fun jobs => (Return tt, jobs)) _ running tt running
               eq_refl).
    destruct ingestion as [summary|e].
    + rewrite (job_bind_Return (fun jobs => (Return summary, meanwhile jobs)) _
                 running summary (meanwhile running) eq_refl).
      unfold mark_completed. rewrite (mark_untracked _ _ _ _ Hlater).
      unfold mark_failed. apply mark_untracked. exact Hlater.
    + rewrite (job_bind_Raise (fun jobs => (Raise e, meanwhile jobs)) _
                 running e (meanwhile running) eq_refl).
      unfold mark_failed. apply mark_untracked. exact Hlater.
  - intros path_exists path_is_dir time.
    unfold start_ingestion. cbn [snd].
    pose proof (jobs_get_dict_set job_id (queued_job time) active_jobs) as Hqueued.
    split; [exact Hqueued|].
    unfold cancel_job. rewrite Hqueued. cbn [queued_job Job.status].
    change (String.eqb "started" "running") with false. cbn [fst snd].
    split; [reflexivity|].
    apply run_ingestion_job_untracked.
    rewrite jobs_get_del, String.eqb_refl. reflexivity.
Qed.

Lemma jobs_update_update job_id first second (active_jobs : Jobs) :
  jobs_update job_id second (jobs_update job_id first active_jobs)
  = jobs_update job_id (fun job => second (first job)) active_jobs.
Proof.
  unfold jobs_update. rewrite map_map. apply map_ext. intros [k job]. cbn [fst snd].
  destruct (String.eqb job_id k) eqn:Hk; cbn [fst snd]; rewrite Hk; reflexivity.
Qed.

Lemma jobs_update_ext job_id set_ set_' (active_jobs : Jobs) :
  (forall job, set_ job = set_' job) ->
  jobs_update job_id set_ active_jobs = jobs_update job_id set_' active_jobs.
Proof.
  intros Hext. unfold jobs_update. apply map_ext. intros [k job]. cbn [fst snd].
  rewrite Hext. reflexivity.
Qed.

Lemma job_setitem_update job_id set_ active_jobs job :
  jobs_get job_id active_jobs = Some job ->
  job_setitem job_id set_ active_jobs = (Return tt, jobs_update job_id set_ active_jobs).
Proof. intros Hjob. unfold job_setitem. rewrite Hjob. reflexivity. Qed.

Lemma jobs_get_update_same job_id set_ active_jobs job :
  jobs_get job_id active_jobs = Some job ->
  jobs_get job_id (jobs_update job_id set_ active_jobs) = Some (set_ job).
Proof.
  intros Hjob. rewrite jobs_get_update, String.eqb_refl, Hjob. reflexivity.
Qed.

Lemma mark_completed_update job_id summary active_jobs job :
  jobs_get job_id active_jobs = Some job ->
  mark_completed job_id summary active_jobs
  = (Return tt, jobs_update job_id (finished_job (Return summary)) active_jobs).
Proof.
  intros Hjob. unfold mark_completed.
  rewrite (job_bind_Return _ _ _ _ _ (job_setitem_update _ _ _ _ Hjob)).
  pose proof (jobs_get_update_same job_id (Job.set_status "completed") _ _ Hjob) as H1.
  rewrite (job_bind_Return _ _ _ _ _ (job_setitem_update _ _ _ _ H1)).
  pose proof (jobs_get_update_same job_id
                (Job.set_message
                   (IngestionCompletedProcessed
                      (IngestionSummary.total_records_inserted summary))) _ _ H1) as H2.
  rewrite (job_setitem_update _ _ _ _ H2), !jobs_update_update. reflexivity.
Qed.

Lemma mark_failed_update job_id e active_jobs job :
  jobs_get job_id active_jobs = Some job ->
  mark_failed job_id e active_jobs
  = (Return tt, jobs_update job_id (finished_job (Raise e)) active_jobs).
Proof.
  intros Hjob. unfold mark_failed.
  rewrite (job_bind_Return _ _ _ _ _ (job_setitem_update _ _ _ _ Hjob)).
  pose proof (jobs_get_update_same job_id (Job.set_status "failed") _ _ Hjob) as H1.
  rewrite (job_bind_Return _ _ _ _ _ (job_setitem_update _ _ _ _ H1)).
  pose proof (jobs_get_update_same job_id (Job.set_message (IngestionFailed e))
                _ _ H1) as H2.
  rewrite (job_setitem_update _ _ _ _ H2), !jobs_update_update. reflexivity.
Qed.

Lemma mark_cancelled_update job_id active_jobs job :
  jobs_get job_id active_jobs = Some job ->
  mark_cancelled job_id active_jobs
  = (Return tt,
     jobs_update job_id
       (fun job => Job.set_message (JobText "Job cancelled by user")
                     (Job.set_status "cancelled" job)) active_jobs).
Proof.
  intros Hjob. unfold mark_cancelled.
  rewrite (job_bind_Return _ _ _ _ _ (job_setitem_update _ _ _ _ Hjob)).
  pose proof (jobs_get_update_same job_id (Job.set_status "cancelled") _ _ Hjob) as H1.
  rewrite (job_setitem_update _ _ _ _ H1), !jobs_update_update. reflexivity.
Qed.

(** The end of a run whose job is tracked after the awaited ingestion. *)
Lemma run_ingestion_job_update job_id ingestion meanwhile active_jobs job job' :
  jobs_get job_id active_jobs = Some job ->
  jobs_get job_id (meanwhile (snd (mark_running job_id active_jobs))) = Some job' ->
  run_ingestion_job job_id (Return tt) ingestion meanwhile active_jobs
  = (Return tt,
     jobs_update job_id (finished_job ingestion)
       (meanwhile (snd (mark_running job_id active_jobs)))).
Proof.
  intros Hjob Hlater. unfold run_ingestion_job, run_ingestion_job_try.
  destruct (mark_running_tracked job_id active_jobs job Hjob) as (Hret & _).
  destruct (mark_running job_id active_jobs) as [[[]|e] running] eqn:Hrunning;
    cbn [fst snd] in *; [|discriminate].
  rewrite (job_bind_Return _ _ _ _ _ Hrunning).
  rewrite (job_bind_Return (fun jobs => (Return tt, jobs)) _ running tt running eq_refl).
  destruct ingestion as [summary|e].
  - rewrite (job_bind_Return (fun jobs => (Return summary, meanwhile jobs)) _
               running summary (meanwhile running) eq_refl).
    rewrite (mark_completed_update _ _ _ _ Hlater). reflexivity.
  - rewrite (job_bind_Raise (fun jobs => (Raise e, meanwhile jobs)) _
               running e (meanwhile running) eq_refl).
    apply (mark_failed_update _ _ _ _ Hlater).
Qed.

(** X29: cancelling a job while it runs only changes its status to
    'cancelled' until the ingestion ends: the ingestion runs to its end, the
    job is then 'completed' or 'failed', and the registry is the same as if
    the job had never been cancelled. *)
Theorem cancelled_job_runs_to_its_end job_id ingestion active_jobs job :
  jobs_get job_id active_jobs = Some job ->
  let cancel := fun running => snd (cancel_job job_id running) in
  let outcome := run_ingestion_job job_id (Return tt) ingestion cancel active_jobs in
  fst (cancel_job job_id (snd (mark_running job_id active_jobs)))
  = Ok (MarkedForCancellation job_id)
  /\ (exists cancelled,
        jobs_get job_id (cancel (snd (mark_running job_id active_jobs)))
        = Some cancelled
        /\ Job.status cancelled = "cancelled")
  /\ fst outcome = Return tt
  /\ (exists job',
        jobs_get job_id (snd outcome) = Some job'
        /\ Job.status job'
           = match ingestion with Return _ => "completed" | Raise _ => "failed" end
        /\ Job.summary job'
           = match ingestion with
             | Return summary => Some summary
             | Raise _ => Job.summary job
             end
        /\ Job.created_at job' = Job.created_at job)
  /\ outcome
     = run_ingestion_job job_id (Return tt) ingestion (fun running => running)
         active_jobs.
Proof.
  intros Hjob. cbv zeta.
  destruct (mark_running_tracked job_id active_jobs job Hjob)
    as (_ & Hget & _ & _).
  set (running := snd (mark_running job_id active_jobs)) in *.
  assert (Hcancel :
            cancel_job job_id running
            = (Ok (MarkedForCancellation job_id),
               jobs_update job_id
                 (fun job => Job.set_message (JobText "Job cancelled by user")
                               (Job.set_status "cancelled" job)) running)).
  { unfold cancel_job. rewrite Hget. cbn [Job.status Job.set_message Job.set_status].
    rewrite String.eqb_refl, (mark_cancelled_update _ _ _ Hget). reflexivity. }
  pose proof (jobs_get_update_same job_id
                (fun job => Job.set_message (JobText "Job cancelled by user")
                              (Job.set_status "cancelled" job)) _ _ Hget) as Hcancelled.
  split; [rewrite Hcancel; reflexivity|].
  split; [eexists; rewrite Hcancel; split; [exact Hcancelled|reflexivity]|].
  rewrite (run_ingestion_job_update job_id ingestion
             (fun running => snd (cancel_job job_id running)) active_jobs job _ Hjob)
    by (fold running; rewrite Hcancel; exact Hcancelled).
  rewrite (run_ingestion_job_update job_id ingestion (fun running => running)
             active_jobs job _ Hjob Hget).
  fold running. rewrite Hcancel. cbn [fst snd].
  split; [reflexivity|]. split.
  - eexists. split; [apply (jobs_get_update_same _ _ _ _ Hcancelled)|].
    destruct ingestion; cbn; repeat split; reflexivity.
  - f_equal. rewrite jobs_update_update. apply jobs_update_ext.
    intros []. destruct ingestion; reflexivity.
Qed.

Lemma cancelled_job_witness :
  exists job',
    jobs_get "job-1"
      (snd (run_ingestion_job "job-1" (Return tt) (Return sample_summary)
              (fun running => snd (cancel_job "job-1" running)) tracked_job))
    = Some job'
    /\ Job.status job' = "completed".
Proof.
  destruct (cancelled_job_runs_to_its_end "job-1" (Return sample_summary) tracked_job
              (queued_job 10%float) eq_refl)
    as (_ & _ & _ & (job' & Hget & Hstatus & _) & _).
  exists job'. split; assumption.
Defined.

Lemma insert_newest_first_Permutation job sorted :
  Permutation (insert_newest_first job sorted) (job :: sorted).
Proof.
  induction sorted as [|j rest IH]; cbn [insert_newest_first]; [reflexivity|].
  destruct (PrimFloat.ltb _ _); [|reflexivity].
  rewrite IH. apply perm_swap.
Qed.

Lemma sort_newest_first_Permutation jobs :
  Permutation (sort_newest_first jobs) jobs.
Proof.
  induction jobs as [|job rest IH]; cbn [sort_newest_first fold_right]; [reflexivity|].
  rewrite insert_newest_first_Permutation. apply perm_skip. exact IH.
Qed.

Lemma slice_to_firstn {A} limit (l : list A) :
  exists n, slice_to limit l = firstn n l
            /\ (0 <= limit -> n = Z.to_nat limit).
Proof.
  unfold slice_to. destruct (Z.ltb_spec limit 0).
  - eexists. split; [reflexivity|lia].
  - eexists. split; [reflexivity|reflexivity].
Qed.

Lemma In_firstn {A} n (l : list A) x : In x (firstn n l) -> In x l.
Proof.
  intros Hin. rewrite <- (firstn_skipn n l). apply in_or_app. left. exact Hin.
Qed.

Lemma In_slice_to {A} limit (l : list A) x : In x (slice_to limit l) -> In x l.
Proof.
  destruct (slice_to_firstn limit l) as (n & -> & _). apply In_firstn.
Qed.

Lemma insert_newest_first_sorted job sorted :
  PrimFloat.is_nan (JobInfo.created_at job) = false ->
  Forall (fun j => PrimFloat.is_nan (JobInfo.created_at j) = false) sorted ->
  StronglySorted not_older sorted ->
  StronglySorted not_older (insert_newest_first job sorted).
Proof.
  intros Hjob Hnan Hsorted.
  induction sorted as [|j rest IH]; cbn [insert_newest_first].
  - constructor; constructor.
  - apply List.Forall_cons_iff in Hnan as [Hj Hnan].
    apply StronglySorted_inv in Hsorted as [Hsorted Hall].
    destruct (PrimFloat.ltb (JobInfo.created_at job) (JobInfo.created_at j)) eqn:Hlt.
    + constructor; [apply IH; assumption|].
      apply List.Forall_forall. intros x Hx.
      apply (Permutation_in _ (insert_newest_first_Permutation job rest)) in Hx.
      destruct Hx as [<-|Hx].
      * apply float_ltb_leb'. exact Hlt.
      * rewrite List.Forall_forall in Hall. apply Hall. exact Hx.
    + constructor; [constructor; assumption|].
      assert (Hfirst : not_older job j) by (apply float_ltb_leb; assumption).
      constructor; [exact Hfirst|].
      apply List.Forall_forall. intros x Hx.
      rewrite List.Forall_forall in Hall. specialize (Hall x Hx).
      unfold not_older in *. eapply float_leb_trans; eassumption.
Qed.

Lemma sort_newest_first_sorted jobs :
  Forall (fun j => PrimFloat.is_nan (JobInfo.created_at j) = false) jobs ->
  StronglySorted not_older (sort_newest_first jobs).
Proof.
  induction jobs as [|job rest IH]; intros Hnan; cbn [sort_newest_first fold_right].
  - constructor.
  - apply List.Forall_cons_iff in Hnan as [Hjob Hnan].
    apply insert_newest_first_sorted; [exact Hjob| |apply IH; exact Hnan].
    apply List.Forall_forall. intros x Hx.
    apply (Permutation_in _ (sort_newest_first_Permutation rest)) in Hx.
    rewrite List.Forall_forall in Hnan. apply Hnan. exact Hx.
Qed.

Lemma StronglySorted_firstn_skipn {A} (R : A -> A -> Prop) n l :
  StronglySorted R l ->
  StronglySorted R (firstn n l)
  /\ forall x y, In x (firstn n l) -> In y (skipn n l) -> R x y.
Proof.
  revert l. induction n as [|n IH]; intros l Hsorted.
  - cbn. split; [constructor|]. intros x y [].
  - destruct l as [|a l]; cbn [firstn skipn].
    + split; [constructor|]. intros x y [].
    + apply StronglySorted_inv in Hsorted as [Hsorted Hall].
      destruct (IH l Hsorted) as [Hfirst Hcross]. split.
      * constructor; [exact Hfirst|].
        apply List.Forall_forall. intros x Hx. rewrite List.Forall_forall in Hall.
        apply Hall. apply (In_firstn n). exact Hx.
      * intros x y [<-|Hx] Hy.
        -- rewrite List.Forall_forall in Hall. apply Hall.
           rewrite <- (firstn_skipn n l). apply in_or_app. right. exact Hy.
        -- apply Hcross; assumption.
Qed.

(** X30: list_jobs lists jobs of the registry only, each at most once, all
    of them with the requested status when one is given, and at most [limit]
    of them; they come newest first, and a job that is left out is not newer
    than any listed job. *)
Theorem list_jobs_listing status limit current_time active_jobs :
  let listed := list_jobs status limit current_time active_jobs in
  let matching := List.filter (status_filter status) active_jobs in
  Forall (fun info => exists item,
              In item matching /\ info = job_info current_time item) listed
  /\ (forall wanted,
        status = Some wanted -> wanted <> "" ->
        Forall (fun info => JobInfo.status info = wanted) listed)
  /\ ((status = None \/ status = Some "") -> matching = active_jobs)
  /\ (0 <= limit ->
      length listed = Nat.min (Z.to_nat limit) (length matching))
  /\ (NoDup (map fst active_jobs) -> NoDup (map JobInfo.job_id listed))
  /\ (Forall (fun item => PrimFloat.is_nan (Job.created_at (snd item)) = false)
        active_jobs ->
      StronglySorted not_older listed
      /\ forall item,
           In item matching ->
           In (job_info current_time item) listed
           \/ Forall (fun info => not_older info (job_info current_time item)) listed).
Proof.
  cbv zeta. unfold list_jobs.
  set (matching := List.filter (status_filter status) active_jobs).
  set (sorted := sort_newest_first (map (job_info current_time) matching)).
  assert (Hperm : Permutation sorted (map (job_info current_time) matching))
    by apply sort_newest_first_Permutation.
  destruct (slice_to_firstn limit sorted) as (n & Hslice & Hn). rewrite Hslice.
  assert (Hfrom : forall info, In info (firstn n sorted) ->
                    exists item, In item matching /\ info = job_info current_time item).
  { intros info Hin. apply In_firstn in Hin.
    apply (Permutation_in _ Hperm) in Hin. apply in_map_iff in Hin as (item & <- & Hin).
    exists item. split; [exact Hin|reflexivity]. }
  split; [apply List.Forall_forall; exact Hfrom|].
  split.
  { intros wanted -> Hwanted. apply List.Forall_forall. intros info Hin.
    destruct (Hfrom info Hin) as (item & Hitem & ->).
    apply List.filter_In in Hitem as [_ Hitem]. cbn [job_info JobInfo.status].
    unfold status_filter in Hitem. destruct wanted as [|c wanted]; [contradiction|].
    apply String.eqb_eq. exact Hitem. }
  split.
  { intros Hall. subst matching. clear -Hall.
    assert (Htrue : forall item, status_filter status item = true)
      by (intros item; destruct Hall as [-> | ->]; reflexivity).
    induction active_jobs as [|item rest IH]; cbn [List.filter]; [reflexivity|].
    rewrite Htrue, IH. reflexivity. }
  split.
  { intros Hlimit. rewrite length_firstn, (Hn Hlimit), (Permutation_length Hperm),
      length_map. reflexivity. }
  split.
  { intros Hnodup.
    assert (Hsorted_keys : List.NoDup (map JobInfo.job_id sorted)).
    { apply (Permutation_NoDup (l := map JobInfo.job_id (map (job_info current_time) matching))).
      - apply Permutation_map. symmetry. exact Hperm.
      - rewrite map_map. cbn [job_info JobInfo.job_id].
        apply NoDup_ListNoDup in Hnodup. subst matching. clear -Hnodup.
        induction active_jobs as [|item rest IH]; cbn [List.filter map]; [constructor|].
        cbn [map] in Hnodup. apply List.NoDup_cons_iff in Hnodup as [Hnotin Hnodup].
        destruct (status_filter status item); cbn [map]; [|apply IH; exact Hnodup].
        constructor; [|apply IH; exact Hnodup].
        intros Hin. apply Hnotin. apply in_map_iff in Hin as (x & Hx & Hin).
        apply in_map_iff. exists x. split; [exact Hx|].
        apply List.filter_In in Hin as [Hin _]. exact Hin. }
    apply NoDup_ListNoDup.
    rewrite <- (firstn_skipn n sorted), map_app in Hsorted_keys.
    apply List.NoDup_app_remove_r in Hsorted_keys. exact Hsorted_keys. }
  intros Hnan.
  assert (Hsorted : StronglySorted not_older sorted).
  { apply sort_newest_first_sorted. apply List.Forall_forall. intros info Hin.
    apply in_map_iff in Hin as (item & <- & Hin). cbn [job_info JobInfo.created_at].
    apply List.filter_In in Hin as [Hin _].
    rewrite List.Forall_forall in Hnan. apply Hnan. exact Hin. }
  destruct (StronglySorted_firstn_skipn not_older n sorted Hsorted) as [Hfirst Hcross].
  split; [exact Hfirst|].
  intros item Hitem.
  assert (Hin : In (job_info current_time item) sorted).
  { apply (Permutation_in _ (Permutation_sym Hperm)). apply in_map. exact Hitem. }
  rewrite <- (firstn_skipn n sorted) in Hin. apply in_app_or in Hin as [Hin|Hin].
  - left. exact Hin.
  - right. apply List.Forall_forall. intros info Hinfo. apply Hcross; assumption.
Qed.
